(** * LinkSeg layer modules ([src/modules.py]): shape and value contracts

    A shallow embedding of the forward computations of [modules.py].

    - Shapes are lists of naturals, as [torch.Size].
    - A tensor is its shape together with its indexing function; entries are
      real numbers (rounding is not modelled; the one floating-point effect
      the masking relies on, the underflow of [exp] to zero, is; overflow is
      excluded by hypothesis where a statement is about attention weights,
      see [scores_in_format]).
    - A Python exception is a value of [exn]; every forward computation
      returns a [result].
    - Learned parameters and the random draws of dropout are explicit
      arguments. *)

From Stdlib Require Import List Arith Bool String Lia.
From Stdlib Require Import Reals Lra.
Import ListNotations.

Set Implicit Arguments.

(** ** Exceptions and results *)

Inductive exn : Type :=
| AssertionError (msg : string)
| ValueError
| RuntimeError
| ZeroDivisionError
| EinopsError
| IndexError
| DGLError.

Inductive result (A : Type) : Type :=
| Ok (a : A)
| Raise (e : exn).

Arguments Ok {A} a.
Arguments Raise {A} e.

Definition bind {A B : Type} (r : result A) (k : A -> result B) : result B :=
  match r with
  | Ok a => k a
  | Raise e => Raise e
  end.

Declare Scope result_scope.
Delimit Scope result_scope with result.
Notation "x <- r ;; k" := (bind r (fun x => k))
  (at level 61, r at next level, right associativity) : result_scope.
Open Scope result_scope.

Definition succeeds {A : Type} (r : result A) : Prop := exists a, r = Ok a.
Definition fails {A : Type} (r : result A) : Prop := exists e, r = Raise e.

(** ** Shapes *)

Definition shape_t := list nat.

Fixpoint prod (s : shape_t) : nat :=
  match s with
  | [] => 1
  | d :: s' => d * prod s'
  end.

(** Broadcasting of two shapes, right aligned ([torch.broadcast_shapes]);
    both arguments are given reversed, innermost axis first. *)
Fixpoint broadcast_rev (s1 s2 : shape_t) : result shape_t :=
  match s1, s2 with
  | [], _ => Ok s2
  | _, [] => Ok s1
  | d1 :: r1, d2 :: r2 =>
      r <- broadcast_rev r1 r2 ;;
      if d1 =? d2 then Ok (d1 :: r)
      else if d1 =? 1 then Ok (d2 :: r)
      else if d2 =? 1 then Ok (d1 :: r)
      else Raise RuntimeError
  end.

Definition broadcast_shapes (s1 s2 : shape_t) : result shape_t :=
  r <- broadcast_rev (rev s1) (rev s2) ;; Ok (rev r).

Definition shape_eqb (s1 s2 : shape_t) : bool :=
  if list_eq_dec Nat.eq_dec s1 s2 then true else false.

(** ** Shape contracts of the [torch.nn] layers of the front end *)

Module Shapes.

(** Output length of one spatial axis of [nn.Conv2d] / [nn.MaxPool2d]:
    [floor((size + 2*pad - dil*(k-1) - 1) / stride) + 1], an error when the
    padded input is smaller than the (dilated) kernel. *)
Definition window_out (size k pad dil stride : nat) : result nat :=
  if size + 2 * pad <? dil * (k - 1) + 1 then Raise RuntimeError
  else Ok ((size + 2 * pad - dil * (k - 1) - 1) / stride + 1).

(** [nn.Conv2d(cin, cout, k, padding=pad)], stride 1, dilation 1.  A layer
    built with no input or no output channels has an empty weight, and the
    convolution refuses it whatever the input is. *)
Definition Conv2d (cin cout k pad : nat) (s : shape_t) : result shape_t :=
  if (cin =? 0) || (cout =? 0) then Raise RuntimeError
  else
    match s with
    | [b; c; h; w] =>
        if c =? cin then
          h' <- window_out h k pad 1 1 ;;
          w' <- window_out w k pad 1 1 ;;
          Ok [b; cout; h'; w']
        else Raise RuntimeError
    | [c; h; w] =>
        if c =? cin then
          h' <- window_out h k pad 1 1 ;;
          w' <- window_out w k pad 1 1 ;;
          Ok [cout; h'; w']
        else Raise RuntimeError
    | _ => Raise RuntimeError
    end.

(** [nn.BatchNorm2d(c)] with the default affine parameters and running
    statistics: a 4D input; in training mode more than one value per channel;
    an input without entries is returned scaled by [weight[0]] and shifted by
    [bias[0]], with no test of its channel axis, and these two reads are out
    of range when the layer has no features ([c = 0]); any other input must
    have [c] entries on its channel axis. *)
Definition BatchNorm2d (training : bool) (c : nat) (s : shape_t) : result shape_t :=
  match s with
  | [b; c'; h; w] =>
      if training && (b * h * w =? 1) then Raise ValueError
      else if b * c' * h * w =? 0 then
        if c =? 0 then Raise IndexError else Ok s
      else if c' =? c then Ok s
      else Raise RuntimeError
  | _ => Raise ValueError
  end.

(** [nn.ELU()] is elementwise. *)
Definition ELU (s : shape_t) : result shape_t := Ok s.

(** [nn.MaxPool2d(pooling)]: the stride is the kernel, no padding. *)
Definition MaxPool2d (pooling : nat * nat) (s : shape_t) : result shape_t :=
  let (kh, kw) := pooling in
  match s with
  | [b; c; h; w] =>
      h' <- window_out h kh 0 1 kh ;;
      w' <- window_out w kw 0 1 kw ;;
      Ok [b; c; h'; w']
  | [c; h; w] =>
      h' <- window_out h kh 0 1 kh ;;
      w' <- window_out w kw 0 1 kw ;;
      Ok [c; h'; w']
  | _ => Raise RuntimeError
  end.

(** [nn.Dropout] is elementwise. *)
Definition Dropout (s : shape_t) : result shape_t := Ok s.

(** [nn.Linear(fin, fout)]: the last axis must have [fin] entries. *)
Definition Linear (fin fout : nat) (s : shape_t) : result shape_t :=
  match rev s with
  | d :: pre => if d =? fin then Ok (rev (fout :: pre)) else Raise RuntimeError
  | [] => Raise RuntimeError
  end.

(** [x + out] *)
Definition add (s1 s2 : shape_t) : result shape_t := broadcast_shapes s1 s2.

(** *** [Res2DMaxPoolModule] *)

Record Res2DMaxPoolModule : Type := {
  input_channels : nat;
  output_channels : nat;
  pooling : nat * nat;
}.

(** [self.diff]: the projection branch exists exactly when the channel
    counts differ. *)
Definition diff (m : Res2DMaxPoolModule) : bool :=
  negb (input_channels m =? output_channels m).

Definition Res2DMaxPoolModule_forward (training : bool)
    (m : Res2DMaxPoolModule) (x : shape_t) : result shape_t :=
  let cin := input_channels m in
  let cout := output_channels m in
  o <- Conv2d cin cout 3 1 x ;;
  o <- BatchNorm2d training cout o ;;
  o <- ELU o ;;
  o <- Conv2d cout cout 3 1 o ;;
  out <- BatchNorm2d training cout o ;;
  x <- (if diff m
        then (p <- Conv2d cin cout 3 1 x ;; BatchNorm2d training cout p)
        else Ok x) ;;
  out <- add x out ;;
  o <- ELU out ;;
  MaxPool2d (pooling m) o.

(** *** [ResFrontEnd] *)

Record ResFrontEnd : Type := {
  conv_ndim : nat;
  nharmonics : nat;
  nmels : nat;
  output_size : nat;
}.

Definition layer1 (m : ResFrontEnd) : Res2DMaxPoolModule :=
  {| input_channels := nharmonics m; output_channels := conv_ndim m; pooling := (2, 2) |}.
Definition layer2 (m : ResFrontEnd) : Res2DMaxPoolModule :=
  {| input_channels := conv_ndim m; output_channels := conv_ndim m; pooling := (2, 2) |}.
Definition layer3 (m : ResFrontEnd) : Res2DMaxPoolModule :=
  {| input_channels := conv_ndim m; output_channels := conv_ndim m; pooling := (2, 1) |}.

Definition fc_dim (m : ResFrontEnd) : nat :=
  nmels m / 2 / 2 / 2 * conv_ndim m.

(** The three residual blocks, [self.layer1] to [self.layer3], after the
    input normalization. *)
Definition ResFrontEnd_cnn (training : bool) (m : ResFrontEnd) (hcqt : shape_t)
    : result shape_t :=
  out <- BatchNorm2d training (nharmonics m) hcqt ;;
  out <- Res2DMaxPoolModule_forward training (layer1 m) out ;;
  out <- Res2DMaxPoolModule_forward training (layer2 m) out ;;
  Res2DMaxPoolModule_forward training (layer3 m) out.

(** [out.permute(0, 3, 1, 2).contiguous().view(b, t, -1)]: the inferred axis
    is ambiguous, an error, when [b * t = 0]. *)
Definition permute_view (s : shape_t) : result shape_t :=
  match s with
  | [b; c; f; t] =>
      if b * t =? 0 then Raise RuntimeError else Ok [b; t; c * f]
  | _ => Raise ValueError
  end.

Definition ResFrontEnd_forward (training : bool) (m : ResFrontEnd) (hcqt : shape_t)
    : result shape_t :=
  out <- ResFrontEnd_cnn training m hcqt ;;
  out <- permute_view out ;;
  out <- Dropout out ;;
  Linear (fc_dim m) (output_size m) out.

End Shapes.

(** ** Tensors with values *)

Record tensor (A : Type) : Type := Tensor {
  shape : shape_t;
  get : list nat -> A;
}.

Local Open Scope R_scope.

(** Sum and maximum of [f 0], ..., [f (n-1)]. *)
Fixpoint sum_n (n : nat) (f : nat -> R) : R :=
  match n with
  | O => 0
  | S k => sum_n k f + f k
  end.

Fixpoint max_n (n : nat) (f : nat -> R) : R :=
  match n with
  | O => f O
  | S O => f O
  | S k => Rmax (max_n k f) (f k)
  end.

(** The entries of [f] at the positions [j < n] that [keep] selects. *)
Definition sum_where (n : nat) (keep : nat -> bool) (f : nat -> R) : R :=
  sum_n n (fun j => if keep j then f j else 0).

(** The floating-point format of a tensor ([dots.dtype]): its largest finite
    value, [torch.finfo(dtype).max], and a margin [uflow] such that [exp x]
    is rounded to zero for every [x <= - uflow]. *)
Record float_format : Type := {
  finfo_max : R;
  uflow : R;
}.

(** [torch.float32]: the largest value is [2^128 - 2^104], and [exp x] is
    below half the smallest subnormal [2^-149] from [x = -104] on. *)
Definition float32 : float_format :=
  {| finfo_max := 340282346638528859811704183484516925440; uflow := 104 |}.

(** [exp] in the format: zero from the underflow margin down, and the real
    exponential above it. *)
Definition fexp (fmt : float_format) (x : R) : R :=
  if Rle_dec x (- uflow fmt) then 0 else exp x.

(** [t.softmax(dim=-1)]: along the last axis, of length [m], the entry [j]
    is [exp (x_j - max x)] divided by the sum of these.  This is the value
    for a row of scores of the format; the code's row is [nan] when a score
    has overflowed to [inf]. *)
Definition softmax_row (fmt : float_format) (m : nat) (row : nat -> R) (j : nat) : R :=
  let top := max_n m row in
  fexp fmt (row j - top) / sum_n m (fun j' => fexp fmt (row j' - top)).

Definition softmax (fmt : float_format) (t : tensor R) : tensor R :=
  {| shape := shape t;
     get := fun ix =>
       let p := removelast ix in
       softmax_row fmt (last (shape t) O) (fun j => get t (p ++ [j])) (last ix O) |}.

(** [nn.ELU()], alpha = 1. *)
Definition elu (x : R) : R := if Rlt_dec 0 x then x else exp x - 1.

(** The index into an operand of shape [s] that broadcasting reads for the
    index [ix] of the result (both reversed, innermost axis first). *)
Fixpoint bindex_rev (s : shape_t) (ix : list nat) : list nat :=
  match s, ix with
  | d :: s', i :: ix' => (if d =? 1 then O else i)%nat :: bindex_rev s' ix'
  | _, _ => []
  end.

Definition bindex (s : shape_t) (ix : list nat) : list nat :=
  rev (bindex_rev (rev s) (rev ix)).

(** The indices of the entries of a tensor of shape [s]. *)
Definition in_bounds (ix : list nat) (s : shape_t) : Prop := Forall2 lt ix s.

(** [a + b] with broadcasting. *)
Definition tadd (a b : tensor R) : result (tensor R) :=
  s <- broadcast_shapes (shape a) (shape b) ;;
  Ok {| shape := s;
        get := fun ix => get a (bindex (shape a) ix) + get b (bindex (shape b) ix) |}.

(** [nn.Dropout(p)]: the identity in evaluation mode; in training mode the
    entries that the Bernoulli draw [keep] retains are scaled by
    [1 / (1 - p)], the others are zero. *)
Inductive mode : Type :=
| Eval
| Train (keep : list nat -> bool).

Definition Dropout (p : R) (md : mode) (t : tensor R) : tensor R :=
  match md with
  | Eval => t
  | Train keep =>
      {| shape := shape t;
         get := fun ix => if keep ix then get t ix / (1 - p) else 0 |}
  end.

(** [nn.Dropout.__init__]: the constructor refuses a probability outside
    [0, 1]. *)
Definition Dropout_init (p : R) : result R :=
  if Rlt_dec p 0 then Raise ValueError
  else if Rlt_dec 1 p then Raise ValueError
  else Ok p.

(** [nn.Linear]: [weight] is indexed [out][in]. *)
Record Linear : Type := {
  in_features : nat;
  out_features : nat;
  weight : nat -> nat -> R;
  bias : option (nat -> R);
}.

Definition Linear_forward (l : Linear) (x : tensor R) : result (tensor R) :=
  match rev (shape x) with
  | d :: pre =>
      if (d =? in_features l)%nat then
        Ok {| shape := rev (out_features l :: pre);
              get := fun ix =>
                let p := removelast ix in
                let o := last ix O in
                sum_n (in_features l) (fun i => get x (p ++ [i]) * weight l o i)
                + match bias l with Some b => b o | None => 0 end |}
      else Raise RuntimeError
  | [] => Raise RuntimeError
  end.

(** [nn.LayerNorm(dim)]: over the last axis, with the biased variance. *)
Record LayerNorm : Type := {
  normalized_shape : nat;
  ln_weight : nat -> R;
  ln_bias : nat -> R;
  eps : R;
}.

Definition LayerNorm_forward (l : LayerNorm) (x : tensor R) : result (tensor R) :=
  match rev (shape x) with
  | d :: _ =>
      if (d =? normalized_shape l)%nat then
        Ok {| shape := shape x;
              get := fun ix =>
                let p := removelast ix in
                let c := last ix O in
                let row := fun j => get x (p ++ [j]) in
                let mean := sum_n d row / INR d in
                let var := sum_n d (fun j => (row j - mean) * (row j - mean)) / INR d in
                (row c - mean) / sqrt (var + eps l) * ln_weight l c + ln_bias l c |}
      else Raise RuntimeError
  | [] => Raise RuntimeError
  end.

(** ** Transformer modules *)

(** *** [Residual] and [PreNorm]

    [K] is the type of the keyword arguments that are passed through to the
    wrapped sub-layer. *)
Section Wrappers.
Context {K : Type}.

Definition sublayer : Type := tensor R -> K -> result (tensor R).

(** [Residual.forward]: [self.fn(x, **kwargs) + x] *)
Definition Residual_forward (fn : sublayer) (x : tensor R) (kwargs : K)
    : result (tensor R) :=
  y <- fn x kwargs ;; tadd y x.

(** [PreNorm.forward]: [self.fn(self.norm(x), **kwargs)] *)
Definition PreNorm_forward (norm : LayerNorm) (fn : sublayer)
    (x : tensor R) (kwargs : K) : result (tensor R) :=
  nx <- LayerNorm_forward norm x ;; fn nx kwargs.

End Wrappers.

(** *** [FeedForward]

    [gelu] stands for [nn.GELU()], an elementwise function. *)
Record FeedForward : Type := {
  ff_dim : nat;
  hidden_dim : nat;
  ff_dropout : R;
  gelu : R -> R;
  ff_w1 : nat -> nat -> R;
  ff_b1 : nat -> R;
  ff_w2 : nat -> nat -> R;
  ff_b2 : nat -> R;
}.

(** [FeedForward.__init__]: the two [nn.Dropout(dropout)] check the
    probability. *)
Definition FeedForward_init (dim hidden_dim : nat) (dropout : R) (gelu : R -> R)
    (w1 : nat -> nat -> R) (b1 : nat -> R) (w2 : nat -> nat -> R) (b2 : nat -> R)
    : result FeedForward :=
  p <- Dropout_init dropout ;;
  p <- Dropout_init p ;;
  Ok {| ff_dim := dim; hidden_dim := hidden_dim; ff_dropout := p; gelu := gelu;
        ff_w1 := w1; ff_b1 := b1; ff_w2 := w2; ff_b2 := b2 |}.

Definition tmap (f : R -> R) (t : tensor R) : tensor R :=
  {| shape := shape t; get := fun ix => f (get t ix) |}.

Definition FeedForward_forward (md1 md2 : mode) (f : FeedForward) (x : tensor R)
    : result (tensor R) :=
  y <- Linear_forward {| in_features := ff_dim f; out_features := hidden_dim f;
                         weight := ff_w1 f; bias := Some (ff_b1 f) |} x ;;
  let y := tmap (gelu f) y in
  let y := Dropout (ff_dropout f) md1 y in
  y <- Linear_forward {| in_features := hidden_dim f; out_features := ff_dim f;
                         weight := ff_w2 f; bias := Some (ff_b2 f) |} y ;;
  Ok (Dropout (ff_dropout f) md2 y).

(** *** [Attention] *)

Record Attention : Type := {
  dim : nat;
  heads : nat;
  dim_head : nat;
  dropout : R;
  qkv_weight : nat -> nat -> R;
  out_weight : nat -> nat -> R;
  out_bias : nat -> R;
}.

Definition inner_dim (a : Attention) : nat := (dim_head a * heads a)%nat.

(** [self.scale = dim_head ** -0.5] *)
Definition scale (a : Attention) : R := / sqrt (INR (dim_head a)).

Definition to_qkv (a : Attention) : Linear :=
  {| in_features := dim a; out_features := (inner_dim a * 3)%nat;
     weight := qkv_weight a; bias := None |}.

Definition to_out (a : Attention) : Linear :=
  {| in_features := inner_dim a; out_features := dim a;
     weight := out_weight a; bias := Some (out_bias a) |}.

(** [Attention.__init__]: [dim_head ** -0.5] divides by zero at
    [dim_head = 0]; then the two projections are built, and the
    [nn.Dropout(dropout)] of [to_out] checks the probability.  The three
    sizes are not compared with each other. *)
Definition Attention_init (dim heads dim_head : nat) (dropout : R)
    (qkv_weight out_weight : nat -> nat -> R) (out_bias : nat -> R)
    : result Attention :=
  if (dim_head =? 0)%nat then Raise ZeroDivisionError
  else
    p <- Dropout_init dropout ;;
    Ok {| dim := dim; heads := heads; dim_head := dim_head;
          dropout := p; qkv_weight := qkv_weight;
          out_weight := out_weight; out_bias := out_bias |}.

(** The [c]-th tensor of [t.chunk(3, dim=-1)], chunks of [ceil(l / 3)]
    entries. *)
Definition chunk3 (c : nat) (t : tensor R) : tensor R :=
  match shape t with
  | [b; n; l] =>
      let w := ((l + 2) / 3)%nat in
      {| shape := [b; n; w];
         get := fun ix =>
           match ix with
           | [bi; i; j] => get t [bi; i; (c * w + j)%nat]
           | _ => 0
           end |}
  | _ => t
  end.

(** [rearrange(t, 'b n (h d) -> b h n d', h=h)]: the length [d] is the
    width divided by [h], a division by zero at [h = 0]. *)
Definition split_heads (h : nat) (t : tensor R) : result (tensor R) :=
  match shape t with
  | [b; n; w] =>
      if (h =? 0)%nat then Raise ZeroDivisionError
      else if (w mod h =? 0)%nat then
        let d := (w / h)%nat in
        Ok {| shape := [b; h; n; d];
              get := fun ix =>
                match ix with
                | [bi; hi; i; c] => get t [bi; i; (hi * d + c)%nat]
                | _ => 0
                end |}
      else Raise EinopsError
  | _ => Raise EinopsError
  end.

(** [rearrange(out, 'b h n d -> b n (h d)')] *)
Definition merge_heads (t : tensor R) : result (tensor R) :=
  match shape t with
  | [b; h; n; d] =>
      Ok {| shape := [b; n; (h * d)%nat];
            get := fun ix =>
              match ix with
              | [bi; i; c] => get t [bi; (c / d)%nat; i; (c mod d)%nat]
              | _ => 0
              end |}
  | _ => Raise EinopsError
  end.

(** [torch.einsum('bhid,bhjd->bhij', q, k) * scale] *)
Definition einsum_qk (sc : R) (q k : tensor R) : result (tensor R) :=
  match shape q, shape k with
  | [b; h; n; d], [b'; h'; m; d'] =>
      if shape_eqb [b; h; d] [b'; h'; d'] then
        Ok {| shape := [b; h; n; m];
              get := fun ix =>
                match ix with
                | [bi; hi; i; j] =>
                    sum_n d (fun c => get q [bi; hi; i; c] * get k [bi; hi; j; c]) * sc
                | _ => 0
                end |}
      else Raise RuntimeError
  | _, _ => Raise RuntimeError
  end.

(** [torch.einsum('bhij,bhjd->bhid', attn, v)] *)
Definition einsum_av (attn v : tensor R) : result (tensor R) :=
  match shape attn, shape v with
  | [b; h; n; m], [b'; h'; m'; d] =>
      if shape_eqb [b; h; m] [b'; h'; m'] then
        Ok {| shape := [b; h; n; d];
              get := fun ix =>
                match ix with
                | [bi; hi; i; c] =>
                    sum_n m (fun j => get attn [bi; hi; i; j] * get v [bi; hi; j; c])
                | _ => 0
                end |}
      else Raise RuntimeError
  | _, _ => Raise RuntimeError
  end.

(** [mask.flatten(1)] *)
Fixpoint unravel (s : shape_t) (j : nat) : list nat :=
  match s with
  | [] => []
  | _ :: s' => (j / prod s')%nat :: unravel s' (j mod prod s')
  end.

Definition flatten1 {A : Type} (m : tensor A) : result (tensor A) :=
  match shape m with
  | b :: (_ :: _) as rest =>
      Ok {| shape := [b; prod rest];
            get := fun ix =>
              match ix with
              | [i; j] => get m (i :: unravel rest j)
              | _ => get m ix
              end |}
  | _ => Raise IndexError
  end.

(** [F.pad(m, (1, 0), value=True)] on the flattened, two-dimensional mask *)
Definition pad_left_true (m : tensor bool) : tensor bool :=
  {| shape := match shape m with [b; l] => [b; S l] | s => s end;
     get := fun ix =>
       match ix with
       | [i; S j] => get m [i; j]
       | _ => true
       end |}.

(** [mask[:, None, :] * mask[:, :, None]] *)
Definition pairwise (m : tensor bool) : tensor bool :=
  {| shape := match shape m with [b; l] => [b; l; l] | s => s end;
     get := fun ix =>
       match ix with
       | [bi; i; j] => get m [bi; j] && get m [bi; i]
       | _ => true
       end |}.

(** [~mask] *)
Definition tnot (m : tensor bool) : tensor bool :=
  {| shape := shape m; get := fun ix => negb (get m ix) |}.

(** [dots.masked_fill_(fill, value)]: [fill] is broadcast against [dots];
    the operation is in place, so the broadcast shape must be the shape of
    [dots]. *)
Definition masked_fill_ (dots : tensor R) (fill : tensor bool) (value : R)
    : result (tensor R) :=
  s <- broadcast_shapes (shape dots) (shape fill) ;;
  if shape_eqb s (shape dots) then
    Ok {| shape := shape dots;
          get := fun ix =>
            if get fill (bindex (shape fill) ix) then value else get dots ix |}
  else Raise RuntimeError.

(** [mask_value = -torch.finfo(dots.dtype).max] *)
Definition mask_value (fmt : float_format) : R := - finfo_max fmt.

(** The body of the [if mask is not None:] block; the result is the mask
    left-padded and expanded to pairs, and the scores after the fill. *)
Definition apply_mask (fmt : float_format) (mask : tensor bool) (dots : tensor R)
    : result (tensor bool * tensor R) :=
  m <- flatten1 mask ;;
  let m := pad_left_true m in
  if (last (shape m) O =? last (shape dots) O)%nat then
    let m := pairwise m in
    d <- masked_fill_ dots (tnot m) (mask_value fmt) ;;
    Ok (m, d)
  else Raise (AssertionError "mask has incorrect dimensions").

(** [if mask is not None: ...]: the pairwise mask, when a mask is supplied,
    and the scores that enter the softmax. *)
Definition masking (fmt : float_format) (mask : option (tensor bool))
    (dots_raw : tensor R) : result (option (tensor bool) * tensor R) :=
  match mask with
  | None => Ok (None, dots_raw)
  | Some mask => r <- apply_mask fmt mask dots_raw ;; Ok (Some (fst r), snd r)
  end.

(** The intermediate tensors of one [Attention.forward] call. *)
Record Attention_trace : Type := {
  tr_q : tensor R;
  tr_k : tensor R;
  tr_v : tensor R;
  tr_dots_raw : tensor R;          (* the scaled dot products *)
  tr_mask : option (tensor bool);  (* the pairwise mask, when one is supplied *)
  tr_dots : tensor R;              (* the scores that enter the softmax *)
  tr_attn : tensor R;
  tr_out_heads : tensor R;         (* [einsum('bhij,bhjd->bhid', attn, v)] *)
  tr_out : tensor R;
}.

Definition Attention_run (fmt : float_format) (md : mode) (a : Attention)
    (x : tensor R) (mask : option (tensor bool)) : result Attention_trace :=
  match shape x with
  | [b; n; _] =>
      let h := heads a in
      qkv <- Linear_forward (to_qkv a) x ;;
      q <- split_heads h (chunk3 0 qkv) ;;
      k <- split_heads h (chunk3 1 qkv) ;;
      v <- split_heads h (chunk3 2 qkv) ;;
      dots_raw <- einsum_qk (scale a) q k ;;
      md' <- masking fmt mask dots_raw ;;
      let dots := snd md' in
      let attn := softmax fmt dots in
      out_heads <- einsum_av attn v ;;
      out <- merge_heads out_heads ;;
      out <- Linear_forward (to_out a) out ;;
      let out := Dropout (dropout a) md out in
      Ok {| tr_q := q; tr_k := k; tr_v := v; tr_dots_raw := dots_raw;
            tr_mask := fst md'; tr_dots := dots; tr_attn := attn;
            tr_out_heads := out_heads; tr_out := out |}
  | _ => Raise ValueError
  end.

Definition Attention_forward (fmt : float_format) (md : mode) (a : Attention)
    (x : tensor R) (mask : option (tensor bool)) : result (tensor R) :=
  t <- Attention_run fmt md a x mask ;; Ok (tr_out t).

(** **** Overflow

    The entries are real numbers, so the model follows the code only while
    no value leaves the format: a projection or a score beyond [finfo_max]
    is [inf] in the code, and a softmax row that holds an [inf] is [nan].
    [scores_in_format] delimits the calls whose scores are computed without
    overflow: the input and the weights of [to_qkv] are values of the
    format, and the terms of every projection and of every dot product add
    up, in magnitude, to a value of the format, so that no partial sum
    overflows in whatever order the terms are added. *)
Definition in_format (fmt : float_format) (v : R) : Prop :=
  Rabs v <= finfo_max fmt.

Definition scores_in_format (fmt : float_format) (a : Attention) (x : tensor R)
    (t : Attention_trace) : Prop :=
  match shape x with
  | [b; n; _] =>
      (forall bi i u, (bi < b)%nat -> (i < n)%nat -> (u < dim a)%nat ->
         in_format fmt (get x [bi; i; u])) /\
      (forall o u, (o < inner_dim a * 3)%nat -> (u < dim a)%nat ->
         in_format fmt (qkv_weight a o u)) /\
      (forall bi i o, (bi < b)%nat -> (i < n)%nat -> (o < inner_dim a * 3)%nat ->
         sum_n (dim a) (fun u => Rabs (get x [bi; i; u] * qkv_weight a o u))
         <= finfo_max fmt) /\
      (forall bi hi i j, (bi < b)%nat -> (hi < heads a)%nat -> (i < n)%nat -> (j < n)%nat ->
         sum_n (dim_head a)
           (fun c => Rabs (get (tr_q t) [bi; hi; i; c] * get (tr_k t) [bi; hi; j; c]))
         <= finfo_max fmt)
  | _ => False
  end.

(** The bit of the left-padded mask at row [r], position [i]. *)
Definition padded_bit (mask : tensor bool) (r i : nat) : bool :=
  match i with
  | O => true
  | S j => get mask [r; j]
  end.

(** The row of a [bm]-row mask that the in-place fill reads for head [hi]:
    the mask's batch axis is aligned with the head axis of the scores. *)
Definition mask_row (bm hi : nat) : nat := if (bm =? 1)%nat then O else hi.

(** *** [Transformer] *)

Record Transformer_layer : Type := {
  attn_norm : LayerNorm;
  attn_fn : Attention;
  ff_norm : LayerNorm;
  ff_fn : FeedForward;
}.

(** The draws of the three dropout layers of a transformer layer. *)
Definition layer_modes : Type := (mode * mode * mode)%type.

(** [Residual(PreNorm(dim, Attention(...)))] *)
Definition layer_attn (fmt : float_format) (mds : layer_modes)
    (l : Transformer_layer) : @sublayer (option (tensor bool)) :=
  Residual_forward
    (PreNorm_forward (attn_norm l)
       (fun x mask => Attention_forward fmt (fst (fst mds)) (attn_fn l) x mask)).

(** [Residual(PreNorm(dim, FeedForward(...)))] *)
Definition layer_ff (mds : layer_modes) (l : Transformer_layer) : @sublayer unit :=
  Residual_forward
    (PreNorm_forward (ff_norm l)
       (fun x _ => FeedForward_forward (snd (fst mds)) (snd mds) (ff_fn l) x)).

(** [Transformer.forward]; [draws i] are the dropout draws of layer [i]. *)
Fixpoint Transformer_forward (fmt : float_format) (draws : nat -> layer_modes)
    (layers : list Transformer_layer) (i : nat) (x : tensor R)
    (mask : option (tensor bool)) : result (tensor R) :=
  match layers with
  | [] => Ok x
  | l :: ls =>
      x <- layer_attn fmt (draws i) l x mask ;;
      x <- layer_ff (draws i) l x tt ;;
      Transformer_forward fmt draws ls (S i) x mask
  end.

(** [Transformer.__init__]: [depth] layers, each built from the same sizes,
    the attention first and the feed-forward after it; the learned parameters
    of layer [i] are [ws i].  [nn.LayerNorm(dim)] has [eps = 1e-5]. *)
Record layer_weights : Type := {
  lw_attn_norm_weight : nat -> R;
  lw_attn_norm_bias : nat -> R;
  lw_qkv_weight : nat -> nat -> R;
  lw_out_weight : nat -> nat -> R;
  lw_out_bias : nat -> R;
  lw_ff_norm_weight : nat -> R;
  lw_ff_norm_bias : nat -> R;
  lw_ff_w1 : nat -> nat -> R;
  lw_ff_b1 : nat -> R;
  lw_ff_w2 : nat -> nat -> R;
  lw_ff_b2 : nat -> R;
}.

Definition LayerNorm_init (dim : nat) (w b : nat -> R) : LayerNorm :=
  {| normalized_shape := dim; ln_weight := w; ln_bias := b; eps := / 100000 |}.

Fixpoint Transformer_layers (dim heads dim_head mlp_dim : nat) (dropout : R)
    (act : R -> R) (ws : nat -> layer_weights) (i depth : nat)
    : result (list Transformer_layer) :=
  match depth with
  | O => Ok []
  | S depth' =>
      let w := ws i in
      a <- Attention_init dim heads dim_head dropout
             (lw_qkv_weight w) (lw_out_weight w) (lw_out_bias w) ;;
      f <- FeedForward_init dim mlp_dim dropout act
             (lw_ff_w1 w) (lw_ff_b1 w) (lw_ff_w2 w) (lw_ff_b2 w) ;;
      let l :=
        {| attn_norm := LayerNorm_init dim (lw_attn_norm_weight w) (lw_attn_norm_bias w);
           attn_fn := a;
           ff_norm := LayerNorm_init dim (lw_ff_norm_weight w) (lw_ff_norm_bias w);
           ff_fn := f |} in
      ls <- Transformer_layers dim heads dim_head mlp_dim dropout act ws (S i) depth' ;;
      Ok (l :: ls)
  end.

Definition Transformer_init (dim depth heads dim_head mlp_dim : nat) (dropout : R)
    (act : R -> R) (ws : nat -> layer_weights) : result (list Transformer_layer) :=
  Transformer_layers dim heads dim_head mlp_dim dropout act ws O depth.

(** ** Link feature extractor *)

(** *** [Conv_2d]

    The [torch.nn] layers of a block and its [EMA] attention (a class that
    [modules.py] imports) are functions on tensors, learned parameters
    included. *)
Record Conv_2d : Type := {
  conv : tensor R -> result (tensor R);
  bn : tensor R -> result (tensor R);
  conv_1x1 : tensor R -> result (tensor R);
  bn_1x1 : tensor R -> result (tensor R);
  attention : tensor R -> result (tensor R);
  conv_dropout : R;
}.

Definition Conv_2d_forward (md : mode) (c : Conv_2d) (x : tensor R)
    : result (tensor R) :=
  let features := x in
  x <- conv c x ;;
  x <- attention c x ;;
  x <- bn c x ;;
  s <- conv_1x1 c features ;;
  s <- bn_1x1 c s ;;
  x <- tadd s x ;;
  let x := tmap elu x in
  Ok (Dropout (conv_dropout c) md x).

(** *** [ConvNetSSM] *)

Record ConvNetSSM : Type := {
  input_bn : tensor R -> result (tensor R);
  conv1 : Conv_2d;
  conv2 : Conv_2d;
  conv3 : Conv_2d;
  conv4 : Conv_2d;
  conv5 : Conv_2d;
  conv6 : Conv_2d;
  conv7 : Conv_2d;
}.

(** [x.unsqueeze(d)] *)
Definition unsqueeze (d : nat) (x : tensor R) : tensor R :=
  {| shape := firstn d (shape x) ++ 1%nat :: skipn d (shape x);
     get := fun ix => get x (firstn d ix ++ skipn (S d) ix) |}.

(** The [# reshape] step of [ConvNetSSM.forward]. *)
Definition canonical (x : tensor R) : tensor R :=
  if (List.length (shape x) =? 2)%nat then unsqueeze 1 (unsqueeze 0 x)
  else if (List.length (shape x) =? 3)%nat then unsqueeze 0 x
  else x.

(** [draws i] is the dropout draw of block [i]. *)
Definition ConvNetSSM_forward (draws : nat -> mode) (m : ConvNetSSM) (x : tensor R)
    : result (tensor R) :=
  let x := canonical x in
  x <- input_bn m x ;;
  x <- Conv_2d_forward (draws 1%nat) (conv1 m) x ;;
  x <- Conv_2d_forward (draws 2%nat) (conv2 m) x ;;
  x <- Conv_2d_forward (draws 3%nat) (conv3 m) x ;;
  x <- Conv_2d_forward (draws 4%nat) (conv4 m) x ;;
  x <- Conv_2d_forward (draws 5%nat) (conv5 m) x ;;
  x <- Conv_2d_forward (draws 6%nat) (conv6 m) x ;;
  Conv_2d_forward (draws 7%nat) (conv7 m) x.

(** ** Graph networks *)

(** *** Dense graph convolution

    The adjacency matrix and the node features are matrices. *)
Record matrix : Type := {
  rows : nat;
  cols : nat;
  entry : nat -> nat -> R;
}.

Definition matmul (a b : matrix) : result matrix :=
  if (cols a =? rows b)%nat then
    Ok {| rows := rows a; cols := cols b;
          entry := fun i j => sum_n (cols a) (fun k => entry a i k * entry b k j) |}
  else Raise RuntimeError.

(** One axis of a broadcast. *)
Definition bdim (d1 d2 : nat) : result nat :=
  if (d1 =? d2)%nat then Ok d1
  else if (d1 =? 1)%nat then Ok d2
  else if (d2 =? 1)%nat then Ok d1
  else Raise RuntimeError.

Definition bpos (d i : nat) : nat := if (d =? 1)%nat then O else i.

(** [a + b] on matrices, with broadcasting. *)
Definition madd (a b : matrix) : result matrix :=
  r <- bdim (rows a) (rows b) ;;
  c <- bdim (cols a) (cols b) ;;
  Ok {| rows := r; cols := c;
        entry := fun i j =>
          entry a (bpos (rows a) i) (bpos (cols a) j)
          + entry b (bpos (rows b) i) (bpos (cols b) j) |}.

Definition mmap (f : R -> R) (a : matrix) : matrix :=
  {| rows := rows a; cols := cols a; entry := fun i j => f (entry a i j) |}.

Definition mdropout (p : R) (md : mode) (a : matrix) : matrix :=
  match md with
  | Eval => a
  | Train keep =>
      {| rows := rows a; cols := cols a;
         entry := fun i j => if keep [i; j] then entry a i j / (1 - p) else 0 |}
  end.

(** [dgl.nn.pytorch.conv.DenseGraphConv(in_feats, out_feats, norm='right',
    bias=True, activation=None)], a layer of the graph library;
    [gc_weight] is indexed [in][out]. *)
Record DenseGraphConv : Type := {
  in_feats : nat;
  out_feats : nat;
  gc_weight : nat -> nat -> R;
  gc_bias : nat -> R;
}.

Definition weight_matrix (c : DenseGraphConv) : matrix :=
  {| rows := in_feats c; cols := out_feats c; entry := gc_weight c |}.

(** [adj.sum(dim=1).clamp(min=1)] *)
Definition dst_degrees (adj : matrix) (i : nat) : R :=
  Rmax (sum_n (cols adj) (fun j => entry adj i j)) 1.

(** The forward computation of the library layer: the aggregation
    [adj @ feat] and the product with the weight (the order depends on
    which width is smaller), the division by the clamped degree, and the
    bias. *)
Definition DenseGraphConv_forward (c : DenseGraphConv) (adj feat : matrix)
    : result matrix :=
  rst <- (if (out_feats c <? in_feats c)%nat
          then (fw <- matmul feat (weight_matrix c) ;; matmul adj fw)
          else (agg <- matmul adj feat ;; matmul agg (weight_matrix c))) ;;
  Ok {| rows := rows rst; cols := cols rst;
        entry := fun i j =>
          entry rst i j * (1 / dst_degrees adj i) + gc_bias c j |}.

(** *** [GCN_DENSE] *)

Record GCN_DENSE : Type := {
  in_size : nat;
  hid_size : nat;
  gcn_dropout : R;
  w_1 : nat -> nat -> R;
  b_1 : nat -> R;
  w_2 : nat -> nat -> R;
  b_2 : nat -> R;
}.

(** Both layers are built with [in_feats=in_size, out_feats=hid_size]. *)
Definition conv_1 (g : GCN_DENSE) : DenseGraphConv :=
  {| in_feats := in_size g; out_feats := hid_size g;
     gc_weight := w_1 g; gc_bias := b_1 g |}.

Definition conv_2 (g : GCN_DENSE) : DenseGraphConv :=
  {| in_feats := in_size g; out_feats := hid_size g;
     gc_weight := w_2 g; gc_bias := b_2 g |}.

(** [GCN_DENSE.__init__]: the library initialises the bias of a new
    [DenseGraphConv] with zeros; the weights are drawn at random.  This is
    the instance that is built for a dropout probability of [0, 1]. *)
Definition GCN_DENSE_init (in_size hid_size : nat) (dropout : R)
    (w_1 w_2 : nat -> nat -> R) : GCN_DENSE :=
  {| in_size := in_size; hid_size := hid_size; gcn_dropout := dropout;
     w_1 := w_1; b_1 := fun _ => 0; w_2 := w_2; b_2 := fun _ => 0 |}.

(** [self.relu(self.conv_1(A, h)) + h], the value before the first
    dropout. *)
Definition GCN_DENSE_layer1 (g : GCN_DENSE) (A h : matrix) : result matrix :=
  c <- DenseGraphConv_forward (conv_1 g) A h ;;
  madd (mmap elu c) h.

Definition GCN_DENSE_forward (md1 md2 : mode) (g : GCN_DENSE) (A h : matrix)
    : result matrix :=
  h <- GCN_DENSE_layer1 g A h ;;
  let h := mdropout (gcn_dropout g) md1 h in
  c <- DenseGraphConv_forward (conv_2 g) A h ;;
  h <- madd c h ;;
  Ok (mdropout (gcn_dropout g) md2 h).

(** *** Edge-indexed graphs and [EGAT] *)

Record graph : Type := {
  num_nodes : nat;
  edges : list (nat * nat);   (* source, destination *)
}.

Definition in_degree (g : graph) (v : nat) : nat :=
  List.length (filter (fun e => (snd e =? v)%nat) (edges g)).

(** [(graph.in_degrees() == 0).any()] *)
Definition has_zero_in_degree (g : graph) : bool :=
  existsb (fun v => (in_degree g v =? 0)%nat) (seq 0 (num_nodes g)).

(** [dgl.nn.pytorch.conv.EdgeGATConv]: the layer first checks the in-degrees
    unless [allow_zero_in_degree] is set; [propagate] is its attention and
    message passing, learned parameters and dropout draws included. *)
Record EdgeGATConv : Type := {
  eg_in_feats : nat;
  eg_edge_feats : nat;
  eg_out_feats : nat;
  eg_num_heads : nat;
  allow_zero_in_degree : bool;
  propagate : graph -> tensor R -> tensor R -> result (tensor R);
}.

Definition EdgeGATConv_forward (c : EdgeGATConv) (g : graph)
    (feat edge_feat : tensor R) : result (tensor R) :=
  if negb (allow_zero_in_degree c) && has_zero_in_degree g
  then Raise DGLError
  else propagate c g feat edge_feat.

Record EGAT : Type := {
  layer_1 : EdgeGATConv;
  layer_2 : EdgeGATConv;
}.

Definition EGAT_init (in_size feat_size heads : nat)
    (p_1 p_2 : graph -> tensor R -> tensor R -> result (tensor R)) : EGAT :=
  {| layer_1 := {| eg_in_feats := in_size; eg_edge_feats := feat_size;
                   eg_out_feats := in_size; eg_num_heads := heads;
                   allow_zero_in_degree := false; propagate := p_1 |};
     layer_2 := {| eg_in_feats := (in_size * heads)%nat; eg_edge_feats := feat_size;
                   eg_out_feats := in_size; eg_num_heads := heads;
                   allow_zero_in_degree := false; propagate := p_2 |} |}.

(** [h.mean(1)] *)
Definition mean1 (h : tensor R) : result (tensor R) :=
  match shape h with
  | n :: d :: rest =>
      Ok {| shape := n :: rest;
            get := fun ix =>
              match ix with
              | i :: ix' => sum_n d (fun k => get h (i :: k :: ix')) / INR d
              | [] => 0
              end |}
  | _ => Raise IndexError
  end.

Definition EGAT_forward (m : EGAT) (g : graph) (h edge_feat : tensor R)
    : result (tensor R) :=
  h <- EdgeGATConv_forward (layer_1 m) g h edge_feat ;;
  h <- flatten1 h ;;
  let h := tmap elu h in
  h <- EdgeGATConv_forward (layer_2 m) g h edge_feat ;;
  mean1 h.

Local Close Scope R_scope.

(** ** Concrete instances *)

(** The front end of the concrete scenario. *)
Definition scenario : Shapes.ResFrontEnd :=
  {| Shapes.conv_ndim := 64; Shapes.nharmonics := 1; Shapes.nmels := 96;
     Shapes.output_size := 128 |}.

Local Open Scope R_scope.

Definition zeros (s : shape_t) : tensor R := {| shape := s; get := fun _ => 0 |}.

Definition full (s : shape_t) (v : bool) : tensor bool :=
  {| shape := s; get := fun _ => v |}.

(** An attention module with one head of width one, all parameters zero. *)
Definition attention_1 : Attention :=
  {| dim := 1; heads := 1; dim_head := 1; dropout := 0;
     qkv_weight := fun _ _ => 0; out_weight := fun _ _ => 0;
     out_bias := fun _ => 0 |}.

(** The same with two heads. *)
Definition attention_2 : Attention :=
  {| dim := 1; heads := 2; dim_head := 1; dropout := 0;
     qkv_weight := fun _ _ => 0; out_weight := fun _ _ => 0;
     out_bias := fun _ => 0 |}.

(** The tensor of shape [s] whose entries are all one. *)
Definition ones (s : shape_t) : tensor R := {| shape := s; get := fun _ => 1 |}.

(** An attention module with one head of width one whose projections have
    the weight one. *)
Definition attention_ones : Attention :=
  {| dim := 1; heads := 1; dim_head := 1; dropout := 0;
     qkv_weight := fun _ _ => 1; out_weight := fun _ _ => 1;
     out_bias := fun _ => 0 |}.

(** A mask for a batch of one and two positions, [[true, false]]. *)
Definition mask_true_then_false : tensor bool :=
  {| shape := [1; 2]%nat;
     get := fun ix => match ix with [_; O] => true | _ => false end |}.

(** A mask for a batch of two and one position: the row of batch element 0
    is [true], the row of batch element 1 is [false]. *)
Definition mask_true_false : tensor bool :=
  {| shape := [2; 1]%nat;
     get := fun ix => match ix with O :: _ => true | _ => false end |}.

(** Parameters that are all zero. *)
Definition zero_weights : layer_weights :=
  {| lw_attn_norm_weight := fun _ => 0; lw_attn_norm_bias := fun _ => 0;
     lw_qkv_weight := fun _ _ => 0; lw_out_weight := fun _ _ => 0;
     lw_out_bias := fun _ => 0;
     lw_ff_norm_weight := fun _ => 0; lw_ff_norm_bias := fun _ => 0;
     lw_ff_w1 := fun _ _ => 0; lw_ff_b1 := fun _ => 0;
     lw_ff_w2 := fun _ _ => 0; lw_ff_b2 := fun _ => 0 |}.

(** A feed-forward block of width 2 with 3 hidden units, all weights one,
    with the identity as activation. *)
Definition ff_ones : FeedForward :=
  {| ff_dim := 2; hidden_dim := 3; ff_dropout := 0; gelu := fun v => v;
     ff_w1 := fun _ _ => 1; ff_b1 := fun _ => 0;
     ff_w2 := fun _ _ => 1; ff_b2 := fun _ => 0 |}.

(** A tensor of shape [s] that is 5 at the positions whose second index is
    0 and 0 elsewhere. *)
Definition bump (s : shape_t) : tensor R :=
  {| shape := s;
     get := fun ix => match ix with _ :: O :: _ => 5 | _ => 0 end |}.

(** A graph of two nodes with the edges 0 -> 1 and 1 -> 0. *)
Definition graph_cycle : graph := {| num_nodes := 2; edges := [(0, 1); (1, 0)]%nat |}.


Definition zero_matrix (r c : nat) : matrix :=
  {| rows := r; cols := c; entry := fun _ _ => 0 |}.

(** A dense graph network of width one whose first bias is one. *)
Definition gcn_biased : GCN_DENSE :=
  {| in_size := 1; hid_size := 1; gcn_dropout := 0;
     w_1 := fun _ _ => 0; b_1 := fun _ => 1;
     w_2 := fun _ _ => 0; b_2 := fun _ => 0 |}.


(** Two nodes and the edge from node 0 to node 1: node 0 has no incoming
    edge. *)
Definition graph_0_1 : graph := {| num_nodes := 2; edges := [(0, 1)%nat] |}.

(** A link feature extractor whose layers are the identity. *)
Definition conv_id : Conv_2d :=
  {| conv := Ok; bn := Ok; conv_1x1 := Ok; bn_1x1 := Ok; attention := Ok;
     conv_dropout := 0 |}.

Definition ssm_id : ConvNetSSM :=
  {| input_bn := Ok; conv1 := conv_id; conv2 := conv_id; conv3 := conv_id;
     conv4 := conv_id; conv5 := conv_id; conv6 := conv_id; conv7 := conv_id |}.

Local Close Scope R_scope.
Unset Implicit Arguments.

(** * Properties *)

Module ShapesFacts.
Import Shapes.

(** C1, as stated, does not hold: on an input of shape (2,1,96,200) the
    front end with nharmonics=1, nmels=96, conv_ndim=64, output_size=128
    does not return a tensor of shape (2,200,128). *)
Lemma C1_output_shape_is_not_2_200_128 :
  ResFrontEnd_forward false scenario [2; 1; 96; 200] <> Ok [2; 200; 128] /\
  ResFrontEnd_forward true scenario [2; 1; 96; 200] <> Ok [2; 200; 128].
Proof.
  split; vm_compute; discriminate.
Qed.

(** C1, amended: on an input of shape (2,1,96,200) the front end with
    nharmonics=1, nmels=96, conv_ndim=64, output_size=128 returns shape
    (2,50,128): the blocks with pooling (2,2), (2,2), (2,1) halve the time
    axis twice (200, 100, 50, 50) and the frequency axis three times
    (96, 48, 24, 12), and the flattened width 96//2//2//2*64 = 768 = 12*64
    is the input width of the linear layer. *)
Theorem C1_front_end_scenario :
  forall training,
    pooling (layer1 scenario) = (2, 2) /\
    pooling (layer2 scenario) = (2, 2) /\
    pooling (layer3 scenario) = (2, 1) /\
    Res2DMaxPoolModule_forward training (layer1 scenario) [2; 1; 96; 200]
      = Ok [2; 64; 48; 100] /\
    Res2DMaxPoolModule_forward training (layer2 scenario) [2; 64; 48; 100]
      = Ok [2; 64; 24; 50] /\
    Res2DMaxPoolModule_forward training (layer3 scenario) [2; 64; 24; 50]
      = Ok [2; 64; 12; 50] /\
    permute_view [2; 64; 12; 50] = Ok [2; 50; fc_dim scenario] /\
    fc_dim scenario = 96 / 2 / 2 / 2 * 64 /\
    fc_dim scenario = 768 /\
    ResFrontEnd_forward training scenario [2; 1; 96; 200] = Ok [2; 50; 128].
Proof.
  intros [|]; repeat split; vm_compute; reflexivity.
Qed.

End ShapesFacts.

(** ** Sums, maxima and the softmax of a row *)

Section Rows.
Local Open Scope R_scope.

Lemma sum_n_ext (n : nat) (f g : nat -> R) :
  (forall j, (j < n)%nat -> f j = g j) -> sum_n n f = sum_n n g.
Proof.
  induction n as [|n IH]; intros H; simpl; [reflexivity|].
  rewrite IH by (intros j Hj; apply H; lia).
  rewrite (H n) by lia. reflexivity.
Qed.

Lemma sum_n_const (n : nat) (c : R) : sum_n n (fun _ => c) = INR n * c.
Proof.
  induction n as [|n IH].
  - simpl. lra.
  - rewrite S_INR. simpl. rewrite IH. lra.
Qed.

Lemma sum_n_zero (n : nat) (f : nat -> R) :
  (forall j, (j < n)%nat -> f j = 0) -> sum_n n f = 0.
Proof.
  intros H. rewrite (sum_n_ext n f (fun _ => 0) H), sum_n_const. lra.
Qed.

Lemma sum_n_scal_r (n : nat) (f : nat -> R) (c : R) :
  sum_n n (fun j => f j * c) = sum_n n f * c.
Proof.
  induction n as [|n IH]; simpl; [lra|]. rewrite IH. lra.
Qed.

Lemma sum_n_div (n : nat) (f : nat -> R) (c : R) :
  sum_n n (fun j => f j / c) = sum_n n f / c.
Proof. unfold Rdiv. apply sum_n_scal_r. Qed.

Lemma sum_n_nonneg (n : nat) (f : nat -> R) :
  (forall j, (j < n)%nat -> 0 <= f j) -> 0 <= sum_n n f.
Proof.
  induction n as [|n IH]; intros H; simpl; [lra|].
  assert (0 <= sum_n n f) by (apply IH; intros; apply H; lia).
  assert (0 <= f n) by (apply H; lia). lra.
Qed.

Lemma sum_n_ge_term (n : nat) (f : nat -> R) (j : nat) :
  (forall i, (i < n)%nat -> 0 <= f i) -> (j < n)%nat -> f j <= sum_n n f.
Proof.
  induction n as [|n IH]; intros H Hj; [lia|]. simpl.
  assert (0 <= f n) by (apply H; lia).
  assert (0 <= sum_n n f) by (apply sum_n_nonneg; intros; apply H; lia).
  destruct (Nat.eq_dec j n) as [->|Hne]; [lra|].
  assert (f j <= sum_n n f) by (apply IH; [intros; apply H|]; lia). lra.
Qed.

Lemma max_n_S (n : nat) (f : nat -> R) :
  max_n (S (S n)) f = Rmax (max_n (S n) f) (f (S n)).
Proof. reflexivity. Qed.

Lemma max_n_ge (n : nat) (f : nat -> R) (j : nat) :
  (j < n)%nat -> f j <= max_n n f.
Proof.
  destruct n as [|n]; [lia|].
  induction n as [|n IH]; intros Hj.
  - assert (j = O) by lia. subst. simpl. lra.
  - rewrite max_n_S. destruct (Nat.eq_dec j (S n)) as [->|Hne].
    + apply Rmax_r.
    + eapply Rle_trans; [apply IH; lia | apply Rmax_l].
Qed.

Lemma max_n_attained (n : nat) (f : nat -> R) :
  (0 < n)%nat -> exists j, (j < n)%nat /\ max_n n f = f j.
Proof.
  destruct n as [|n]; [lia|]. intros _.
  induction n as [|n IH].
  - exists O. split; [lia | reflexivity].
  - rewrite max_n_S. destruct IH as [j [Hj Hm]].
    destruct (Rle_dec (max_n (S n) f) (f (S n))) as [Hle|Hgt].
    + exists (S n). split; [lia|]. apply Rmax_right; exact Hle.
    + exists j. split; [lia|]. rewrite Rmax_left by lra. exact Hm.
Qed.

Lemma max_n_const (n : nat) (f : nat -> R) (c : R) :
  (0 < n)%nat -> (forall j, (j < n)%nat -> f j = c) -> max_n n f = c.
Proof.
  intros Hn H. destruct (max_n_attained n f Hn) as [j [Hj ->]]. apply H; exact Hj.
Qed.

Variable fmt : float_format.
Hypothesis uflow_pos : 0 < uflow fmt.

Lemma fexp_0 : fexp fmt 0 = 1.
Proof.
  unfold fexp. destruct (Rle_dec 0 (- uflow fmt)) as [H|H]; [lra | apply exp_0].
Qed.

Lemma fexp_nonneg (x : R) : 0 <= fexp fmt x.
Proof.
  unfold fexp. destruct (Rle_dec x (- uflow fmt)); [lra|].
  left. apply exp_pos.
Qed.

Lemma fexp_underflow (x : R) : x <= - uflow fmt -> fexp fmt x = 0.
Proof.
  intros H. unfold fexp. destruct (Rle_dec x (- uflow fmt)); [reflexivity | contradiction].
Qed.

(** The denominator of a softmax row is at least one: the largest entry
    contributes [exp 0]. *)
Lemma softmax_denominator (m : nat) (row : nat -> R) :
  (0 < m)%nat -> 1 <= sum_n m (fun j => fexp fmt (row j - max_n m row)).
Proof.
  intros Hm. destruct (max_n_attained m row Hm) as [j [Hj Htop]].
  rewrite <- fexp_0.
  replace 0 with (row j - max_n m row) by (rewrite Htop; lra).
  apply (sum_n_ge_term m (fun j => fexp fmt (row j - max_n m row))); [|exact Hj].
  intros; apply fexp_nonneg.
Qed.

Lemma softmax_row_sum (m : nat) (row : nat -> R) :
  (0 < m)%nat -> sum_n m (softmax_row fmt m row) = 1.
Proof.
  intros Hm. unfold softmax_row.
  rewrite (sum_n_div m (fun j => fexp fmt (row j - max_n m row))).
  pose proof (softmax_denominator m row Hm) as Hd.
  field. lra.
Qed.

Lemma softmax_row_nonneg (m : nat) (row : nat -> R) (j : nat) :
  (0 < m)%nat -> 0 <= softmax_row fmt m row j.
Proof.
  intros Hm. unfold softmax_row.
  pose proof (softmax_denominator m row Hm) as Hd.
  pose proof (fexp_nonneg (row j - max_n m row)) as Hn.
  apply Rmult_le_pos; [exact Hn|]. left. apply Rinv_0_lt_compat. lra.
Qed.

(** A row whose entries are all the same gets the uniform weights. *)
Lemma softmax_row_const (m : nat) (row : nat -> R) (c : R) (j : nat) :
  (forall i, (i < m)%nat -> row i = c) -> (j < m)%nat ->
  softmax_row fmt m row j = 1 / INR m.
Proof.
  intros Hc Hj. assert (Hm : (0 < m)%nat) by lia.
  unfold softmax_row. rewrite (max_n_const m row c Hm Hc).
  rewrite (sum_n_ext m _ (fun _ => 1)).
  - rewrite sum_n_const, (Hc j Hj).
    replace (c - c) with 0 by lra. rewrite fexp_0, Rmult_1_r. reflexivity.
  - intros i Hi. rewrite (Hc i Hi). replace (c - c) with 0 by lra. apply fexp_0.
Qed.

(** An entry at least [uflow] below the largest one gets weight zero. *)
Lemma softmax_row_underflow (m : nat) (row : nat -> R) (j : nat) :
  row j <= max_n m row - uflow fmt -> softmax_row fmt m row j = 0.
Proof.
  intros H. unfold softmax_row. rewrite fexp_underflow by lra.
  unfold Rdiv. apply Rmult_0_l.
Qed.

End Rows.

(** ** The steps of [Attention.forward] *)

Section AttentionSteps.
Local Open Scope R_scope.

Lemma shape_eqb_refl (s : shape_t) : shape_eqb s s = true.
Proof. unfold shape_eqb. destruct (list_eq_dec Nat.eq_dec s s); congruence. Qed.

Lemma shape_eqb_eq (s1 s2 : shape_t) : shape_eqb s1 s2 = true <-> s1 = s2.
Proof.
  unfold shape_eqb. destruct (list_eq_dec Nat.eq_dec s1 s2); split; congruence.
Qed.

Lemma Linear_forward_3d (l : Linear) (x : tensor R) (b n : nat) :
  shape x = [b; n; in_features l] ->
  exists y, Linear_forward l x = Ok y /\ shape y = [b; n; out_features l].
Proof.
  intros Hx. unfold Linear_forward. rewrite Hx. cbn [rev app].
  rewrite Nat.eqb_refl. eexists. split; reflexivity.
Qed.

Lemma Linear_forward_width (l : Linear) (x : tensor R) (b n d : nat) :
  shape x = [b; n; d] -> d <> in_features l ->
  Linear_forward l x = Raise RuntimeError.
Proof.
  intros Hx Hd. unfold Linear_forward. rewrite Hx. cbn [rev app].
  apply Nat.eqb_neq in Hd. rewrite Hd. reflexivity.
Qed.

Lemma third_of_triple (k : nat) : ((k * 3 + 2) / 3 = k)%nat.
Proof.
  symmetry. apply (Nat.div_unique (k * 3 + 2) 3 k 2); lia.
Qed.

Lemma chunk3_shape (c : nat) (t : tensor R) (b n k : nat) :
  shape t = [b; n; (k * 3)%nat] -> shape (chunk3 c t) = [b; n; k].
Proof.
  intros Ht. unfold chunk3. rewrite Ht. cbn [shape].
  rewrite third_of_triple. reflexivity.
Qed.

Lemma split_heads_ok (h : nat) (t : tensor R) (b n d : nat) :
  shape t = [b; n; (d * h)%nat] -> h <> O ->
  exists q, split_heads h t = Ok q /\ shape q = [b; h; n; d].
Proof.
  intros Ht Hh. unfold split_heads. rewrite Ht.
  apply Nat.eqb_neq in Hh. rewrite Hh.
  rewrite Nat.Div0.mod_mul, Nat.eqb_refl.
  eexists. split; [reflexivity|]. cbn [shape].
  rewrite Nat.div_mul by (apply Nat.eqb_neq; exact Hh). reflexivity.
Qed.

Lemma split_heads_zero (t : tensor R) (b n w : nat) :
  shape t = [b; n; w] -> split_heads O t = Raise ZeroDivisionError.
Proof. intros Ht. unfold split_heads. rewrite Ht. reflexivity. Qed.

Lemma einsum_qk_ok (sc : R) (q k : tensor R) (b h n m d : nat) :
  shape q = [b; h; n; d] -> shape k = [b; h; m; d] ->
  exists r, einsum_qk sc q k = Ok r /\ shape r = [b; h; n; m] /\
    forall bi hi i j,
      get r [bi; hi; i; j]
      = sum_n d (fun c => get q [bi; hi; i; c] * get k [bi; hi; j; c]) * sc.
Proof.
  intros Hq Hk. unfold einsum_qk. rewrite Hq, Hk, shape_eqb_refl.
  eexists. split; [reflexivity|]. split; [reflexivity|]. reflexivity.
Qed.

Lemma einsum_av_ok (attn v : tensor R) (b h n m d : nat) :
  shape attn = [b; h; n; m] -> shape v = [b; h; m; d] ->
  exists r, einsum_av attn v = Ok r /\ shape r = [b; h; n; d] /\
    forall bi hi i c,
      get r [bi; hi; i; c]
      = sum_n m (fun j => get attn [bi; hi; i; j] * get v [bi; hi; j; c]).
Proof.
  intros Ha Hv. unfold einsum_av. rewrite Ha, Hv, shape_eqb_refl.
  eexists. split; [reflexivity|]. split; [reflexivity|]. reflexivity.
Qed.

Lemma merge_heads_ok (t : tensor R) (b h n d : nat) :
  shape t = [b; h; n; d] ->
  exists r, merge_heads t = Ok r /\ shape r = [b; n; (h * d)%nat].
Proof.
  intros Ht. unfold merge_heads. rewrite Ht. eexists. split; reflexivity.
Qed.

Lemma softmax_get4 (fmt : float_format) (t : tensor R) (bi hi i j : nat) :
  get (softmax fmt t) [bi; hi; i; j]
  = softmax_row fmt (last (shape t) O) (fun j' => get t [bi; hi; i; j']) j.
Proof. reflexivity. Qed.

Lemma Dropout_shape (p : R) (md : mode) (t : tensor R) :
  shape (Dropout p md t) = shape t.
Proof. destruct md; reflexivity. Qed.

Lemma flatten1_2d (mask : tensor bool) (bm l : nat) :
  shape mask = [bm; l] ->
  exists m, flatten1 mask = Ok m /\ shape m = [bm; l] /\
    forall r j, get m [r; j] = get mask [r; j].
Proof.
  intros Hm. unfold flatten1. rewrite Hm.
  eexists. split; [reflexivity|]. split.
  - cbn [shape prod]. rewrite Nat.mul_1_r. reflexivity.
  - intros r j. cbn [get unravel prod]. rewrite Nat.div_1_r. reflexivity.
Qed.

Lemma flatten1_1d (mask : tensor bool) (bm : nat) :
  shape mask = [bm] -> flatten1 mask = Raise IndexError.
Proof. intros Hm. unfold flatten1. rewrite Hm. reflexivity. Qed.

Lemma pad_left_true_get (m : tensor bool) (mask : tensor bool) (r i : nat) :
  (forall r j, get m [r; j] = get mask [r; j]) ->
  get (pad_left_true m) [r; i] = padded_bit mask r i.
Proof. intros H. destruct i; simpl; [reflexivity | apply H]. Qed.

(** Broadcasting an in-range position of an axis leaves it unchanged. *)
Lemma bpos_in_range (d i : nat) : (i < d)%nat -> (if (d =? 1)%nat then O else i) = i.
Proof. intros H. destruct (Nat.eqb_spec d 1); lia. Qed.

End AttentionSteps.

(** ** The masking block *)

Section Masking.
Local Open Scope R_scope.

Lemma broadcast_scores_mask (b h n bm : nat) :
  bm = 1%nat \/ bm = h ->
  broadcast_shapes [b; h; n; n] [bm; n; n] = Ok [b; h; n; n].
Proof.
  intros Hbm. unfold broadcast_shapes. cbn [rev app broadcast_rev bind].
  rewrite !Nat.eqb_refl. cbn [bind].
  destruct (Nat.eqb_spec h bm) as [E|E]; [reflexivity|].
  destruct (Nat.eqb_spec h 1) as [E1|E1]; [lia|].
  destruct (Nat.eqb_spec bm 1) as [E2|E2]; [reflexivity | lia].
Qed.

Lemma broadcast_scores_mask_fails (b h n bm : nat) (s : shape_t) :
  bm <> 1%nat -> bm <> h ->
  broadcast_shapes [b; h; n; n] [bm; n; n] = Ok s -> s <> [b; h; n; n].
Proof.
  intros H1 Hh. unfold broadcast_shapes. cbn [rev app broadcast_rev bind].
  rewrite !Nat.eqb_refl. cbn [bind].
  destruct (Nat.eqb_spec h bm) as [E|E]; [lia|].
  destruct (Nat.eqb_spec h 1) as [E1|E1].
  - cbn. intros [= <-]. intros [= ?]. lia.
  - destruct (Nat.eqb_spec bm 1) as [E2|E2]; [lia | discriminate].
Qed.

Lemma bindex_scores_mask (bm n bi hi i j : nat) :
  (i < n)%nat -> (j < n)%nat ->
  bindex [bm; n; n] [bi; hi; i; j] = [mask_row bm hi; i; j].
Proof.
  intros Hi Hj. unfold bindex, mask_row. cbn [rev app bindex_rev].
  rewrite (bpos_in_range n i Hi), (bpos_in_range n j Hj). reflexivity.
Qed.

(** A mask whose padded width is not the number of key positions is
    rejected by the assertion. *)
Lemma apply_mask_assert (fmt : float_format) (mask : tensor bool) (dots : tensor R)
    (bm l b h n n' : nat) :
  shape mask = [bm; l] -> shape dots = [b; h; n; n'] -> S l <> n' ->
  apply_mask fmt mask dots = Raise (AssertionError "mask has incorrect dimensions").
Proof.
  intros Hm Hd Hne. unfold apply_mask.
  destruct (flatten1_2d mask bm l Hm) as [m [-> [Hs _]]]. cbn [bind].
  unfold pad_left_true at 1. cbn [shape]. rewrite Hs, Hd. cbn [last].
  apply Nat.eqb_neq in Hne. rewrite Hne. reflexivity.
Qed.

(** A mask of the right width is applied when its batch axis broadcasts
    against the head axis of the scores. *)
Lemma apply_mask_ok (fmt : float_format) (mask : tensor bool) (dots : tensor R)
    (bm l b h n : nat) :
  shape mask = [bm; l] -> shape dots = [b; h; n; n] -> S l = n ->
  bm = 1%nat \/ bm = h ->
  exists pm d,
    apply_mask fmt mask dots = Ok (pm, d) /\
    shape pm = [bm; n; n] /\
    (forall r i j, get pm [r; i; j] = padded_bit mask r j && padded_bit mask r i) /\
    shape d = [b; h; n; n] /\
    (forall bi hi i j, (i < n)%nat -> (j < n)%nat ->
       get d [bi; hi; i; j]
       = if get pm [mask_row bm hi; i; j] then get dots [bi; hi; i; j]
         else mask_value fmt).
Proof.
  intros Hm Hd Hl Hbm. unfold apply_mask.
  destruct (flatten1_2d mask bm l Hm) as [m [-> [Hs Hg]]]. cbn [bind].
  assert (Hps : shape (pad_left_true m) = [bm; n]).
  { unfold pad_left_true. cbn [shape]. rewrite Hs, Hl. reflexivity. }
  rewrite Hps, Hd. cbn [last]. rewrite Nat.eqb_refl.
  assert (Hpw : shape (pairwise (pad_left_true m)) = [bm; n; n]).
  { unfold pairwise at 1. cbn [shape]. rewrite Hps. reflexivity. }
  unfold masked_fill_. cbn [shape tnot]. rewrite Hpw, Hd.
  rewrite (broadcast_scores_mask b h n bm Hbm). cbn [bind].
  rewrite shape_eqb_refl. cbn [bind].
  eexists. eexists. split; [reflexivity|].
  split; [exact Hpw|]. split.
  - intros r i j. cbn [pairwise get].
    rewrite !(pad_left_true_get m mask) by exact Hg. reflexivity.
  - split; [reflexivity|].
    intros bi hi i j Hi Hj. cbn [get].
    rewrite (bindex_scores_mask bm n bi hi i j Hi Hj).
    cbn [tnot get].
    destruct (get (pairwise (pad_left_true m)) [mask_row bm hi; i; j]); reflexivity.
Qed.

(** Otherwise the in-place fill cannot broadcast the mask. *)
Lemma apply_mask_broadcast_error (fmt : float_format) (mask : tensor bool)
    (dots : tensor R) (bm l b h n : nat) :
  shape mask = [bm; l] -> shape dots = [b; h; n; n] -> S l = n ->
  bm <> 1%nat -> bm <> h ->
  apply_mask fmt mask dots = Raise RuntimeError.
Proof.
  intros Hm Hd Hl H1 Hh. unfold apply_mask.
  destruct (flatten1_2d mask bm l Hm) as [m [-> [Hs Hg]]]. cbn [bind].
  assert (Hps : shape (pad_left_true m) = [bm; n]).
  { unfold pad_left_true. cbn [shape]. rewrite Hs, Hl. reflexivity. }
  rewrite Hps, Hd. cbn [last]. rewrite Nat.eqb_refl.
  assert (Hpw : shape (pairwise (pad_left_true m)) = [bm; n; n]).
  { unfold pairwise at 1. cbn [shape]. rewrite Hps. reflexivity. }
  unfold masked_fill_. cbn [shape tnot]. rewrite Hpw, Hd.
  destruct (broadcast_shapes [b; h; n; n] [bm; n; n]) as [s|e] eqn:E.
  - cbn [bind]. pose proof (broadcast_scores_mask_fails b h n bm s H1 Hh E) as Hs'.
    destruct (shape_eqb s [b; h; n; n]) eqn:Es.
    + apply shape_eqb_eq in Es. contradiction.
    + reflexivity.
  - unfold broadcast_shapes in E. cbn [rev app broadcast_rev bind] in E.
    rewrite !Nat.eqb_refl in E. cbn [bind] in E.
    destruct (h =? bm)%nat; [discriminate|].
    destruct (h =? 1)%nat; [discriminate|].
    destruct (bm =? 1)%nat; [discriminate|].
    cbn in E. injection E as <-. reflexivity.
Qed.

End Masking.

(** ** One [Attention.forward] call *)

Section AttentionRun.
Local Open Scope R_scope.

Variables (fmt : float_format) (md : mode) (a : Attention).

(** On an input of shape (b, n, dim) the projections and the head split
    succeed; the call then fails exactly when the masking block fails, and
    otherwise returns the tensors below. *)
Lemma Attention_run_spec (x : tensor R) (mask : option (tensor bool)) (b n : nat) :
  shape x = [b; n; dim a] -> heads a <> O ->
  exists q k v dr,
    shape q = [b; heads a; n; dim_head a] /\
    shape k = [b; heads a; n; dim_head a] /\
    shape v = [b; heads a; n; dim_head a] /\
    shape dr = [b; heads a; n; n] /\
    match masking fmt mask dr with
    | Raise e => Attention_run fmt md a x mask = Raise e
    | Ok (pm, d) =>
        shape d = [b; heads a; n; n] ->
        exists t,
          Attention_run fmt md a x mask = Ok t /\
          tr_q t = q /\ tr_k t = k /\ tr_v t = v /\ tr_dots_raw t = dr /\
          tr_mask t = pm /\ tr_dots t = d /\ tr_attn t = softmax fmt d /\
          shape (tr_out_heads t) = [b; heads a; n; dim_head a] /\
          (forall bi hi i c,
             get (tr_out_heads t) [bi; hi; i; c]
             = sum_n n (fun j => get (tr_attn t) [bi; hi; i; j] * get v [bi; hi; j; c])) /\
          shape (tr_out t) = [b; n; dim a]
    end.
Proof.
  intros Hx Hh. unfold Attention_run. rewrite Hx.
  destruct (Linear_forward_3d (to_qkv a) x b n Hx) as [qkv [-> Hqkv]].
  cbn [bind]. cbn [to_qkv out_features] in Hqkv.
  destruct (split_heads_ok (heads a) (chunk3 0 qkv) b n (dim_head a)
              (chunk3_shape 0 qkv b n _ Hqkv) Hh) as [q [-> Hq]].
  destruct (split_heads_ok (heads a) (chunk3 1 qkv) b n (dim_head a)
              (chunk3_shape 1 qkv b n _ Hqkv) Hh) as [k [-> Hk]].
  destruct (split_heads_ok (heads a) (chunk3 2 qkv) b n (dim_head a)
              (chunk3_shape 2 qkv b n _ Hqkv) Hh) as [v [-> Hv]].
  cbn [bind].
  destruct (einsum_qk_ok (scale a) q k b (heads a) n n (dim_head a) Hq Hk)
    as [dr [-> [Hdr _]]].
  cbn [bind].
  exists q, k, v, dr. repeat (split; [assumption|]).
  destruct (masking fmt mask dr) as [[pm d]|e]; [|reflexivity].
  intros Hd. cbn [bind snd fst].
  assert (Hsm : shape (softmax fmt d) = [b; heads a; n; n]) by exact Hd.
  destruct (einsum_av_ok (softmax fmt d) v b (heads a) n n (dim_head a) Hsm Hv)
    as [oh [-> [Hoh Hget]]].
  cbn [bind].
  destruct (merge_heads_ok oh b (heads a) n (dim_head a) Hoh) as [om [-> Hom]].
  cbn [bind].
  assert (Hom' : shape om = [b; n; in_features (to_out a)]).
  { rewrite Hom. cbn [to_out in_features]. unfold inner_dim.
    rewrite Nat.mul_comm. reflexivity. }
  destruct (Linear_forward_3d (to_out a) om b n Hom') as [o [-> Ho]].
  cbn [bind].
  eexists. split; [reflexivity|]. cbn.
  repeat (split; [reflexivity|]).
  split; [exact Hoh|]. split; [exact Hget|].
  rewrite Dropout_shape. exact Ho.
Qed.

(** Without heads the head split fails. *)
Lemma Attention_run_no_heads (x : tensor R) (mask : option (tensor bool)) (b n : nat) :
  shape x = [b; n; dim a] -> heads a = O ->
  Attention_run fmt md a x mask = Raise ZeroDivisionError.
Proof.
  intros Hx Hh. unfold Attention_run. rewrite Hx.
  destruct (Linear_forward_3d (to_qkv a) x b n Hx) as [qkv [-> Hqkv]].
  cbn [bind]. rewrite Hh.
  rewrite (split_heads_zero (chunk3 0 qkv) b n _ (chunk3_shape 0 qkv b n _ Hqkv)).
  reflexivity.
Qed.

(** The values of the queries, keys and values and of the scaled dot
    products, in terms of the input and the weight of [to_qkv]. *)
Lemma Linear_forward_get (l : Linear) (x y : tensor R) :
  Linear_forward l x = Ok y ->
  forall bi i o,
    get y [bi; i; o]
    = sum_n (in_features l) (fun e => get x [bi; i; e] * weight l o e)
      + match bias l with Some bs => bs o | None => 0 end.
Proof.
  unfold Linear_forward. destruct (rev (shape x)) as [|d pre]; [discriminate|].
  destruct (d =? in_features l)%nat; [|discriminate].
  intros [= <-] bi i o. reflexivity.
Qed.

Lemma chunk3_get (c : nat) (t : tensor R) (b' n' w : nat) :
  shape t = [b'; n'; (w * 3)%nat] ->
  forall bi i j, get (chunk3 c t) [bi; i; j] = get t [bi; i; (c * w + j)%nat].
Proof.
  intros Ht bi i j. unfold chunk3. rewrite Ht. cbn [get].
  rewrite third_of_triple. reflexivity.
Qed.

Lemma split_heads_get (h : nat) (t q : tensor R) (b' n' d : nat) :
  shape t = [b'; n'; (d * h)%nat] -> h <> O -> split_heads h t = Ok q ->
  forall bi hi i c, get q [bi; hi; i; c] = get t [bi; i; (hi * d + c)%nat].
Proof.
  intros Ht Hh. unfold split_heads. rewrite Ht.
  apply Nat.eqb_neq in Hh. rewrite Hh.
  rewrite Nat.Div0.mod_mul, Nat.eqb_refl.
  intros [= <-] bi hi i c. cbn [get].
  rewrite Nat.div_mul by (apply Nat.eqb_neq; exact Hh). reflexivity.
Qed.

Lemma Attention_run_values (x : tensor R) (mask : option (tensor bool))
    (b n : nat) (t : Attention_trace) :
  shape x = [b; n; dim a] -> heads a <> O ->
  Attention_run fmt md a x mask = Ok t ->
  (forall c s, (c = 0%nat /\ s = tr_q t) \/ (c = 1%nat /\ s = tr_k t)
               \/ (c = 2%nat /\ s = tr_v t) ->
     forall bi hi i e,
       get s [bi; hi; i; e]
       = sum_n (dim a)
           (fun u => get x [bi; i; u]
                     * qkv_weight a (c * inner_dim a + (hi * dim_head a + e))%nat u)
         + 0) /\
  (forall bi hi i j,
     get (tr_dots_raw t) [bi; hi; i; j]
     = sum_n (dim_head a)
         (fun e => get (tr_q t) [bi; hi; i; e] * get (tr_k t) [bi; hi; j; e])
       * scale a).
Proof.
  intros Hx Hh. unfold Attention_run. rewrite Hx.
  destruct (Linear_forward_3d (to_qkv a) x b n Hx) as [qkv [Hl Hqkv]].
  rewrite Hl. cbn [bind]. cbn [to_qkv out_features] in Hqkv.
  destruct (split_heads_ok (heads a) (chunk3 0 qkv) b n (dim_head a)
              (chunk3_shape 0 qkv b n _ Hqkv) Hh) as [q [Eq Hq]].
  destruct (split_heads_ok (heads a) (chunk3 1 qkv) b n (dim_head a)
              (chunk3_shape 1 qkv b n _ Hqkv) Hh) as [k [Ek Hk]].
  destruct (split_heads_ok (heads a) (chunk3 2 qkv) b n (dim_head a)
              (chunk3_shape 2 qkv b n _ Hqkv) Hh) as [v [Ev Hv]].
  rewrite Eq, Ek, Ev. cbn [bind].
  destruct (einsum_qk_ok (scale a) q k b (heads a) n n (dim_head a) Hq Hk)
    as [dr [-> [_ Hdr]]].
  cbn [bind].
  destruct (masking fmt mask dr) as [[pm d]|e]; [|discriminate].
  cbn [bind snd fst].
  destruct (einsum_av (softmax fmt d) v) as [oh|e]; [|discriminate]. cbn [bind].
  destruct (merge_heads oh) as [om|e]; [|discriminate]. cbn [bind].
  destruct (Linear_forward (to_out a) om) as [o|e]; [|discriminate]. cbn [bind].
  intros [= <-]. cbn [tr_q tr_k tr_v tr_dots_raw]. split; [|exact Hdr].
  assert (Hc : forall c s, split_heads (heads a) (chunk3 c qkv) = Ok s ->
             forall bi hi i e,
               get s [bi; hi; i; e]
               = sum_n (dim a)
                   (fun u => get x [bi; i; u]
                             * qkv_weight a (c * inner_dim a + (hi * dim_head a + e))%nat u)
                 + 0).
  { intros c s Es bi hi i e.
    rewrite (split_heads_get (heads a) (chunk3 c qkv) s b n (dim_head a)
               (chunk3_shape c qkv b n _ Hqkv) Hh Es).
    rewrite (chunk3_get c qkv b n _ Hqkv).
    rewrite (Linear_forward_get (to_qkv a) x qkv Hl). reflexivity. }
  intros c s [[-> ->]|[[-> ->]|[-> ->]]].
  - exact (Hc 0%nat q Eq).
  - exact (Hc 1%nat k Ek).
  - exact (Hc 2%nat v Ev).
Qed.

End AttentionRun.

(** ** Calls with and without a mask *)

Section AttentionCalls.
Local Open Scope R_scope.

Variables (fmt : float_format) (md : mode) (a : Attention).
Variables (x : tensor R) (b n : nat).
Hypothesis x_shape : shape x = [b; n; dim a].
Hypothesis some_heads : heads a <> O.

Lemma Attention_run_unmasked :
  exists t,
    Attention_run fmt md a x None = Ok t /\
    tr_mask t = None /\
    tr_dots t = tr_dots_raw t /\
    shape (tr_dots t) = [b; heads a; n; n] /\
    tr_attn t = softmax fmt (tr_dots t) /\
    shape (tr_out t) = [b; n; dim a].
Proof.
  destruct (Attention_run_spec fmt md a x None b n x_shape some_heads)
    as [q [k [v [dr [_ [_ [_ [Hdr H]]]]]]]].
  cbn [masking] in H. destruct (H Hdr) as [t Ht].
  destruct Ht as [Hrun [_ [_ [_ [Hraw [Hm [Hd [Ha [_ [_ Ho]]]]]]]]]].
  exists t. rewrite Ha, Hd, Hraw.
  split; [exact Hrun|]. split; [exact Hm|]. split; [reflexivity|].
  split; [exact Hdr|]. split; [reflexivity | exact Ho].
Qed.

Variables (mask : tensor bool) (bm l : nat).
Hypothesis mask_shape : shape mask = [bm; l].

Lemma Attention_run_mask_rejected :
  S l <> n ->
  Attention_run fmt md a x (Some mask)
  = Raise (AssertionError "mask has incorrect dimensions").
Proof.
  intros Hl.
  destruct (Attention_run_spec fmt md a x (Some mask) b n x_shape some_heads)
    as [q [k [v [dr [_ [_ [_ [Hdr H]]]]]]]].
  cbn [masking] in H.
  rewrite (apply_mask_assert fmt mask dr bm l b (heads a) n n mask_shape Hdr Hl) in H.
  exact H.
Qed.

Lemma Attention_run_mask_not_broadcast :
  S l = n -> bm <> 1%nat -> bm <> heads a ->
  Attention_run fmt md a x (Some mask) = Raise RuntimeError.
Proof.
  intros Hl H1 Hh.
  destruct (Attention_run_spec fmt md a x (Some mask) b n x_shape some_heads)
    as [q [k [v [dr [_ [_ [_ [Hdr H]]]]]]]].
  cbn [masking] in H.
  rewrite (apply_mask_broadcast_error fmt mask dr bm l b (heads a) n
             mask_shape Hdr Hl H1 Hh) in H.
  exact H.
Qed.

Lemma Attention_run_masked :
  S l = n -> bm = 1%nat \/ bm = heads a ->
  exists t pm,
    Attention_run fmt md a x (Some mask) = Ok t /\
    tr_mask t = Some pm /\
    (forall r i j, get pm [r; i; j] = padded_bit mask r j && padded_bit mask r i) /\
    shape (tr_dots t) = [b; heads a; n; n] /\
    (forall bi hi i j, (i < n)%nat -> (j < n)%nat ->
       get (tr_dots t) [bi; hi; i; j]
       = if get pm [mask_row bm hi; i; j] then get (tr_dots_raw t) [bi; hi; i; j]
         else mask_value fmt) /\
    tr_attn t = softmax fmt (tr_dots t) /\
    shape (tr_out_heads t) = [b; heads a; n; dim_head a] /\
    (forall bi hi i c,
       get (tr_out_heads t) [bi; hi; i; c]
       = sum_n n (fun j => get (tr_attn t) [bi; hi; i; j] * get (tr_v t) [bi; hi; j; c])) /\
    shape (tr_out t) = [b; n; dim a].
Proof.
  intros Hl Hbm.
  destruct (Attention_run_spec fmt md a x (Some mask) b n x_shape some_heads)
    as [q [k [v [dr [_ [_ [_ [Hdr H]]]]]]]].
  cbn [masking] in H.
  destruct (apply_mask_ok fmt mask dr bm l b (heads a) n mask_shape Hdr Hl Hbm)
    as [pm [d [Hap [_ [Hpm [Hd Hfill]]]]]].
  rewrite Hap in H. cbn [bind fst snd] in H.
  destruct (H Hd) as [t Ht].
  destruct Ht as [Hrun [_ [_ [Hv [Hraw [Hm [Hdt [Ha [Hoh [Hget Ho]]]]]]]]]].
  exists t, pm. rewrite Hdt, Hraw, Hv.
  repeat (split; [assumption|]). assumption.
Qed.

End AttentionCalls.

(** ** Softmax of a masked row *)

Section MaskedRows.
Local Open Scope R_scope.

Variable fmt : float_format.
Hypothesis uflow_pos : 0 < uflow fmt.

Lemma sum_where_all (n : nat) (keep : nat -> bool) (f : nat -> R) :
  (forall j, (j < n)%nat -> keep j = false -> f j = 0) ->
  sum_where n keep f = sum_n n f.
Proof.
  intros H. unfold sum_where. apply sum_n_ext. intros j Hj.
  destruct (keep j) eqn:E; [reflexivity|]. symmetry. apply H; assumption.
Qed.

Lemma sum_where_none (n : nat) (keep : nat -> bool) (f : nat -> R) :
  (forall j, (j < n)%nat -> keep j = false) -> sum_where n keep f = 0.
Proof.
  intros H. unfold sum_where. apply sum_n_zero. intros j Hj.
  rewrite (H j Hj). reflexivity.
Qed.

(** A row in which the entries outside [keep] hold the fill value [mv], and
    the kept entries are at least [uflow] above it: the filled entries get
    weight zero and the kept ones share the whole weight.  [i] is a kept
    position. *)
Lemma softmax_row_masked (n : nat) (d r : nat -> R) (keep : nat -> bool)
    (mv : R) (i : nat) :
  (forall j, (j < n)%nat -> d j = if keep j then r j else mv) ->
  (i < n)%nat -> keep i = true ->
  (forall j, (j < n)%nat -> keep j = true -> mv + uflow fmt <= r j) ->
  (forall j, (j < n)%nat -> keep j = false -> softmax_row fmt n d j = 0) /\
  sum_where n keep (softmax_row fmt n d) = 1.
Proof.
  intros Hd Hi Hk Hr.
  assert (Hz : forall j, (j < n)%nat -> keep j = false -> softmax_row fmt n d j = 0).
  { intros j Hj Hkj. apply softmax_row_underflow.
    pose proof (max_n_ge n d i Hi) as Htop.
    rewrite (Hd i Hi), Hk in Htop. rewrite (Hd j Hj), Hkj.
    pose proof (Hr i Hi Hk). lra. }
  split; [exact Hz|].
  rewrite (sum_where_all n keep _ Hz).
  apply softmax_row_sum; [exact uflow_pos | lia].
Qed.

(** A row filled entirely with [mv] gets the uniform weights. *)
Lemma softmax_row_filled (n : nat) (d : nat -> R) (mv : R) (j : nat) :
  (forall i, (i < n)%nat -> d i = mv) -> (j < n)%nat ->
  softmax_row fmt n d j = 1 / INR n.
Proof. intros H Hj. apply (softmax_row_const fmt uflow_pos n d mv j H Hj). Qed.

End MaskedRows.

(** ** Attention: the mask *)

Section AttentionMask.

Lemma float32_uflow_pos : (0 < uflow float32)%R.
Proof. cbn. lra. Qed.

Lemma attention_1_heads : heads attention_1 <> 0.
Proof. cbn. discriminate. Qed.

Lemma Attention_forward_run (fmt : float_format) (md : mode) (a : Attention)
    (x : tensor R) (mask : option (tensor bool)) (t : Attention_trace) :
  Attention_run fmt md a x mask = Ok t ->
  Attention_forward fmt md a x mask = Ok (tr_out t).
Proof. intros H. unfold Attention_forward. rewrite H. reflexivity. Qed.

Lemma Attention_forward_raise (fmt : float_format) (md : mode) (a : Attention)
    (x : tensor R) (mask : option (tensor bool)) (e : exn) :
  Attention_run fmt md a x mask = Raise e ->
  Attention_forward fmt md a x mask = Raise e.
Proof. intros H. unfold Attention_forward. rewrite H. reflexivity. Qed.

(** C2, as stated, does not hold: with an input of shape (1,2,1) and an
    all-true mask of shape (1,2), that is (batch, sequence), the call does
    not succeed; the assertion on the padded mask width rejects it. *)
Lemma C2_mask_of_shape_batch_sequence_is_rejected :
  Attention_forward float32 Eval attention_1 (zeros [1; 2; 1]) (Some (full [1; 2] true))
  = Raise (AssertionError "mask has incorrect dimensions")
  /\ ~ succeeds (Attention_forward float32 Eval attention_1 (zeros [1; 2; 1])
                   (Some (full [1; 2] true))).
Proof.
  assert (H : Attention_forward float32 Eval attention_1 (zeros [1; 2; 1])
                (Some (full [1; 2] true))
              = Raise (AssertionError "mask has incorrect dimensions")).
  { apply Attention_forward_raise.
    apply (Attention_run_mask_rejected float32 Eval attention_1 (zeros [1; 2; 1]) 1 2
             eq_refl (fun E => O_S _ (eq_sym E)) (full [1; 2] true) 1 2 eq_refl).
    discriminate. }
  split; [exact H|]. intros [y Hy]. rewrite H in Hy. discriminate.
Qed.

(** C2, amended: for an input of shape (batch, sequence, dim) and a boolean
    mask with [l] positions per row, the call fails with the assertion
    'mask has incorrect dimensions' unless [l + 1 = sequence], so a mask of
    shape (batch, sequence) is rejected.  For batch = 1 and a mask of shape
    (1, sequence - 1) the call succeeds and computes the masking as
    specified: the mask is left-padded by one true position, expanded to
    the pairwise mask, and every score whose pair is masked is set to
    [- finfo.max] before the softmax, the other scores being unchanged. *)
Theorem C2_mask_is_padded_paired_and_filled
    (fmt : float_format) (md : mode) (a : Attention) (x : tensor R)
    (mask : tensor bool) (b n bm l : nat) :
  shape x = [b; n; dim a] -> heads a <> O -> shape mask = [bm; l] ->
  (S l <> n ->
     Attention_forward fmt md a x (Some mask)
     = Raise (AssertionError "mask has incorrect dimensions")) /\
  (S l = n -> b = 1 -> bm = 1 ->
     exists t pm,
       Attention_run fmt md a x (Some mask) = Ok t /\
       Attention_forward fmt md a x (Some mask) = Ok (tr_out t) /\
       tr_mask t = Some pm /\
       padded_bit mask O O = true /\
       (forall j, padded_bit mask O (S j) = get mask [O; j]) /\
       (forall i j, get pm [O; i; j] = padded_bit mask O j && padded_bit mask O i) /\
       (forall hi i j, (i < n) -> (j < n) ->
          get (tr_dots t) [O; hi; i; j]
          = if get pm [O; i; j] then get (tr_dots_raw t) [O; hi; i; j]
            else (- finfo_max fmt)%R) /\
       tr_attn t = softmax fmt (tr_dots t)).
Proof.
  intros Hx Hh Hm. split.
  - intros Hl. apply Attention_forward_raise.
    apply (Attention_run_mask_rejected fmt md a x b n Hx Hh mask bm l Hm Hl).
  - intros Hl Hb Hbm.
    destruct (Attention_run_masked fmt md a x b n Hx Hh mask bm l Hm Hl (or_introl Hbm))
      as [t [pm [Hrun [Hpm [Hpair [_ [Hfill [Hattn _]]]]]]]].
    exists t, pm.
    split; [exact Hrun|]. split; [apply Attention_forward_run; exact Hrun|].
    split; [exact Hpm|]. split; [reflexivity|]. split; [reflexivity|].
    split; [intros i j; apply Hpair|]. split; [|exact Hattn].
    intros hi i j Hi Hj. rewrite (Hfill O hi i j Hi Hj).
    unfold mask_row. rewrite Hbm. reflexivity.
Qed.

Lemma C2_mask_is_padded_paired_and_filled_witness :
  exists t pm,
    Attention_run float32 Eval attention_1 (zeros [1; 2; 1]) (Some (full [1; 1] false))
    = Ok t /\
    tr_mask t = Some pm /\
    get pm [0; 0; 0] = true /\
    get pm [0; 0; 1] = false /\
    get (tr_dots t) [0; 0; 0; 0] = get (tr_dots_raw t) [0; 0; 0; 0] /\
    get (tr_dots t) [0; 0; 0; 1] = (- finfo_max float32)%R.
Proof.
  destruct (C2_mask_is_padded_paired_and_filled float32 Eval attention_1
              (zeros [1; 2; 1]) (full [1; 1] false) 1 2 1 1
              eq_refl attention_1_heads eq_refl) as [_ H].
  destruct (H eq_refl eq_refl eq_refl)
    as [t [pm [Hrun [_ [Hpm [_ [_ [Hpair [Hfill _]]]]]]]]].
  assert (H00 : get pm [0; 0; 0] = true) by (rewrite Hpair; reflexivity).
  assert (H01 : get pm [0; 0; 1] = false) by (rewrite Hpair; reflexivity).
  exists t, pm. split; [exact Hrun|]. split; [exact Hpm|].
  split; [exact H00|]. split; [exact H01|]. split.
  - rewrite (Hfill 0 0 0) by lia. rewrite H00. reflexivity.
  - rewrite (Hfill 0 0 1) by lia. rewrite H01. reflexivity.
Defined.

End AttentionMask.

(** ** Attention: the weights of a query *)

Section AttentionWeights.

Variables (fmt : float_format) (md : mode) (a : Attention).
Variables (x : tensor R) (b n : nat).
Hypothesis uflow_pos : (0 < uflow fmt)%R.
Hypothesis x_shape : shape x = [b; n; dim a].
Hypothesis some_heads : heads a <> 0.

(** Without a mask the weights of every query sum to one. *)
Lemma Attention_unmasked_weights :
  exists t,
    Attention_run fmt md a x None = Ok t /\
    forall bi hi i, i < n ->
      sum_n n (fun j => get (tr_attn t) [bi; hi; i; j]) = 1%R.
Proof.
  destruct (Attention_run_unmasked fmt md a x b n x_shape some_heads)
    as [t [Hrun [_ [_ [Hs [Ha _]]]]]].
  exists t. split; [exact Hrun|]. intros bi hi i Hi.
  rewrite Ha.
  rewrite (sum_n_ext n _ (softmax_row fmt n (fun j => get (tr_dots t) [bi; hi; i; j]))).
  - apply softmax_row_sum; [exact uflow_pos | lia].
  - intros j _. rewrite softmax_get4, Hs. reflexivity.
Qed.

Variables (mask : tensor bool) (bm l : nat).
Hypothesis mask_shape : shape mask = [bm; l].
Hypothesis mask_width : S l = n.
Hypothesis mask_rows : bm = 1 \/ bm = heads a.

(** With a mask: the weights of every query sum to one over all keys; a
    query whose bit is false has its whole row filled and gets the uniform
    weights; a query whose bit is true gives no weight to the masked keys,
    when its unmasked scores are [uflow] above the fill value. *)
Lemma Attention_masked_weights :
  exists t pm,
    Attention_run fmt md a x (Some mask) = Ok t /\
    tr_mask t = Some pm /\
    (forall r i j, get pm [r; i; j] = padded_bit mask r j && padded_bit mask r i) /\
    forall bi hi i, i < n ->
      sum_n n (fun j => get (tr_attn t) [bi; hi; i; j]) = 1%R /\
      (padded_bit mask (mask_row bm hi) i = false ->
         (forall j, j < n -> get pm [mask_row bm hi; i; j] = false) /\
         (forall j, j < n -> get (tr_dots t) [bi; hi; i; j] = mask_value fmt) /\
         (forall j, j < n -> get (tr_attn t) [bi; hi; i; j] = (1 / INR n)%R) /\
         (forall c, get (tr_out_heads t) [bi; hi; i; c]
                    = (sum_n n (fun j => get (tr_v t) [bi; hi; j; c]) / INR n)%R)) /\
      (padded_bit mask (mask_row bm hi) i = true ->
         (forall j, j < n -> padded_bit mask (mask_row bm hi) j = true ->
            (mask_value fmt + uflow fmt <= get (tr_dots_raw t) [bi; hi; i; j])%R) ->
         sum_where n (padded_bit mask (mask_row bm hi))
           (fun j => get (tr_attn t) [bi; hi; i; j]) = 1%R /\
         (forall j, j < n -> padded_bit mask (mask_row bm hi) j = false ->
            get (tr_attn t) [bi; hi; i; j] = 0%R)).
Proof.
  destruct (Attention_run_masked fmt md a x b n x_shape some_heads mask bm l
              mask_shape mask_width mask_rows)
    as [t [pm [Hrun [Hpm [Hpair [Hs [Hfill [Ha [_ [Hout _]]]]]]]]]].
  exists t, pm. split; [exact Hrun|]. split; [exact Hpm|]. split; [exact Hpair|].
  intros bi hi i Hi.
  set (r := mask_row bm hi) in *.
  set (row := fun j => get (tr_dots t) [bi; hi; i; j]).
  assert (Hrow : forall j, get (tr_attn t) [bi; hi; i; j] = softmax_row fmt n row j).
  { intros j. rewrite Ha, softmax_get4, Hs. reflexivity. }
  split; [|split].
  - rewrite (sum_n_ext n _ (softmax_row fmt n row)) by (intros j _; apply Hrow).
    apply softmax_row_sum; [exact uflow_pos | lia].
  - intros Hbit.
    assert (Hpmf : forall j, j < n -> get pm [r; i; j] = false).
    { intros j _. rewrite Hpair, Hbit. apply andb_false_r. }
    assert (Hd : forall j, j < n -> row j = mask_value fmt).
    { intros j Hj. unfold row. rewrite (Hfill bi hi i j Hi Hj).
      fold r. rewrite (Hpmf j Hj). reflexivity. }
    assert (Hw : forall j, j < n -> get (tr_attn t) [bi; hi; i; j] = (1 / INR n)%R).
    { intros j Hj. rewrite Hrow.
      apply (softmax_row_filled fmt uflow_pos n row (mask_value fmt) j Hd Hj). }
    split; [exact Hpmf|]. split; [exact Hd|]. split; [exact Hw|].
    intros c. rewrite Hout.
    rewrite (sum_n_ext n _ (fun j => (get (tr_v t) [bi; hi; j; c] * (1 / INR n))%R)).
    + rewrite sum_n_scal_r. unfold Rdiv. ring.
    + intros j Hj. rewrite (Hw j Hj). ring.
  - intros Hbit Hraw.
    destruct (softmax_row_masked fmt uflow_pos n row
                (fun j => get (tr_dots_raw t) [bi; hi; i; j])
                (padded_bit mask r) (mask_value fmt) i) as [Hz Hsum].
    + intros j Hj. unfold row. rewrite (Hfill bi hi i j Hi Hj).
      fold r. rewrite Hpair, Hbit, andb_true_r. reflexivity.
    + exact Hi.
    + exact Hbit.
    + exact Hraw.
    + split.
      * rewrite <- Hsum. unfold sum_where. apply sum_n_ext.
        intros j _. rewrite Hrow. reflexivity.
      * intros j Hj Hk. rewrite Hrow. apply Hz; assumption.
Qed.

End AttentionWeights.

(** ** Attention: construction, weights and masked queries *)

Section AttentionTheorems.

(** On the zero input every score is zero. *)
Lemma zero_input_scores (fmt : float_format) (md : mode) (a : Attention)
    (mask : option (tensor bool)) (b n : nat) (t : Attention_trace) :
  heads a <> 0 ->
  Attention_run fmt md a (zeros [b; n; dim a]) mask = Ok t ->
  forall bi hi i j, get (tr_dots_raw t) [bi; hi; i; j] = 0%R.
Proof.
  intros Hh Hrun bi hi i j.
  destruct (Attention_run_values fmt md a (zeros [b; n; dim a]) mask b n t
              eq_refl Hh Hrun) as [Hqkv Hraw].
  rewrite Hraw. rewrite sum_n_zero; [ring|].
  intros e _. rewrite (Hqkv 0 (tr_q t) (or_introl (conj eq_refl eq_refl))).
  rewrite sum_n_zero; [ring|].
  intros u _. cbn. ring.
Qed.

Lemma Attention_init_zero_dim_head (d h : nat) (p : R)
    (wq wo : nat -> nat -> R) (bo : nat -> R) :
  Attention_init d h 0 p wq wo bo = Raise ZeroDivisionError.
Proof. reflexivity. Qed.

(** [nn.Dropout] accepts the probabilities of [0, 1] and no others. *)
Lemma Dropout_init_ok (p : R) : (0 <= p <= 1)%R -> Dropout_init p = Ok p.
Proof.
  intros [H0 H1]. unfold Dropout_init.
  destruct (Rlt_dec p 0) as [H|_]; [lra|].
  destruct (Rlt_dec 1 p) as [H|_]; [lra|]. reflexivity.
Qed.

Lemma Dropout_init_out_of_range (p : R) :
  (p < 0 \/ 1 < p)%R -> Dropout_init p = Raise ValueError.
Proof.
  intros H. unfold Dropout_init.
  destruct (Rlt_dec p 0) as [_|H0]; [reflexivity|].
  destruct (Rlt_dec 1 p) as [_|H1]; [reflexivity|]. lra.
Qed.

Lemma Attention_init_ok (d h dh : nat) (p : R)
    (wq wo : nat -> nat -> R) (bo : nat -> R) :
  dh <> 0 -> (0 <= p <= 1)%R ->
  Attention_init d h dh p wq wo bo
  = Ok {| dim := d; heads := h; dim_head := dh; dropout := p;
          qkv_weight := wq; out_weight := wo; out_bias := bo |}.
Proof.
  intros Hd Hp. unfold Attention_init.
  apply Nat.eqb_neq in Hd. rewrite Hd.
  rewrite (Dropout_init_ok p Hp). reflexivity.
Qed.

(** With a non-zero head width, a dropout probability outside [0, 1] is
    refused when [to_out] is built. *)
Lemma Attention_init_bad_dropout (d h dh : nat) (p : R)
    (wq wo : nat -> nat -> R) (bo : nat -> R) :
  dh <> 0 -> (p < 0 \/ 1 < p)%R ->
  Attention_init d h dh p wq wo bo = Raise ValueError.
Proof.
  intros Hd Hp. unfold Attention_init.
  apply Nat.eqb_neq in Hd. rewrite Hd.
  rewrite (Dropout_init_out_of_range p Hp). reflexivity.
Qed.

Lemma FeedForward_init_ok (d hd : nat) (p : R) (act : R -> R)
    (w1 : nat -> nat -> R) (b1 : nat -> R) (w2 : nat -> nat -> R) (b2 : nat -> R) :
  (0 <= p <= 1)%R ->
  FeedForward_init d hd p act w1 b1 w2 b2
  = Ok {| ff_dim := d; hidden_dim := hd; ff_dropout := p; gelu := act;
          ff_w1 := w1; ff_b1 := b1; ff_w2 := w2; ff_b2 := b2 |}.
Proof.
  intros Hp. unfold FeedForward_init.
  rewrite (Dropout_init_ok p Hp). cbn [bind].
  rewrite (Dropout_init_ok p Hp). reflexivity.
Qed.

(** C3, as stated, does not hold: [Attention(dim=32, heads=8, dim_head=64)],
    where 32 is not 8 * 64, is constructed without an error. *)
Lemma C3_constructor_accepts_dim_32_heads_8_dim_head_64 :
  32 <> 8 * 64 /\
  succeeds (Attention_init 32 8 64 0%R (fun _ _ => 0%R) (fun _ _ => 0%R) (fun _ => 0%R)).
Proof.
  split; [lia|]. eexists. apply Attention_init_ok; [discriminate | lra].
Qed.

(** C3, amended: the constructor does not compare [dim] with
    [heads * dim_head]; for every [dim], [heads], every non-zero [dim_head]
    and every dropout probability of [0, 1] it succeeds, with the
    projections [dim -> 3 * dim_head * heads] and [dim_head * heads -> dim],
    and with at least one head the forward call maps an input of shape
    (b, n, dim) to an output of the same shape, whether or not
    [dim = heads * dim_head]. *)
Theorem C3_constructor_does_not_compare_dim
    (d h dh : nat) (p : R) (wq wo : nat -> nat -> R) (bo : nat -> R) :
  dh <> 0 -> (0 <= p <= 1)%R ->
  exists a,
    Attention_init d h dh p wq wo bo = Ok a /\
    in_features (to_qkv a) = d /\
    out_features (to_qkv a) = dh * h * 3 /\
    in_features (to_out a) = dh * h /\
    out_features (to_out a) = d /\
    (h <> 0 ->
     forall fmt md x b n, shape x = [b; n; d] ->
       exists y, Attention_forward fmt md a x None = Ok y /\ shape y = [b; n; d]).
Proof.
  intros Hd Hp. rewrite (Attention_init_ok d h dh p wq wo bo Hd Hp).
  set (a := {| dim := d; heads := h; dim_head := dh; dropout := p;
               qkv_weight := wq; out_weight := wo; out_bias := bo |}).
  exists a. split; [reflexivity|].
  repeat (split; [reflexivity|]).
  intros Hh fmt md x b n Hx.
  destruct (Attention_run_unmasked fmt md a x b n Hx Hh)
    as [t [Hrun [_ [_ [_ [_ Ho]]]]]].
  exists (tr_out t). split; [|exact Ho].
  apply Attention_forward_run. exact Hrun.
Qed.

Lemma C3_constructor_does_not_compare_dim_witness :
  exists a y,
    Attention_init 32 8 64 0%R (fun _ _ => 0%R) (fun _ _ => 0%R) (fun _ => 0%R) = Ok a /\
    in_features (to_qkv a) = 32 /\
    out_features (to_qkv a) = 64 * 8 * 3 /\
    in_features (to_out a) = 64 * 8 /\
    out_features (to_out a) = 32 /\
    Attention_forward float32 Eval a (zeros [2; 5; 32]) None = Ok y /\
    shape y = [2; 5; 32].
Proof.
  destruct (C3_constructor_does_not_compare_dim 32 8 64 0%R
              (fun _ _ => 0%R) (fun _ _ => 0%R) (fun _ => 0%R))
    as [a [Ha [H1 [H2 [H3 [H4 Hf]]]]]].
  - discriminate.
  - lra.
  - destruct (Hf (fun E => O_S 7 (eq_sym E)) float32 Eval (zeros [2; 5; 32]) 2 5 eq_refl)
      as [y [Hy Hs]].
    exists a, y. repeat (split; [assumption|]). assumption.
Defined.

(** C4, as stated, does not hold: with one head, an input of shape (1,2,1)
    and the mask [[false]], padded to [[true, false]], query 1 has no
    unmasked key, so its weights over the unmasked keys sum to 0, and the
    masked key 1 gets the weight 1/2. *)
Lemma C4_masked_query_gives_weight_to_masked_keys :
  exists t pm,
    Attention_run float32 Eval attention_1 (zeros [1; 2; 1]) (Some (full [1; 1] false))
    = Ok t /\
    tr_mask t = Some pm /\
    sum_where 2 (fun j => get pm [0; 1; j]) (fun j => get (tr_attn t) [0; 0; 1; j]) <> 1%R /\
    get pm [0; 1; 1] = false /\
    get (tr_attn t) [0; 0; 1; 1] = (1 / 2)%R.
Proof.
  destruct (Attention_masked_weights float32 Eval attention_1 (zeros [1; 2; 1]) 1 2
              float32_uflow_pos eq_refl attention_1_heads
              (full [1; 1] false) 1 1 eq_refl eq_refl (or_introl eq_refl))
    as [t [pm [Hrun [Hpm [_ H]]]]].
  destruct (H 0 0 1 (Nat.lt_succ_diag_r 1)) as [_ [Hf _]].
  destruct (Hf eq_refl) as [Hpmf [_ [Hw _]]].
  exists t, pm. split; [exact Hrun|]. split; [exact Hpm|]. split; [|split].
  - rewrite sum_where_none.
    + lra.
    + intros j Hj. apply (Hpmf j Hj).
  - apply (Hpmf 1). lia.
  - rewrite (Hw 1) by lia. simpl INR. reflexivity.
Qed.

(** A query whose mask bit is false: in every call with a mask that passes
    the shape checks, its entire score row is masked by the pairwise mask,
    every entry of the row holds the same value [- finfo.max], the softmax
    gives the weight 1/n to every key position, masked ones included, and
    its per-head output is the unweighted mean of the value vectors.  The
    mask bit is read in the row that the fill uses for the head, the only
    row of a one-row mask. *)
Lemma masked_query_attends_uniformly
    (fmt : float_format) (md : mode) (a : Attention) (x : tensor R)
    (mask : tensor bool) (b n bm l : nat) :
  (0 < uflow fmt)%R -> shape x = [b; n; dim a] -> heads a <> 0 ->
  shape mask = [bm; l] -> S l = n -> bm = 1 \/ bm = heads a ->
  exists t pm,
    Attention_run fmt md a x (Some mask) = Ok t /\
    Attention_forward fmt md a x (Some mask) = Ok (tr_out t) /\
    tr_mask t = Some pm /\
    forall bi hi i, i < n -> padded_bit mask (mask_row bm hi) i = false ->
      (forall j, j < n -> get pm [mask_row bm hi; i; j] = false) /\
      (forall j, j < n -> get (tr_dots t) [bi; hi; i; j] = (- finfo_max fmt)%R) /\
      (forall j, j < n -> get (tr_attn t) [bi; hi; i; j] = (1 / INR n)%R) /\
      (forall c, get (tr_out_heads t) [bi; hi; i; c]
                 = (sum_n n (fun j => get (tr_v t) [bi; hi; j; c]) / INR n)%R).
Proof.
  intros Hu Hx Hh Hm Hl Hbm.
  destruct (Attention_masked_weights fmt md a x b n Hu Hx Hh mask bm l Hm Hl Hbm)
    as [t [pm [Hrun [Hpm [_ H]]]]].
  exists t, pm. split; [exact Hrun|].
  split; [apply Attention_forward_run; exact Hrun|]. split; [exact Hpm|].
  intros bi hi i Hi Hbit. destruct (H bi hi i Hi) as [_ [Hf _]].
  exact (Hf Hbit).
Qed.

End AttentionTheorems.

(** ** Residual addition *)

Section ResidualAddition.

Lemma broadcast_rev_same (s : shape_t) : broadcast_rev s s = Ok s.
Proof.
  induction s as [|d s IH]; [reflexivity|].
  cbn [broadcast_rev]. rewrite IH. cbn [bind]. rewrite Nat.eqb_refl. reflexivity.
Qed.

Lemma broadcast_shapes_same (s : shape_t) : broadcast_shapes s s = Ok s.
Proof.
  unfold broadcast_shapes. rewrite broadcast_rev_same. cbn [bind].
  rewrite rev_involutive. reflexivity.
Qed.

Lemma Forall2_lt_rev (ix s : list nat) :
  Forall2 lt ix s -> Forall2 lt (rev ix) (rev s).
Proof.
  induction 1 as [|i d ix s Hid _ IH]; [constructor|].
  cbn [rev]. apply Forall2_app; [exact IH | repeat constructor; exact Hid].
Qed.

Lemma bindex_rev_in_bounds (s ix : list nat) :
  Forall2 lt ix s -> bindex_rev s ix = ix.
Proof.
  induction 1 as [|i d ix s Hid _ IH]; [reflexivity|].
  cbn [bindex_rev]. rewrite IH, (bpos_in_range d i Hid). reflexivity.
Qed.

Lemma bindex_in_bounds (s ix : list nat) :
  in_bounds ix s -> bindex s ix = ix.
Proof.
  intros H. unfold bindex.
  rewrite (bindex_rev_in_bounds (rev s) (rev ix) (Forall2_lt_rev ix s H)).
  apply rev_involutive.
Qed.

(** The sum of two tensors of one shape is taken entry by entry. *)
Lemma tadd_same_shape (y x : tensor R) :
  shape y = shape x ->
  exists z, tadd y x = Ok z /\ shape z = shape x /\
    forall ix, in_bounds ix (shape x) -> get z ix = (get y ix + get x ix)%R.
Proof.
  intros Hs. unfold tadd. rewrite Hs, broadcast_shapes_same. cbn [bind].
  eexists. split; [reflexivity|]. split; [reflexivity|].
  intros ix Hix. cbn [get]. rewrite (bindex_in_bounds (shape x) ix Hix). reflexivity.
Qed.

End ResidualAddition.

(** ** The transformer sub-layers *)

Section TransformerLayers.

(** C9: the wrapper [Residual(PreNorm(dim, fn))] applied to [x] and the
    keyword arguments computes [fn(LayerNorm(x), kwargs) + x], where the
    addend is the input [x] itself and not its normalization: when the
    sub-layer returns a tensor of the shape of [x], every entry of the
    result is the entry of [fn(LayerNorm(x), kwargs)] plus the entry of [x].
    Every layer of [Transformer.forward] applies this rule twice, to the
    attention with the mask and then to the feed-forward block. *)
Theorem C9_prenorm_residual_composition :
  (forall (K : Type) (norm : LayerNorm) (fn : @sublayer K) (x : tensor R) (kwargs : K),
     Residual_forward (PreNorm_forward norm fn) x kwargs
     = (nx <- LayerNorm_forward norm x ;; y <- fn nx kwargs ;; tadd y x)) /\
  (forall (K : Type) (norm : LayerNorm) (fn : @sublayer K) (x : tensor R) (kwargs : K)
          (nx y : tensor R),
     LayerNorm_forward norm x = Ok nx -> fn nx kwargs = Ok y -> shape y = shape x ->
     exists z,
       Residual_forward (PreNorm_forward norm fn) x kwargs = Ok z /\
       shape z = shape x /\
       forall ix, in_bounds ix (shape x) -> get z ix = (get y ix + get x ix)%R) /\
  (forall fmt draws l ls i x mask,
     Transformer_forward fmt draws (l :: ls) i x mask
     = (y <- (nx <- LayerNorm_forward (attn_norm l) x ;;
              o <- Attention_forward fmt (fst (fst (draws i))) (attn_fn l) nx mask ;;
              tadd o x) ;;
        z <- (ny <- LayerNorm_forward (ff_norm l) y ;;
              o <- FeedForward_forward (snd (fst (draws i))) (snd (draws i)) (ff_fn l) ny ;;
              tadd o y) ;;
        Transformer_forward fmt draws ls (S i) z mask)).
Proof.
  assert (Hcomp : forall (K : Type) (norm : LayerNorm) (fn : @sublayer K)
                         (x : tensor R) (kwargs : K),
             Residual_forward (PreNorm_forward norm fn) x kwargs
             = (nx <- LayerNorm_forward norm x ;; y <- fn nx kwargs ;; tadd y x)).
  { intros K norm fn x kwargs. unfold Residual_forward, PreNorm_forward.
    destruct (LayerNorm_forward norm x); reflexivity. }
  split; [exact Hcomp|]. split.
  - intros K norm fn x kwargs nx y Hn Hf Hs.
    rewrite Hcomp, Hn. cbn [bind]. rewrite Hf. cbn [bind].
    apply tadd_same_shape. exact Hs.
  - intros fmt draws l ls i x mask. cbn [Transformer_forward].
    unfold layer_attn, layer_ff. rewrite Hcomp.
    destruct (nx <- LayerNorm_forward (attn_norm l) x ;;
              o <- Attention_forward fmt (fst (fst (draws i))) (attn_fn l) nx mask ;;
              tadd o x) as [y|e]; [|reflexivity].
    cbn [bind]. rewrite Hcomp. reflexivity.
Qed.

End TransformerLayers.

(** ** The link feature extractor *)

Section LinkFeatures.

Lemma canonical_rank4 (x : tensor R) (a c H W : nat) :
  shape x = [a; c; H; W] -> canonical x = x.
Proof. intros Hs. unfold canonical. rewrite Hs. reflexivity. Qed.

Lemma canonical_rank3 (x : tensor R) (c H W : nat) :
  shape x = [c; H; W] ->
  canonical x = unsqueeze 0 x /\ shape (canonical x) = [1; c; H; W].
Proof.
  intros Hs. unfold canonical. rewrite Hs. cbn [List.length Nat.eqb].
  split; [reflexivity|]. unfold unsqueeze. cbn [shape]. rewrite Hs. reflexivity.
Qed.

Lemma canonical_rank2 (x : tensor R) (H W : nat) :
  shape x = [H; W] ->
  canonical x = unsqueeze 1 (unsqueeze 0 x) /\
  shape (canonical x) = [1; 1; H; W] /\
  forall a c i j, get (canonical x) [a; c; i; j] = get x [i; j].
Proof.
  intros Hs. unfold canonical. rewrite Hs. cbn [List.length Nat.eqb].
  split; [reflexivity|]. split.
  - unfold unsqueeze. cbn [shape]. rewrite Hs. reflexivity.
  - intros a c i j. reflexivity.
Qed.

(** C7: on a 2D input of shape (H,W) the forward output is the forward
    output on the canonical 4D tensor, which has the shape (1,1,H,W) and
    the entries of the input behind a unit batch and a unit channel axis;
    the canonical tensor is not reshaped again, and the rest of the
    pipeline is the same, the dropout draws being the same. *)
Theorem C7_rank2_input_equals_canonical_input
    (draws : nat -> mode) (m : ConvNetSSM) (x : tensor R) (H W : nat) :
  shape x = [H; W] ->
  exists x4,
    x4 = unsqueeze 1 (unsqueeze 0 x) /\
    shape x4 = [1; 1; H; W] /\
    (forall a c i j, get x4 [a; c; i; j] = get x [i; j]) /\
    canonical x4 = x4 /\
    ConvNetSSM_forward draws m x = ConvNetSSM_forward draws m x4.
Proof.
  intros Hs. destruct (canonical_rank2 x H W Hs) as [Hc [Hs4 Hg]].
  exists (canonical x).
  assert (Hfix : canonical (canonical x) = canonical x)
    by (apply (canonical_rank4 _ 1 1 H W); exact Hs4).
  split; [exact Hc|]. split; [exact Hs4|]. split; [exact Hg|].
  split; [exact Hfix|].
  unfold ConvNetSSM_forward. rewrite Hfix. reflexivity.
Qed.

Lemma C7_rank2_input_equals_canonical_input_witness :
  exists x4,
    x4 = unsqueeze 1 (unsqueeze 0 (zeros [3; 5])) /\
    shape x4 = [1; 1; 3; 5] /\
    (forall a c i j, get x4 [a; c; i; j] = get (zeros [3; 5]) [i; j]) /\
    canonical x4 = x4 /\
    ConvNetSSM_forward (fun _ => Eval) ssm_id (zeros [3; 5])
    = ConvNetSSM_forward (fun _ => Eval) ssm_id x4.
Proof.
  apply (C7_rank2_input_equals_canonical_input (fun _ => Eval) ssm_id (zeros [3; 5]) 3 5).
  reflexivity.
Defined.

End LinkFeatures.

(** ** The edge-feature graph attention network *)

Section EdgeAttention.

Lemma has_zero_in_degree_node (g : graph) (v : nat) :
  v < num_nodes g -> in_degree g v = 0 -> has_zero_in_degree g = true.
Proof.
  intros Hv Hd. unfold has_zero_in_degree. apply existsb_exists.
  exists v. split.
  - apply in_seq. lia.
  - rewrite Hd. reflexivity.
Qed.

Lemma EdgeGATConv_rejects_zero_in_degree (c : EdgeGATConv) (g : graph)
    (feat edge_feat : tensor R) :
  allow_zero_in_degree c = false -> has_zero_in_degree g = true ->
  EdgeGATConv_forward c g feat edge_feat = Raise DGLError.
Proof.
  intros Ha Hz. unfold EdgeGATConv_forward. rewrite Ha, Hz. reflexivity.
Qed.

(** C8: for every EGAT instance, whatever its sizes and parameters, the
    forward call on a graph that has a node with in-degree 0 fails with the
    graph library's error; the attention of the first layer is not
    computed. *)
Theorem C8_zero_in_degree_node_is_rejected
    (n_in n_feat n_heads : nat)
    (p_1 p_2 : graph -> tensor R -> tensor R -> result (tensor R))
    (g : graph) (h edge_feat : tensor R) (v : nat) :
  v < num_nodes g -> in_degree g v = 0 ->
  EGAT_forward (EGAT_init n_in n_feat n_heads p_1 p_2) g h edge_feat
  = Raise DGLError.
Proof.
  intros Hv Hd. unfold EGAT_forward.
  rewrite (EdgeGATConv_rejects_zero_in_degree
             (layer_1 (EGAT_init n_in n_feat n_heads p_1 p_2)) g h edge_feat eq_refl
             (has_zero_in_degree_node g v Hv Hd)).
  reflexivity.
Qed.

Lemma C8_zero_in_degree_node_is_rejected_witness :
  EGAT_forward (EGAT_init 32 8 4 (fun _ h _ => Ok h) (fun _ h _ => Ok h))
    graph_0_1 (zeros [2; 32]) (zeros [1; 8])
  = Raise DGLError.
Proof.
  apply (C8_zero_in_degree_node_is_rejected 32 8 4 _ _ graph_0_1 _ _ 0).
  - cbn. lia.
  - reflexivity.
Defined.

End EdgeAttention.

(** ** The dense graph network *)

Section DenseGraph.
Local Open Scope R_scope.

Lemma bdim_same (d : nat) : bdim d d = Ok d.
Proof. unfold bdim. rewrite Nat.eqb_refl. reflexivity. Qed.




Lemma bpos_lt (d i : nat) : (i < d)%nat -> bpos d i = i.
Proof. exact (bpos_in_range d i). Qed.



Lemma madd_ok (a b : matrix) (r c : nat) :
  bdim (rows a) (rows b) = Ok r -> bdim (cols a) (cols b) = Ok c ->
  exists m, madd a b = Ok m /\ rows m = r /\ cols m = c /\
    forall i j,
      entry m i j = entry a (bpos (rows a) i) (bpos (cols a) j)
                    + entry b (bpos (rows b) i) (bpos (cols b) j).
Proof.
  intros Hr Hc. unfold madd. rewrite Hr, Hc. cbn [bind].
  eexists. repeat split.
Qed.


(** The library layer on an adjacency matrix whose columns are the nodes
    of the feature matrix, and features of width [in_feats]. *)
Lemma DenseGraphConv_forward_ok (c : DenseGraphConv) (adj feat : matrix) :
  cols adj = rows feat -> cols feat = in_feats c ->
  exists r,
    DenseGraphConv_forward c adj feat = Ok r /\
    rows r = rows adj /\ cols r = out_feats c /\
    ((forall i k, entry adj i k = 0) -> forall i j, entry r i j = gc_bias c j).
Proof.
  intros Ha Hf. unfold DenseGraphConv_forward, matmul.
  destruct (out_feats c <? in_feats c)%nat.
  - cbn [weight_matrix rows cols]. rewrite Hf, Nat.eqb_refl. cbn [bind rows cols].
    rewrite Ha, Nat.eqb_refl. cbn [bind].
    eexists. split; [reflexivity|]. cbn [rows cols entry].
    split; [reflexivity|]. split; [reflexivity|].
    intros Hz i j. rewrite sum_n_zero; [ring|].
    intros k _. rewrite Hz. ring.
  - rewrite Ha, Nat.eqb_refl. cbn [bind rows cols weight_matrix].
    rewrite Hf, Nat.eqb_refl. cbn [bind].
    eexists. split; [reflexivity|]. cbn [rows cols entry].
    split; [reflexivity|]. split; [reflexivity|].
    intros Hz i j. rewrite sum_n_zero; [ring|].
    intros k _. rewrite sum_n_zero; [ring|].
    intros k' _. rewrite Hz. ring.
Qed.

Lemma DenseGraphConv_forward_width (c : DenseGraphConv) (adj feat : matrix) :
  cols feat <> in_feats c ->
  DenseGraphConv_forward c adj feat = Raise RuntimeError.
Proof.
  intros Hf. apply Nat.eqb_neq in Hf.
  unfold DenseGraphConv_forward, matmul.
  destruct (out_feats c <? in_feats c)%nat.
  - cbn [weight_matrix rows cols]. rewrite Hf. reflexivity.
  - destruct (cols adj =? rows feat)%nat; [|reflexivity].
    cbn [bind rows cols weight_matrix]. rewrite Hf. reflexivity.
Qed.

Lemma elu_0 : elu 0 = 0.
Proof.
  unfold elu. destruct (Rlt_dec 0 0) as [H|_]; [lra|]. rewrite exp_0. lra.
Qed.

Lemma elu_pos (x : R) : 0 < x -> elu x = x.
Proof. intros H. unfold elu. destruct (Rlt_dec 0 x); [reflexivity | contradiction]. Qed.

Variables (g : GCN_DENSE) (A h : matrix).
Hypothesis A_rows : rows A = rows h.
Hypothesis A_cols : cols A = rows h.
Hypothesis h_cols : cols h = in_size g.

(** The value after layer 1: it exists when the layer output broadcasts
    against the input. *)
Lemma GCN_DENSE_layer1_ok (w : nat) :
  bdim (hid_size g) (in_size g) = Ok w ->
  exists c v,
    DenseGraphConv_forward (conv_1 g) A h = Ok c /\
    ((forall i k, entry A i k = 0) -> forall i j, entry c i j = b_1 g j) /\
    GCN_DENSE_layer1 g A h = Ok v /\
    rows v = rows h /\ cols v = w /\
    forall i j,
      entry v i j = elu (entry c (bpos (rows h) i) (bpos (hid_size g) j))
                    + entry h (bpos (rows h) i) (bpos (in_size g) j).
Proof.
  intros Hw.
  destruct (DenseGraphConv_forward_ok (conv_1 g) A h A_cols h_cols)
    as [c [Hc [Hcr [Hcc Hz]]]].
  cbn [conv_1 out_feats gc_bias] in Hcc, Hz.
  destruct (madd_ok (mmap elu c) h (rows h) w) as [v [Hv [Hvr [Hvc Hve]]]].
  - cbn [mmap rows]. rewrite Hcr, A_rows. apply bdim_same.
  - cbn [mmap cols]. rewrite Hcc, h_cols. exact Hw.
  - exists c, v. split; [exact Hc|]. split; [exact Hz|].
    unfold GCN_DENSE_layer1. rewrite Hc. cbn [bind].
    split; [exact Hv|]. split; [exact Hvr|]. split; [exact Hvc|].
    intros i j. rewrite Hve. cbn [mmap rows cols entry].
    rewrite Hcr, A_rows, Hcc, h_cols. reflexivity.
Qed.




End DenseGraph.

Section DenseGraphTheorems.
Local Open Scope R_scope.




(** C6, as stated, does not hold: for the instance of width one whose
    first bias is 1, the all-zero adjacency matrix and [h = 0] on one node,
    the value after layer 1 is [ELU(1) + 0 = 1], not [h]. *)
Lemma C6_bias_shifts_the_value_after_layer_1 :
  exists v,
    GCN_DENSE_layer1 gcn_biased (zero_matrix 1 1) (zero_matrix 1 1) = Ok v /\
    entry v 0 0 = 1 /\
    entry (zero_matrix 1 1) 0 0 = 0 /\
    entry v 0 0 <> entry (zero_matrix 1 1) 0 0.
Proof.
  destruct (GCN_DENSE_layer1_ok gcn_biased (zero_matrix 1 1) (zero_matrix 1 1)
              eq_refl eq_refl eq_refl 1 eq_refl)
    as [c [v [_ [Hz [Hv [_ [_ He]]]]]]].
  assert (E : entry v 0 0 = 1).
  { rewrite He, Hz by reflexivity. cbn [gcn_biased b_1 zero_matrix entry].
    rewrite elu_pos by lra. ring. }
  exists v. split; [exact Hv|]. split; [exact E|]. split; [reflexivity|].
  rewrite E. cbn. lra.
Qed.

(** C6, amended: for every GCN_DENSE instance with [in_size = hid_size] and
    every node feature matrix [h], when the adjacency matrix is all zero
    the aggregation of each layer is zero and the layer's convolution
    returns its bias in every row, so the value after layer 1, before the
    dropout, is [ELU(bias_1) + h]; it is [ELU(0) + h = h] when the bias of
    layer 1 is zero, as it is in a newly constructed instance. *)
Theorem C6_zero_adjacency_leaves_the_bias
    (g : GCN_DENSE) (A h : matrix) :
  rows A = rows h -> cols A = rows h -> cols h = in_size g ->
  in_size g = hid_size g ->
  (forall i k, entry A i k = 0) ->
  exists c v,
    DenseGraphConv_forward (conv_1 g) A h = Ok c /\
    (forall i j, entry c i j = b_1 g j) /\
    GCN_DENSE_layer1 g A h = Ok v /\
    rows v = rows h /\ cols v = cols h /\
    (forall i j, (i < rows h)%nat -> (j < cols h)%nat ->
       entry v i j = elu (b_1 g j) + entry h i j) /\
    ((forall j, b_1 g j = 0) ->
     forall i j, (i < rows h)%nat -> (j < cols h)%nat -> entry v i j = entry h i j) /\
    (forall h', rows h' = rows h -> cols h' = in_size g ->
       exists c2,
         DenseGraphConv_forward (conv_2 g) A h' = Ok c2 /\
         forall i j, entry c2 i j = b_2 g j).
Proof.
  intros Hr Hc Hh E Hz.
  assert (Hb : bdim (hid_size g) (in_size g) = Ok (in_size g))
    by (rewrite E; apply bdim_same).
  destruct (GCN_DENSE_layer1_ok g A h Hr Hc Hh (in_size g) Hb)
    as [c [v [Hcv [Hcz [Hv [Hvr [Hvc He]]]]]]].
  assert (Hent : forall i j, (i < rows h)%nat -> (j < cols h)%nat ->
                   entry v i j = elu (b_1 g j) + entry h i j).
  { intros i j Hi Hj. rewrite He, (Hcz Hz).
    rewrite Hh in Hj.
    rewrite (bpos_lt (rows h) i Hi), (bpos_lt (in_size g) j Hj).
    rewrite <- E, (bpos_lt (in_size g) j Hj). reflexivity. }
  exists c, v. split; [exact Hcv|]. split; [exact (Hcz Hz)|].
  split; [exact Hv|]. split; [exact Hvr|]. split; [congruence|].
  split; [exact Hent|]. split.
  - intros H0 i j Hi Hj. rewrite (Hent i j Hi Hj), H0, elu_0. ring.
  - intros h' Hr' Hc'.
    destruct (DenseGraphConv_forward_ok (conv_2 g) A h') as [c2 [Hc2 [_ [_ Hz2]]]].
    + rewrite Hr'. exact Hc.
    + rewrite Hc'. reflexivity.
    + exists c2. split; [exact Hc2 | exact (Hz2 Hz)].
Qed.

Lemma C6_zero_adjacency_leaves_the_bias_witness :
  exists c v,
    DenseGraphConv_forward
      (conv_1 (GCN_DENSE_init 1 1 0 (fun _ _ => 0) (fun _ _ => 0)))
      (zero_matrix 1 1) (zero_matrix 1 1) = Ok c /\
    (forall i j, entry c i j = b_1 (GCN_DENSE_init 1 1 0 (fun _ _ => 0) (fun _ _ => 0)) j) /\
    GCN_DENSE_layer1 (GCN_DENSE_init 1 1 0 (fun _ _ => 0) (fun _ _ => 0))
      (zero_matrix 1 1) (zero_matrix 1 1) = Ok v /\
    rows v = rows (zero_matrix 1 1) /\ cols v = cols (zero_matrix 1 1) /\
    (forall i j, (i < rows (zero_matrix 1 1))%nat -> (j < cols (zero_matrix 1 1))%nat ->
       entry v i j
       = elu (b_1 (GCN_DENSE_init 1 1 0 (fun _ _ => 0) (fun _ _ => 0)) j)
         + entry (zero_matrix 1 1) i j) /\
    ((forall j, b_1 (GCN_DENSE_init 1 1 0 (fun _ _ => 0) (fun _ _ => 0)) j = 0) ->
     forall i j, (i < rows (zero_matrix 1 1))%nat -> (j < cols (zero_matrix 1 1))%nat ->
       entry v i j = entry (zero_matrix 1 1) i j) /\
    (forall h', rows h' = rows (zero_matrix 1 1) ->
       cols h' = in_size (GCN_DENSE_init 1 1 0 (fun _ _ => 0) (fun _ _ => 0)) ->
       exists c2,
         DenseGraphConv_forward
           (conv_2 (GCN_DENSE_init 1 1 0 (fun _ _ => 0) (fun _ _ => 0)))
           (zero_matrix 1 1) h' = Ok c2 /\
         forall i j, entry c2 i j
                     = b_2 (GCN_DENSE_init 1 1 0 (fun _ _ => 0) (fun _ _ => 0)) j).
Proof.
  apply (C6_zero_adjacency_leaves_the_bias
           (GCN_DENSE_init 1 1 0 (fun _ _ => 0) (fun _ _ => 0))
           (zero_matrix 1 1) (zero_matrix 1 1)); reflexivity.
Defined.

End DenseGraphTheorems.

(** ** The front end on any input *)

Section FrontEndShapes.
Import Shapes.

Lemma window_out_conv3 (size : nat) :
  1 <= size -> window_out size 3 1 1 1 = Ok size.
Proof.
  intros H. unfold window_out.
  destruct (Nat.ltb_spec (size + 2 * 1) (1 * (3 - 1) + 1)) as [Hlt|_]; [lia|].
  f_equal. rewrite Nat.div_1_r. lia.
Qed.

Lemma window_out_pool (size k : nat) :
  1 <= k -> k <= size -> window_out size k 0 1 k = Ok (size / k).
Proof.
  intros Hk H. unfold window_out.
  destruct (Nat.ltb_spec (size + 2 * 0) (1 * (k - 1) + 1)) as [Hlt|_]; [lia|].
  f_equal.
  replace (size + 2 * 0 - 1 * (k - 1) - 1) with (size - k) by lia.
  replace size with (size - k + 1 * k) at 2 by lia.
  rewrite Nat.div_add by lia. reflexivity.
Qed.

(** More than one value per channel, in both modes. *)
Lemma batch_size_checked (training : bool) (b h w : nat) :
  1 <= b -> 2 <= h -> 1 <= w -> training && (b * h * w =? 1) = false.
Proof.
  intros Hb Hh Hw.
  destruct (Nat.eqb_spec (b * h * w) 1) as [E|_]; [|apply andb_false_r].
  exfalso. assert (b * h = 1) by (destruct (b * h) as [|[|?]]; lia).
  assert (h = 1) by (destruct b as [|[|?]]; lia). lia.
Qed.

Lemma BatchNorm2d_ok (training : bool) (c b h w : nat) :
  1 <= c -> 1 <= b -> 2 <= h -> 1 <= w ->
  BatchNorm2d training c [b; c; h; w] = Ok [b; c; h; w].
Proof.
  intros Hc Hb Hh Hw. unfold BatchNorm2d.
  rewrite (batch_size_checked training b h w Hb Hh Hw).
  destruct (Nat.eqb_spec (b * c * h * w) 0) as [E|_]; [exfalso; nia|].
  rewrite Nat.eqb_refl. reflexivity.
Qed.

(** A layer without features fails on the input without entries that a
    channel axis of length zero gives. *)
Lemma BatchNorm2d_no_features (training : bool) (b h w : nat) :
  1 <= b -> 2 <= h -> 1 <= w ->
  BatchNorm2d training 0 [b; 0; h; w] = Raise IndexError.
Proof.
  intros Hb Hh Hw. unfold BatchNorm2d.
  rewrite (batch_size_checked training b h w Hb Hh Hw).
  rewrite Nat.mul_0_r. reflexivity.
Qed.

Lemma Conv2d_same (cin cout b h w : nat) :
  1 <= cin -> 1 <= cout -> 1 <= h -> 1 <= w ->
  Conv2d cin cout 3 1 [b; cin; h; w] = Ok [b; cout; h; w].
Proof.
  intros Hi Ho Hh Hw. unfold Conv2d.
  destruct (Nat.eqb_spec cin 0) as [E|_]; [lia|].
  destruct (Nat.eqb_spec cout 0) as [E|_]; [lia|].
  cbn [orb]. rewrite Nat.eqb_refl.
  rewrite !window_out_conv3 by lia. reflexivity.
Qed.

(** A convolution without input or output channels is refused. *)
Lemma Conv2d_no_channels (cin cout k pad : nat) (s : shape_t) :
  cin = 0 \/ cout = 0 -> Conv2d cin cout k pad s = Raise RuntimeError.
Proof.
  intros [-> | ->]; unfold Conv2d; [reflexivity|].
  rewrite orb_true_r. reflexivity.
Qed.

(** A residual block keeps the batch axis, sets the channels and divides
    the two spatial axes by its pooling factors. *)
Lemma Res2DMaxPoolModule_forward_shape (training : bool) (m : Res2DMaxPoolModule)
    (b h w kh kw : nat) :
  1 <= input_channels m -> 1 <= output_channels m ->
  pooling m = (kh, kw) -> 1 <= kh -> 1 <= kw ->
  1 <= b -> 2 <= h -> kh <= h -> 1 <= w -> kw <= w ->
  Res2DMaxPoolModule_forward training m [b; input_channels m; h; w]
  = Ok [b; output_channels m; h / kh; w / kw].
Proof.
  intros Hci Hco Hp Hkh Hkw Hb Hh Hh' Hw Hw'. unfold Res2DMaxPoolModule_forward.
  assert (Hconv : forall cin cout, 1 <= cin -> 1 <= cout ->
             Conv2d cin cout 3 1 [b; cin; h; w] = Ok [b; cout; h; w]).
  { intros cin cout Hi Ho. apply Conv2d_same; lia. }
  rewrite Hconv by assumption. cbn [bind].
  rewrite BatchNorm2d_ok by lia. cbn [bind ELU].
  rewrite Hconv by assumption. cbn [bind].
  rewrite BatchNorm2d_ok by lia. cbn [bind].
  assert (Hx : [b; input_channels m; h; w] = [b; output_channels m; h; w]
               \/ diff m = true).
  { unfold diff. destruct (Nat.eqb_spec (input_channels m) (output_channels m)) as [E|E].
    - left. rewrite E. reflexivity.
    - right. reflexivity. }
  destruct (diff m); [|destruct Hx as [->|Hx]; [|discriminate]];
    cbn [bind]; unfold add; rewrite broadcast_shapes_same.
  all: cbn [bind ELU]; rewrite Hp; unfold MaxPool2d;
    rewrite !window_out_pool by lia; reflexivity.
Qed.

(** A front end with at least one harmonic and one convolution channel, on
    every input of shape (b, nharmonics, nmels, t) with at least 8 mel bins
    and 4 time steps, returns the shape (b, t // 2 // 2, output_size): the
    flattened width of the three blocks' output is the input width of the
    linear layer. *)
Lemma ResFrontEnd_forward_shape (training : bool) (m : ResFrontEnd) (b t : nat) :
  1 <= nharmonics m -> 1 <= conv_ndim m ->
  1 <= b -> 8 <= nmels m -> 4 <= t ->
  ResFrontEnd_forward training m [b; nharmonics m; nmels m; t]
  = Ok [b; t / 2 / 2; output_size m].
Proof.
  intros Hnh Hcn Hb Hm Ht. unfold ResFrontEnd_forward, ResFrontEnd_cnn.
  rewrite BatchNorm2d_ok by lia. cbn [bind].
  assert (H2 : 4 <= nmels m / 2)
    by (apply (Nat.div_le_lower_bound (nmels m) 2 4); lia).
  assert (H4 : 2 <= nmels m / 2 / 2)
    by (apply (Nat.div_le_lower_bound (nmels m / 2) 2 2); lia).
  assert (T2 : 2 <= t / 2)
    by (apply (Nat.div_le_lower_bound t 2 2); lia).
  assert (T4 : 1 <= t / 2 / 2)
    by (apply (Nat.div_le_lower_bound (t / 2) 2 1); lia).
  pose proof (Res2DMaxPoolModule_forward_shape training (layer1 m) b (nmels m) t 2 2)
    as L1.
  pose proof (Res2DMaxPoolModule_forward_shape training (layer2 m) b
                (nmels m / 2) (t / 2) 2 2) as L2.
  pose proof (Res2DMaxPoolModule_forward_shape training (layer3 m) b
                (nmels m / 2 / 2) (t / 2 / 2) 2 1) as L3.
  cbn [layer1 layer2 layer3 input_channels output_channels pooling] in L1, L2, L3.
  rewrite L1 by (try reflexivity; lia). cbn [bind].
  rewrite L2 by (try reflexivity; lia). cbn [bind].
  rewrite L3 by (try reflexivity; lia).
  cbn [bind]. rewrite Nat.div_1_r.
  unfold permute_view.
  destruct (Nat.eqb_spec (b * (t / 2 / 2)) 0) as [E|_]; [nia|].
  cbn [bind Dropout]. unfold Linear. cbn [rev app].
  unfold fc_dim. rewrite (Nat.mul_comm (conv_ndim m)), Nat.eqb_refl.
  reflexivity.
Qed.

End FrontEndShapes.

(** ** A mask with several rows *)

Section MaskRows.

Lemma attention_2_heads : heads attention_2 <> 0.
Proof. cbn. discriminate. Qed.

(** C10 at masks with several rows: the fill aligns the batch axis of the
    pairwise mask with the head axis of the scores.  With two heads, a
    batch of three and a mask of shape (3,1) whose bits are all false, the
    call fails in the fill.  With two heads and a batch of two, the fill
    reads the mask row of the head, not of the batch element: the score row
    of query 1 of batch element 1, whose mask bit is false, is left as it
    is in head 0 (its entries are 0, not [- finfo.max]), and the score row
    of query 1 of batch element 0, whose mask bits are all true, is filled
    in head 1. *)
Theorem C10_mask_rows_are_read_by_head :
  Attention_forward float32 Eval attention_2 (zeros [3; 2; 1]) (Some (full [3; 1] false))
  = Raise RuntimeError /\
  exists t,
    Attention_run float32 Eval attention_2 (zeros [2; 2; 1]) (Some mask_true_false)
    = Ok t /\
    padded_bit mask_true_false 1 1 = false /\
    get (tr_dots t) [1; 0; 1; 0] = 0%R /\
    get (tr_dots t) [1; 0; 1; 0] <> (- finfo_max float32)%R /\
    padded_bit mask_true_false 0 1 = true /\
    get (tr_dots t) [0; 1; 1; 0] = (- finfo_max float32)%R.
Proof.
  split.
  - apply Attention_forward_raise.
    apply (Attention_run_mask_not_broadcast float32 Eval attention_2 (zeros [3; 2; 1]) 3 2
             eq_refl attention_2_heads (full [3; 1] false) 3 1 eq_refl eq_refl);
      cbn; lia.
  - destruct (Attention_run_masked float32 Eval attention_2 (zeros [2; 2; 1]) 2 2
                eq_refl attention_2_heads mask_true_false 2 1
                eq_refl eq_refl (or_intror eq_refl))
      as [t [pm [Hrun [_ [Hpair [_ [Hfill _]]]]]]].
    assert (H0 : get (tr_dots t) [1; 0; 1; 0] = 0%R).
    { rewrite (Hfill 1 0 1 0) by lia. rewrite Hpair. cbn.
      apply (zero_input_scores float32 Eval attention_2 _ 2 2 t attention_2_heads Hrun). }
    exists t. split; [exact Hrun|]. split; [reflexivity|].
    split; [exact H0|]. split; [|split; [reflexivity|]].
    + rewrite H0. cbn. lra.
    + rewrite (Hfill 0 1 1 0) by lia. rewrite Hpair. reflexivity.
Qed.

End MaskRows.

(** ** The front end: inputs that are rejected *)

Section FrontEndErrors.
Import Shapes.

Lemma window_out_pool_small (size k : nat) :
  size < k -> window_out size k 0 1 k = Raise RuntimeError.
Proof.
  intros H. unfold window_out.
  destruct (Nat.ltb_spec (size + 2 * 0) (1 * (k - 1) + 1)) as [_|Hge]; [reflexivity | lia].
Qed.

(** The part of a residual block before the pooling keeps the spatial
    axes. *)
Lemma Res2DMaxPoolModule_forward_pool (training : bool) (m : Res2DMaxPoolModule)
    (b h w : nat) :
  1 <= input_channels m -> 1 <= output_channels m ->
  1 <= b -> 2 <= h -> 1 <= w ->
  Res2DMaxPoolModule_forward training m [b; input_channels m; h; w]
  = MaxPool2d (pooling m) [b; output_channels m; h; w].
Proof.
  intros Hci Hco Hb Hh Hw. unfold Res2DMaxPoolModule_forward.
  assert (Hconv : forall cin cout, 1 <= cin -> 1 <= cout ->
             Conv2d cin cout 3 1 [b; cin; h; w] = Ok [b; cout; h; w]).
  { intros cin cout Hi Ho. apply Conv2d_same; lia. }
  rewrite Hconv by assumption. cbn [bind].
  rewrite BatchNorm2d_ok by lia. cbn [bind ELU].
  rewrite Hconv by assumption. cbn [bind].
  rewrite BatchNorm2d_ok by lia. cbn [bind].
  assert (Hx : [b; input_channels m; h; w] = [b; output_channels m; h; w]
               \/ diff m = true).
  { unfold diff. destruct (Nat.eqb_spec (input_channels m) (output_channels m)) as [E|E].
    - left. rewrite E. reflexivity.
    - right. reflexivity. }
  destruct (diff m); [|destruct Hx as [->|Hx]; [|discriminate]];
    cbn [bind]; unfold add; rewrite broadcast_shapes_same; reflexivity.
Qed.

Lemma residual_block_cases (training : bool) (m : Res2DMaxPoolModule)
    (b h w kh kw : nat) :
  1 <= input_channels m -> 1 <= output_channels m ->
  pooling m = (kh, kw) -> 1 <= kh -> 1 <= kw -> 1 <= b -> 2 <= h -> 1 <= w ->
  Res2DMaxPoolModule_forward training m [b; input_channels m; h; w]
  = if (kh <=? h) && (kw <=? w)
    then Ok [b; output_channels m; h / kh; w / kw]
    else Raise RuntimeError.
Proof.
  intros Hci Hco Hp Hkh Hkw Hb Hh Hw.
  rewrite Res2DMaxPoolModule_forward_pool by assumption.
  rewrite Hp. unfold MaxPool2d.
  destruct (Nat.leb_spec kh h) as [Lh|Lh].
  - rewrite (window_out_pool h kh Hkh Lh). cbn [bind andb].
    destruct (Nat.leb_spec kw w) as [Lw|Lw].
    + rewrite (window_out_pool w kw Hkw Lw). reflexivity.
    + rewrite (window_out_pool_small w kw Lw). reflexivity.
  - rewrite (window_out_pool_small h kh Lh). reflexivity.
Qed.

(** A residual block with at least one input and one output channel, on an
    input with its input channels: the output has the output channels and
    the spatial axes divided by the pooling factors, rounded down; an axis
    shorter than its pooling factor is an error.  A block without input or
    without output channels raises a RuntimeError on such an input, in its
    first convolution. *)
Theorem residual_block_shape_or_error (training : bool) (m : Res2DMaxPoolModule)
    (b h w kh kw : nat) :
  pooling m = (kh, kw) -> 1 <= kh -> 1 <= kw -> 1 <= b -> 2 <= h -> 1 <= w ->
  (1 <= input_channels m -> 1 <= output_channels m ->
   Res2DMaxPoolModule_forward training m [b; input_channels m; h; w]
   = if (kh <=? h) && (kw <=? w)
     then Ok [b; output_channels m; h / kh; w / kw]
     else Raise RuntimeError) /\
  (input_channels m = 0 \/ output_channels m = 0 ->
   Res2DMaxPoolModule_forward training m [b; input_channels m; h; w]
   = Raise RuntimeError).
Proof.
  intros Hp Hkh Hkw Hb Hh Hw. split.
  - intros Hci Hco.
    exact (residual_block_cases training m b h w kh kw Hci Hco Hp Hkh Hkw Hb Hh Hw).
  - intros Hz. unfold Res2DMaxPoolModule_forward.
    rewrite (Conv2d_no_channels _ _ 3 1 _ Hz). reflexivity.
Qed.

Lemma residual_block_shape_or_error_witness :
  Res2DMaxPoolModule_forward true (layer3 scenario) [2; 64; 24; 50]
  = Ok [2; 64; 24 / 2; 50 / 1]
  /\ Res2DMaxPoolModule_forward true (layer1 scenario) [2; 1; 24; 1]
     = Raise RuntimeError
  /\ Res2DMaxPoolModule_forward true
       {| input_channels := 1; output_channels := 0; pooling := (2, 2) |}
       [2; 1; 2; 2]
     = Raise RuntimeError.
Proof.
  split; [|split].
  - refine (proj1 (residual_block_shape_or_error true (layer3 scenario) 2 24 50 2 1
                     eq_refl _ _ _ _ _) _ _); cbn; lia.
  - refine (proj1 (residual_block_shape_or_error true (layer1 scenario) 2 24 1 2 2
                     eq_refl _ _ _ _ _) _ _); cbn; lia.
  - refine (proj2 (residual_block_shape_or_error true
                     {| input_channels := 1; output_channels := 0; pooling := (2, 2) |}
                     2 2 2 2 2 eq_refl _ _ _ _ _) (or_intror eq_refl)); lia.
Defined.

(** The three blocks of the front end on an input with [f] mel bins. *)
Lemma ResFrontEnd_cnn_shape (training : bool) (m : ResFrontEnd) (b f t : nat) :
  1 <= nharmonics m -> 1 <= conv_ndim m ->
  1 <= b -> 8 <= f -> 4 <= t ->
  ResFrontEnd_cnn training m [b; nharmonics m; f; t]
  = Ok [b; conv_ndim m; f / 2 / 2 / 2; t / 2 / 2].
Proof.
  intros Hnh Hcn Hb Hf Ht. unfold ResFrontEnd_cnn.
  rewrite BatchNorm2d_ok by lia. cbn [bind].
  assert (H2 : 4 <= f / 2) by (apply (Nat.div_le_lower_bound f 2 4); lia).
  assert (H4 : 2 <= f / 2 / 2) by (apply (Nat.div_le_lower_bound (f / 2) 2 2); lia).
  assert (T2 : 2 <= t / 2) by (apply (Nat.div_le_lower_bound t 2 2); lia).
  assert (T4 : 1 <= t / 2 / 2) by (apply (Nat.div_le_lower_bound (t / 2) 2 1); lia).
  pose proof (Res2DMaxPoolModule_forward_shape training (layer1 m) b f t 2 2) as L1.
  pose proof (Res2DMaxPoolModule_forward_shape training (layer2 m) b (f / 2) (t / 2) 2 2)
    as L2.
  pose proof (Res2DMaxPoolModule_forward_shape training (layer3 m) b
                (f / 2 / 2) (t / 2 / 2) 2 1) as L3.
  cbn [layer1 layer2 layer3 input_channels output_channels pooling] in L1, L2, L3.
  rewrite L1 by (try reflexivity; lia). cbn [bind].
  rewrite L2 by (try reflexivity; lia). cbn [bind].
  rewrite L3 by (try reflexivity; lia).
  rewrite Nat.div_1_r. reflexivity.
Qed.

(** The width of the flattened features is compared with the linear layer
    in the forward call: in a front end with at least one harmonic, an input
    whose number of mel bins gives another width than
    [nmels // 2 // 2 // 2 * conv_ndim] goes through the three blocks and is
    then rejected by the linear layer. *)
Theorem front_end_rejects_other_mel_bins (training : bool) (m : ResFrontEnd)
    (b f t : nat) :
  1 <= nharmonics m ->
  1 <= b -> 8 <= f -> 4 <= t ->
  conv_ndim m * (f / 2 / 2 / 2) <> fc_dim m ->
  ResFrontEnd_cnn training m [b; nharmonics m; f; t]
  = Ok [b; conv_ndim m; f / 2 / 2 / 2; t / 2 / 2] /\
  ResFrontEnd_forward training m [b; nharmonics m; f; t] = Raise RuntimeError.
Proof.
  intros Hnh Hb Hf Ht Hw.
  assert (Hcn : 1 <= conv_ndim m).
  { destruct (conv_ndim m) as [|c] eqn:E; [|lia].
    exfalso. apply Hw. unfold fc_dim. rewrite E. lia. }
  pose proof (ResFrontEnd_cnn_shape training m b f t Hnh Hcn Hb Hf Ht) as Hc.
  split; [exact Hc|].
  unfold ResFrontEnd_forward. rewrite Hc. cbn [bind].
  assert (T4 : 1 <= t / 2 / 2).
  { apply (Nat.div_le_lower_bound (t / 2) 2 1); [lia|].
    apply (Nat.div_le_lower_bound t 2 2); lia. }
  unfold permute_view.
  destruct (Nat.eqb_spec (b * (t / 2 / 2)) 0) as [E|_]; [nia|].
  cbn [bind Dropout]. unfold Linear. cbn [rev app].
  apply Nat.eqb_neq in Hw. rewrite Hw. reflexivity.
Qed.

Lemma front_end_rejects_other_mel_bins_witness :
  ResFrontEnd_cnn true scenario [2; nharmonics scenario; 64; 200]
  = Ok [2; conv_ndim scenario; 64 / 2 / 2 / 2; 200 / 2 / 2] /\
  ResFrontEnd_forward true scenario [2; nharmonics scenario; 64; 200]
  = Raise RuntimeError.
Proof.
  apply (front_end_rejects_other_mel_bins true scenario 2 64 200); cbn; lia.
Defined.

(** In a front end with at least one harmonic, an input with fewer than
    four time steps is rejected with a RuntimeError: the time axis does not
    survive the two poolings by two (and without convolution channels the
    first convolution fails). *)
Theorem front_end_rejects_short_input (training : bool) (m : ResFrontEnd)
    (b f t : nat) :
  1 <= nharmonics m ->
  1 <= b -> 8 <= f -> 1 <= t -> t < 4 ->
  ResFrontEnd_forward training m [b; nharmonics m; f; t] = Raise RuntimeError.
Proof.
  intros Hnh Hb Hf Ht Ht4. unfold ResFrontEnd_forward, ResFrontEnd_cnn.
  rewrite BatchNorm2d_ok by lia. cbn [bind].
  destruct (Nat.eq_dec (conv_ndim m) 0) as [Hz|Hnz].
  { assert (L1 : Res2DMaxPoolModule_forward training (layer1 m) [b; nharmonics m; f; t]
                  = Raise RuntimeError).
    { unfold Res2DMaxPoolModule_forward.
      cbn [layer1 input_channels output_channels].
      rewrite (Conv2d_no_channels _ _ 3 1 _ (or_intror Hz)). reflexivity. }
    rewrite L1. reflexivity. }
  assert (Hcn : 1 <= conv_ndim m) by lia.
  pose proof (residual_block_cases training (layer1 m) b f t 2 2) as L1.
  cbn [layer1 input_channels output_channels pooling] in L1.
  specialize (L1 Hnh Hcn eq_refl (le_S _ _ (le_n 1)) (le_S _ _ (le_n 1)) Hb).
  rewrite L1 by lia.
  destruct (Nat.leb_spec 2 f) as [_|]; [|lia]. cbn [andb].
  destruct (Nat.leb_spec 2 t) as [T2|T2]; [|reflexivity].
  cbn [bind].
  assert (H2 : 4 <= f / 2) by (apply (Nat.div_le_lower_bound f 2 4); lia).
  assert (Et : t / 2 = 1).
  { symmetry. apply (Nat.div_unique t 2 1 (t - 2)); lia. }
  pose proof (residual_block_cases training (layer2 m) b (f / 2) (t / 2) 2 2) as L2.
  cbn [layer2 input_channels output_channels pooling] in L2.
  specialize (L2 Hcn Hcn eq_refl (le_S _ _ (le_n 1)) (le_S _ _ (le_n 1)) Hb).
  rewrite L2 by lia. rewrite Et.
  destruct (Nat.leb_spec 2 (f / 2)) as [_|]; [|lia]. reflexivity.
Qed.

Lemma front_end_rejects_short_input_witness :
  ResFrontEnd_forward true scenario [2; nharmonics scenario; 96; 3]
  = Raise RuntimeError.
Proof.
  apply (front_end_rejects_short_input true scenario 2 96 3); cbn; lia.
Defined.

(** An input whose channel axis is not [nharmonics] is rejected: by the
    input normalization, or, when the channel axis is empty, by the first
    convolution. *)
Theorem front_end_rejects_other_channels (training : bool) (m : ResFrontEnd)
    (b c f t : nat) :
  1 <= b -> 2 <= f -> 1 <= t -> c <> nharmonics m ->
  ResFrontEnd_forward training m [b; c; f; t] = Raise RuntimeError.
Proof.
  intros Hb Hf Ht Hc. unfold ResFrontEnd_forward, ResFrontEnd_cnn, BatchNorm2d.
  rewrite (batch_size_checked training b f t Hb Hf Ht).
  destruct (Nat.eqb_spec (b * c * f * t) 0) as [E|E].
  - assert (c = 0) by nia. subst c.
    destruct (Nat.eqb_spec (nharmonics m) 0) as [E0|_]; [congruence|].
    cbn [bind].
    assert (L1 : Res2DMaxPoolModule_forward training (layer1 m) [b; 0; f; t]
                 = Raise RuntimeError).
    { unfold Res2DMaxPoolModule_forward.
      cbn [layer1 input_channels output_channels].
      unfold Conv2d.
      destruct ((nharmonics m =? 0) || (conv_ndim m =? 0)); [reflexivity|].
      destruct (Nat.eqb_spec 0 (nharmonics m)) as [E1|_]; [congruence | reflexivity]. }
    rewrite L1. reflexivity.
  - apply Nat.eqb_neq in Hc. rewrite Hc. reflexivity.
Qed.

Lemma front_end_rejects_other_channels_witness :
  ResFrontEnd_forward true scenario [2; 3; 96; 200] = Raise RuntimeError.
Proof.
  apply (front_end_rejects_other_channels true scenario 2 3 96 200); try lia.
  cbn. discriminate.
Defined.

Lemma ResFrontEnd_forward_shape_witness :
  ResFrontEnd_forward true scenario [3; nharmonics scenario; nmels scenario; 9]
  = Ok [3; 9 / 2 / 2; output_size scenario].
Proof.
  apply (ResFrontEnd_forward_shape true scenario 3 9); cbn; lia.
Defined.

End FrontEndErrors.

(** ** The transformer over its depth *)

Section TransformerDepth.

Lemma LayerNorm_forward_3d (l : LayerNorm) (x : tensor R) (b n : nat) :
  shape x = [b; n; normalized_shape l] ->
  exists y, LayerNorm_forward l x = Ok y /\ shape y = [b; n; normalized_shape l].
Proof.
  intros Hx. unfold LayerNorm_forward. rewrite Hx. cbn [rev app].
  rewrite Nat.eqb_refl. eexists. split; reflexivity.
Qed.

Lemma FeedForward_forward_3d (md1 md2 : mode) (f : FeedForward) (x : tensor R)
    (b n : nat) :
  shape x = [b; n; ff_dim f] ->
  exists y, FeedForward_forward md1 md2 f x = Ok y /\ shape y = [b; n; ff_dim f].
Proof.
  intros Hx. unfold FeedForward_forward.
  destruct (Linear_forward_3d
              {| in_features := ff_dim f; out_features := hidden_dim f;
                 weight := ff_w1 f; bias := Some (ff_b1 f) |} x b n Hx)
    as [y [-> Hy]].
  cbn [bind out_features] in *.
  destruct (Linear_forward_3d
              {| in_features := hidden_dim f; out_features := ff_dim f;
                 weight := ff_w2 f; bias := Some (ff_b2 f) |}
              (Dropout (ff_dropout f) md1 (tmap (gelu f) y)) b n)
    as [z [-> Hz]].
  - rewrite Dropout_shape. exact Hy.
  - cbn [bind]. eexists. split; [reflexivity|]. rewrite Dropout_shape. exact Hz.
Qed.

(** A mask that the attention accepts for a sequence of [n] positions:
    none, or one row of [n - 1] bits. *)
Lemma Attention_forward_shape (fmt : float_format) (md : mode) (a : Attention)
    (x : tensor R) (mask : option (tensor bool)) (b n : nat) :
  shape x = [b; n; dim a] -> heads a <> 0 ->
  mask = None \/ (exists m l, mask = Some m /\ shape m = [1; l] /\ S l = n) ->
  exists y, Attention_forward fmt md a x mask = Ok y /\ shape y = [b; n; dim a].
Proof.
  intros Hx Hh [->|[m [l [-> [Hm Hl]]]]].
  - destruct (Attention_run_unmasked fmt md a x b n Hx Hh)
      as [t [Hrun [_ [_ [_ [_ Ho]]]]]].
    exists (tr_out t). split; [apply Attention_forward_run; exact Hrun | exact Ho].
  - destruct (Attention_run_masked fmt md a x b n Hx Hh m 1 l Hm Hl (or_introl eq_refl))
      as [t [pm [Hrun [_ [_ [_ [_ [_ [_ [_ Ho]]]]]]]]]].
    exists (tr_out t). split; [apply Attention_forward_run; exact Hrun | exact Ho].
Qed.

Lemma Residual_PreNorm_shape (K : Type) (norm : LayerNorm) (fn : @sublayer K)
    (x : tensor R) (kwargs : K) (b n : nat) :
  shape x = [b; n; normalized_shape norm] ->
  (forall nx, shape nx = [b; n; normalized_shape norm] ->
     exists y, fn nx kwargs = Ok y /\ shape y = [b; n; normalized_shape norm]) ->
  exists z,
    Residual_forward (PreNorm_forward norm fn) x kwargs = Ok z /\
    shape z = [b; n; normalized_shape norm].
Proof.
  intros Hx Hfn. unfold Residual_forward, PreNorm_forward.
  destruct (LayerNorm_forward_3d norm x b n Hx) as [nx [-> Hnx]]. cbn [bind].
  destruct (Hfn nx Hnx) as [y [-> Hy]]. cbn [bind].
  destruct (tadd_same_shape y x) as [z [Hz [Hs _]]]; [congruence|].
  exists z. split; [exact Hz | congruence].
Qed.

Lemma Transformer_layers_shape (fmt : float_format) (draws : nat -> layer_modes)
    (d h dh mlp : nat) (p : R) (act : R -> R) (ws : nat -> layer_weights)
    (mask : option (tensor bool)) (b n depth : nat) :
  dh <> 0 -> h <> 0 -> depth = 0 \/ (0 <= p <= 1)%R ->
  mask = None \/ (exists m l, mask = Some m /\ shape m = [1; l] /\ S l = n) ->
  forall i,
  exists layers,
    Transformer_layers d h dh mlp p act ws i depth = Ok layers /\
    List.length layers = depth /\
    forall j x, shape x = [b; n; d] ->
      exists y, Transformer_forward fmt draws layers j x mask = Ok y /\
                shape y = [b; n; d].
Proof.
  intros Hdh Hh Hp Hmask. induction depth as [|depth IH]; intros i.
  - exists []. split; [reflexivity|]. split; [reflexivity|].
    intros j x Hx. exists x. split; [reflexivity | exact Hx].
  - destruct Hp as [Hp|Hp]; [discriminate|].
    cbn [Transformer_layers].
    rewrite (Attention_init_ok d h dh p _ _ _ Hdh Hp). cbn [bind].
    rewrite (FeedForward_init_ok d mlp p act _ _ _ _ Hp). cbn [bind].
    destruct (IH (or_intror Hp) (S i)) as [ls [-> [Hlen Hfw]]]. cbn [bind].
    eexists. split; [reflexivity|]. split; [cbn [List.length]; congruence|].
    intros j x Hx. cbn [Transformer_forward].
    destruct (Residual_PreNorm_shape (option (tensor bool))
                (LayerNorm_init d (lw_attn_norm_weight (ws i)) (lw_attn_norm_bias (ws i)))
                (fun x0 mask0 =>
                   Attention_forward fmt (fst (fst (draws j)))
                     {| dim := d; heads := h; dim_head := dh; dropout := p;
                        qkv_weight := lw_qkv_weight (ws i);
                        out_weight := lw_out_weight (ws i);
                        out_bias := lw_out_bias (ws i) |} x0 mask0)
                x mask b n Hx) as [y [Hy Hys]].
    { intros nx Hnx. apply Attention_forward_shape; assumption. }
    unfold layer_attn. cbn [attn_norm attn_fn]. rewrite Hy. cbn [bind].
    destruct (Residual_PreNorm_shape unit
                (LayerNorm_init d (lw_ff_norm_weight (ws i)) (lw_ff_norm_bias (ws i)))
                (fun x0 _ =>
                   FeedForward_forward (snd (fst (draws j))) (snd (draws j))
                     {| ff_dim := d; hidden_dim := mlp; ff_dropout := p; gelu := act;
                        ff_w1 := lw_ff_w1 (ws i); ff_b1 := lw_ff_b1 (ws i);
                        ff_w2 := lw_ff_w2 (ws i); ff_b2 := lw_ff_b2 (ws i) |} x0)
                y tt b n Hys) as [z [Hz Hzs]].
    { intros nx Hnx. apply FeedForward_forward_3d. exact Hnx. }
    unfold layer_ff. cbn [ff_norm ff_fn]. rewrite Hz. cbn [bind].
    apply Hfw. exact Hzs.
Qed.

(** A transformer of any depth, built with a non-zero head width, at least
    one head and, when it has a layer, a dropout probability of [0, 1], maps
    an input of shape (b, n, dim) to an output of the same shape, without a
    mask and with a one-row mask of [n - 1] bits; the hidden width of the
    feed-forward blocks and the relation between [dim] and
    [heads * dim_head] do not matter. *)
Theorem Transformer_keeps_the_shape (fmt : float_format) (draws : nat -> layer_modes)
    (d depth h dh mlp : nat) (p : R) (act : R -> R) (ws : nat -> layer_weights)
    (x : tensor R) (mask : option (tensor bool)) (b n : nat) :
  dh <> 0 -> h <> 0 -> depth = 0 \/ (0 <= p <= 1)%R -> shape x = [b; n; d] ->
  mask = None \/ (exists m l, mask = Some m /\ shape m = [1; l] /\ S l = n) ->
  exists layers y,
    Transformer_init d depth h dh mlp p act ws = Ok layers /\
    List.length layers = depth /\
    Transformer_forward fmt draws layers 0 x mask = Ok y /\
    shape y = [b; n; d].
Proof.
  intros Hdh Hh Hp Hx Hmask.
  destruct (Transformer_layers_shape fmt draws d h dh mlp p act ws mask b n depth
              Hdh Hh Hp Hmask 0) as [layers [Hl [Hlen Hfw]]].
  destruct (Hfw 0 x Hx) as [y [Hy Hys]].
  exists layers, y. repeat split; assumption.
Qed.

Lemma Transformer_keeps_the_shape_witness :
  exists layers y,
    Transformer_init 4 3 2 5 7 0%R (fun v => v) (fun _ => zero_weights) = Ok layers /\
    List.length layers = 3 /\
    Transformer_forward float32 (fun _ => (Eval, Eval, Eval)) layers 0
      (zeros [2; 6; 4]) (Some (full [1; 5] true)) = Ok y /\
    shape y = [2; 6; 4].
Proof.
  apply (Transformer_keeps_the_shape float32 (fun _ => (Eval, Eval, Eval))
           4 3 2 5 7 0%R (fun v => v) (fun _ => zero_weights)
           (zeros [2; 6; 4]) (Some (full [1; 5] true)) 2 6).
  - discriminate.
  - discriminate.
  - right. lra.
  - reflexivity.
  - right. exists (full [1; 5] true), 5. repeat split.
Defined.

(** The mask is checked by the attention of the first layer: a transformer
    with at least one layer, built with a dropout probability of [0, 1],
    rejects a mask whose padded width is not the sequence length, with the
    assertion of the attention; the transformer without layers returns its
    input and does not look at the mask. *)
Theorem Transformer_checks_the_mask_in_its_first_layer
    (fmt : float_format) (draws : nat -> layer_modes)
    (d depth h dh mlp : nat) (p : R) (act : R -> R) (ws : nat -> layer_weights)
    (x : tensor R) (m : tensor bool) (b n bm l : nat) :
  dh <> 0 -> h <> 0 -> shape x = [b; n; d] -> shape m = [bm; l] -> S l <> n ->
  ((0 <= p <= 1)%R ->
   exists layers,
     Transformer_init d (S depth) h dh mlp p act ws = Ok layers /\
     Transformer_forward fmt draws layers 0 x (Some m)
     = Raise (AssertionError "mask has incorrect dimensions")) /\
  Transformer_init d 0 h dh mlp p act ws = Ok [] /\
  Transformer_forward fmt draws [] 0 x (Some m) = Ok x.
Proof.
  intros Hdh Hh Hx Hm Hl. split; [|split; reflexivity].
  intros Hp.
  destruct (Transformer_layers_shape fmt draws d h dh mlp p act ws None b n depth
              Hdh Hh (or_intror Hp) (or_introl eq_refl) 1) as [ls [Hls _]].
  unfold Transformer_init. cbn [Transformer_layers].
  rewrite (Attention_init_ok d h dh p _ _ _ Hdh Hp). cbn [bind].
  rewrite (FeedForward_init_ok d mlp p act _ _ _ _ Hp). cbn [bind].
  rewrite Hls. cbn [bind].
  eexists. split; [reflexivity|].
  cbn [Transformer_forward]. unfold layer_attn, Residual_forward, PreNorm_forward.
  cbn [attn_norm attn_fn].
  destruct (LayerNorm_forward_3d
              (LayerNorm_init d (lw_attn_norm_weight (ws 0)) (lw_attn_norm_bias (ws 0)))
              x b n Hx) as [nx [-> Hnx]].
  cbn [bind]. cbn [LayerNorm_init normalized_shape] in Hnx.
  set (a := {| dim := d; heads := h; dim_head := dh; dropout := p;
               qkv_weight := lw_qkv_weight (ws 0);
               out_weight := lw_out_weight (ws 0);
               out_bias := lw_out_bias (ws 0) |}).
  rewrite (Attention_forward_raise fmt (fst (fst (draws 0))) a nx (Some m) _
             (Attention_run_mask_rejected fmt (fst (fst (draws 0))) a nx b n
                Hnx Hh m bm l Hm Hl)).
  reflexivity.
Qed.

Lemma Transformer_checks_the_mask_in_its_first_layer_witness :
  (exists layers,
     Transformer_init 4 2 2 5 7 0%R (fun v => v) (fun _ => zero_weights) = Ok layers /\
     Transformer_forward float32 (fun _ => (Eval, Eval, Eval)) layers 0
       (zeros [2; 6; 4]) (Some (full [2; 6] true))
     = Raise (AssertionError "mask has incorrect dimensions")) /\
  Transformer_init 4 0 2 5 7 0%R (fun v => v) (fun _ => zero_weights) = Ok [] /\
  Transformer_forward float32 (fun _ => (Eval, Eval, Eval)) [] 0
    (zeros [2; 6; 4]) (Some (full [2; 6] true)) = Ok (zeros [2; 6; 4]).
Proof.
  destruct (Transformer_checks_the_mask_in_its_first_layer float32
              (fun _ => (Eval, Eval, Eval)) 4 1 2 5 7 0%R (fun v => v)
              (fun _ => zero_weights) (zeros [2; 6; 4]) (full [2; 6] true) 2 6 2 6)
    as [H1 H2]; try reflexivity; try discriminate.
  split; [|exact H2]. apply H1. lra.
Defined.

End TransformerDepth.

(** ** More on one attention call *)

Section AttentionValues.

Lemma max_n_ext (n : nat) (f g : nat -> R) :
  0 < n -> (forall j, j < n -> f j = g j) -> max_n n f = max_n n g.
Proof.
  destruct n as [|n]; [lia|]. intros _.
  induction n as [|n IH]; intros H.
  - simpl. apply H. lia.
  - rewrite !max_n_S. rewrite IH by (intros j Hj; apply H; lia).
    rewrite (H (S n)) by lia. reflexivity.
Qed.

(** The softmax of a row reads the entries of the row only. *)
Lemma softmax_row_ext (fmt : float_format) (m : nat) (f g : nat -> R) (j : nat) :
  j < m -> (forall i, i < m -> f i = g i) ->
  softmax_row fmt m f j = softmax_row fmt m g j.
Proof.
  intros Hj H. unfold softmax_row.
  rewrite (max_n_ext m f g) by (try lia; exact H).
  rewrite (H j Hj). f_equal.
  apply sum_n_ext. intros i Hi. rewrite (H i Hi). reflexivity.
Qed.

Lemma Dropout_get (p : R) (md : mode) (t : tensor R) (ix : list nat) :
  get (Dropout p md t) ix
  = match md with
    | Eval => get t ix
    | Train keep => if keep ix then (get t ix / (1 - p))%R else 0%R
    end.
Proof. destruct md; reflexivity. Qed.

Lemma apply_mask_shape (fmt : float_format) (mask : tensor bool) (dots : tensor R)
    (pm : tensor bool) (d : tensor R) :
  apply_mask fmt mask dots = Ok (pm, d) -> shape d = shape dots.
Proof.
  unfold apply_mask. destruct (flatten1 mask) as [m|e]; [|discriminate].
  cbn [bind].
  destruct (last (shape (pad_left_true m)) 0 =? last (shape dots) 0); [|discriminate].
  unfold masked_fill_.
  destruct (broadcast_shapes (shape dots) (shape (tnot (pairwise (pad_left_true m)))))
    as [s|e]; [|discriminate].
  cbn [bind]. destruct (shape_eqb s (shape dots)); [|discriminate].
  cbn [bind]. intros [= _ <-]. reflexivity.
Qed.

Lemma masking_shape (fmt : float_format) (mask : option (tensor bool))
    (dots : tensor R) (pm : option (tensor bool)) (d : tensor R) :
  masking fmt mask dots = Ok (pm, d) -> shape d = shape dots.
Proof.
  destruct mask as [m|]; cbn [masking].
  - destruct (apply_mask fmt m dots) as [[pm' d']|e] eqn:E; [|discriminate].
    cbn [bind fst snd]. intros [= _ <-]. exact (apply_mask_shape fmt m dots pm' d' E).
  - intros [= _ <-]. reflexivity.
Qed.

Variables (fmt : float_format) (md : mode) (a : Attention).
Variables (x : tensor R) (b n : nat).
Hypothesis x_shape : shape x = [b; n; dim a].
Hypothesis some_heads : heads a <> 0.

(** Every call that returns: the weights are the softmax of the scores,
    the per-head output is the weighted sum of the values, and the output
    is the projection of the merged heads. *)
Lemma Attention_run_tail (mask : option (tensor bool)) (t : Attention_trace) :
  Attention_run fmt md a x mask = Ok t ->
  tr_attn t = softmax fmt (tr_dots t) /\
  shape (tr_dots t) = [b; heads a; n; n] /\
  (forall bi hi i e,
     get (tr_out_heads t) [bi; hi; i; e]
     = sum_n n (fun j => (get (tr_attn t) [bi; hi; i; j] * get (tr_v t) [bi; hi; j; e])%R)) /\
  (exists y,
     tr_out t = Dropout (dropout a) md y /\
     forall bi i o,
       get y [bi; i; o]
       = (sum_n (inner_dim a)
            (fun c => get (tr_out_heads t)
                        [bi; (c / dim_head a)%nat; i; (c mod dim_head a)%nat]
                      * out_weight a o c)
          + out_bias a o)%R) /\
  shape (tr_out t) = [b; n; dim a].
Proof.
  intros Hrun.
  destruct (Attention_run_spec fmt md a x mask b n x_shape some_heads)
    as [q [k [v [dr [_ [_ [Hv [Hdr H]]]]]]]].
  destruct (masking fmt mask dr) as [[pm d]|e] eqn:E; [|congruence].
  assert (Hd : shape d = [b; heads a; n; n])
    by (rewrite (masking_shape fmt mask dr pm d E); exact Hdr).
  destruct (H Hd) as [t' [Hrun' [_ [_ [Hv' [_ [_ [Hdt [Ha [Hoh [Hget Ho]]]]]]]]]]].
  assert (t' = t) by congruence. subst t'.
  split; [rewrite Ha, Hdt; reflexivity|]. split; [rewrite Hdt; exact Hd|].
  split; [rewrite Hv'; exact Hget|]. split; [|exact Ho].
  clear H Hrun'. revert Hrun. unfold Attention_run. rewrite x_shape.
  destruct (Linear_forward (to_qkv a) x) as [qkv|]; [|discriminate]. cbn [bind].
  destruct (split_heads (heads a) (chunk3 0 qkv)) as [q0|]; [|discriminate].
  destruct (split_heads (heads a) (chunk3 1 qkv)) as [k0|]; [|discriminate].
  destruct (split_heads (heads a) (chunk3 2 qkv)) as [v0|]; [|discriminate].
  cbn [bind].
  destruct (einsum_qk (scale a) q0 k0) as [dr0|]; [|discriminate]. cbn [bind].
  destruct (masking fmt mask dr0) as [[pm0 d0]|]; [|discriminate]. cbn [bind fst snd].
  destruct (einsum_av (softmax fmt d0) v0) as [oh|] eqn:Eoh; [|discriminate].
  cbn [bind].
  destruct (merge_heads oh) as [om|] eqn:Eom; [|discriminate]. cbn [bind].
  destruct (Linear_forward (to_out a) om) as [o|] eqn:Eo; [|discriminate].
  cbn [bind]. intros [= <-]. cbn [tr_out tr_out_heads] in *.
  exists o. split; [reflexivity|].
  intros bi i c. rewrite (Linear_forward_get (to_out a) om o Eo).
  cbn [to_out in_features weight bias]. f_equal.
  apply sum_n_ext. intros u _. f_equal.
  revert Eom. unfold merge_heads. rewrite Hoh. intros [= <-]. reflexivity.
Qed.

(** Every call that returns: the weights of a query are the softmax of its
    row of scores; they lie between 0 and 1 and sum to one. *)
Lemma Attention_run_weights (mask : option (tensor bool)) (t : Attention_trace) :
  (0 < uflow fmt)%R ->
  Attention_run fmt md a x mask = Ok t ->
  forall bi hi i, i < n ->
    sum_n n (fun j => get (tr_attn t) [bi; hi; i; j]) = 1%R /\
    forall j, j < n ->
      (0 <= get (tr_attn t) [bi; hi; i; j] <= 1)%R.
Proof.
  intros Hu Hrun bi hi i Hi.
  destruct (Attention_run_tail mask t Hrun) as [Ha [Hs _]].
  set (row := fun j => get (tr_dots t) [bi; hi; i; j]).
  assert (Hrow : forall j, get (tr_attn t) [bi; hi; i; j] = softmax_row fmt n row j).
  { intros j. rewrite Ha, softmax_get4, Hs. reflexivity. }
  assert (Hsum : sum_n n (fun j => get (tr_attn t) [bi; hi; i; j]) = 1%R).
  { rewrite (sum_n_ext n _ (softmax_row fmt n row)) by (intros j _; apply Hrow).
    apply softmax_row_sum; [exact Hu | lia]. }
  split; [exact Hsum|]. intros j Hj.
  assert (Hnn : forall k, k < n -> (0 <= get (tr_attn t) [bi; hi; i; k])%R).
  { intros k _. rewrite Hrow. apply softmax_row_nonneg; [exact Hu | lia]. }
  split; [apply Hnn; exact Hj|].
  rewrite <- Hsum.
  apply (sum_n_ge_term n (fun k => get (tr_attn t) [bi; hi; i; k]) j Hnn Hj).
Qed.

End AttentionValues.

(** ** Calls without overflow *)

Section Overflow.

Lemma float32_max_nonneg : (0 <= finfo_max float32)%R.
Proof. cbn. lra. Qed.

(** On the zero input no projection and no score leaves the format. *)
Lemma zero_input_in_format (fmt : float_format) (md : mode) (a : Attention)
    (mask : option (tensor bool)) (b n : nat) (t : Attention_trace) :
  (0 <= finfo_max fmt)%R -> heads a <> 0 ->
  (forall o u, in_format fmt (qkv_weight a o u)) ->
  Attention_run fmt md a (zeros [b; n; dim a]) mask = Ok t ->
  scores_in_format fmt a (zeros [b; n; dim a]) t.
Proof.
  intros Hf Hh Hw Hrun. unfold scores_in_format. cbn [shape zeros].
  destruct (Attention_run_values fmt md a (zeros [b; n; dim a]) mask b n t
              eq_refl Hh Hrun) as [Hqkv _].
  split; [|split; [|split]].
  - intros bi i u _ _ _. unfold in_format. cbn [get zeros].
    rewrite Rabs_R0. exact Hf.
  - intros o u _ _. apply Hw.
  - intros bi i o _ _ _. rewrite sum_n_zero; [exact Hf|].
    intros u _. cbn [get zeros]. rewrite Rmult_0_l. apply Rabs_R0.
  - intros bi hi i j _ _ _ _. rewrite sum_n_zero; [exact Hf|].
    intros c _. rewrite (Hqkv 0 (tr_q t) (or_introl (conj eq_refl eq_refl))).
    rewrite (sum_n_zero (dim a)).
    + rewrite Rplus_0_l, Rmult_0_l. apply Rabs_R0.
    + intros u _. cbn [get zeros]. apply Rmult_0_l.
Qed.

Lemma zero_in_format (fmt : float_format) :
  (0 <= finfo_max fmt)%R -> in_format fmt 0.
Proof. intros Hf. unfold in_format. rewrite Rabs_R0. exact Hf. Qed.

End Overflow.

(** ** The weights of a query, with and without a mask *)

Section AttentionWeightsTheorem.

Lemma attention_ones_heads : heads attention_ones <> 0.
Proof. discriminate. Qed.

(** C4, amended: on an input of shape (b, n, dim), a call without a mask
    and a call with a one-row mask of n - 1 bits return.  For every
    Attention forward call that returns (it passes the shape checks) and
    computes its scores without overflow, and for every query position, the
    attention weights produced by the softmax sum to 1 over all key
    positions, which without a mask are all unmasked.  With a mask for a
    batch of one: for every query whose own bit of the padded mask is true
    and whose unmasked scores lie at least the underflow margin of [exp]
    above [- finfo.max], the weights sum to 1 over the unmasked key
    positions of that query and every masked key position gets the weight
    0; a query whose own mask bit is false has every key masked and gives
    the weight 1/n to every key position, masked ones included. *)
Theorem C4_weights_sum_to_one
    (fmt : float_format) (md : mode) (a : Attention) (x : tensor R) (b n : nat) :
  (0 < uflow fmt)%R -> shape x = [b; n; dim a] -> heads a <> 0 ->
  succeeds (Attention_run fmt md a x None) /\
  (forall m l, shape m = [1; l] -> S l = n ->
     succeeds (Attention_run fmt md a x (Some m))) /\
  forall mask t,
    Attention_run fmt md a x mask = Ok t ->
    scores_in_format fmt a x t ->
    (forall bi hi i, bi < b -> hi < heads a -> i < n ->
       sum_n n (fun j => get (tr_attn t) [bi; hi; i; j]) = 1%R) /\
    (forall m l, mask = Some m -> b = 1 -> shape m = [1; l] ->
       forall hi i, hi < heads a -> i < n ->
         (padded_bit m 0 i = true ->
          (forall j, j < n -> padded_bit m 0 j = true ->
             (mask_value fmt + uflow fmt <= get (tr_dots_raw t) [0%nat; hi; i; j])%R) ->
          sum_where n (padded_bit m 0)
            (fun j => get (tr_attn t) [0; hi; i; j]) = 1%R /\
          (forall j, j < n -> padded_bit m 0 j = false ->
             get (tr_attn t) [0; hi; i; j] = 0%R)) /\
         (padded_bit m 0 i = false ->
          forall j, j < n -> get (tr_attn t) [0; hi; i; j] = (1 / INR n)%R)).
Proof.
  intros Hu Hx Hh. split; [|split].
  { destruct (Attention_run_unmasked fmt md a x b n Hx Hh) as [t [Hrun _]].
    exists t. exact Hrun. }
  { intros m l Hm Hl.
    destruct (Attention_run_masked fmt md a x b n Hx Hh m 1 l Hm Hl (or_introl eq_refl))
      as [t [pm [Hrun _]]].
    exists t. exact Hrun. }
  intros mask t Hrun _. split.
  - intros bi hi i _ _ Hi.
    apply (Attention_run_weights fmt md a x b n Hx Hh mask t Hu Hrun bi hi i Hi).
  - intros m l -> _ Hm hi i _ Hi.
    assert (Hl : S l = n).
    { destruct (Nat.eq_dec (S l) n) as [E|E]; [exact E|].
      rewrite (Attention_run_mask_rejected fmt md a x b n Hx Hh m 1 l Hm E) in Hrun.
      discriminate. }
    destruct (Attention_masked_weights fmt md a x b n Hu Hx Hh m 1 l Hm Hl
                (or_introl eq_refl))
      as [t' [pm [Hrun' [_ [_ H]]]]].
    assert (t' = t) by congruence. subst t'.
    destruct (H 0 hi i Hi) as [_ [Hf Ht]].
    split; [exact Ht|].
    intros Hbit j Hj. destruct (Hf Hbit) as [_ [_ [Hw _]]]. apply Hw. exact Hj.
Qed.

Lemma C4_weights_sum_to_one_witness :
  exists t,
    Attention_run float32 Eval attention_ones (ones [1; 3; 1])
      (Some mask_true_then_false) = Ok t /\
    scores_in_format float32 attention_ones (ones [1; 3; 1]) t /\
    padded_bit mask_true_then_false 0 0 = true /\
    padded_bit mask_true_then_false 0 2 = false /\
    sum_n 3 (fun j => get (tr_attn t) [0; 0; 0; j]) = 1%R /\
    sum_where 3 (padded_bit mask_true_then_false 0)
      (fun j => get (tr_attn t) [0; 0; 0; j]) = 1%R /\
    get (tr_attn t) [0; 0; 0; 2] = 0%R /\
    get (tr_attn t) [0; 0; 2; 0] = (1 / INR 3)%R.
Proof.
  destruct (C4_weights_sum_to_one float32 Eval attention_ones (ones [1; 3; 1]) 1 3
              float32_uflow_pos eq_refl attention_ones_heads) as [_ [Hret Hw]].
  destruct (Hret mask_true_then_false 2 eq_refl eq_refl) as [t Hrun].
  destruct (Attention_run_values float32 Eval attention_ones (ones [1; 3; 1])
              (Some mask_true_then_false) 1 3 t eq_refl attention_ones_heads Hrun)
    as [Hqkv Hraw].
  assert (Hq : forall bi hi i e, get (tr_q t) [bi; hi; i; e] = 1%R).
  { intros bi hi i e.
    rewrite (Hqkv 0 (tr_q t) (or_introl (conj eq_refl eq_refl))).
    cbn [dim attention_ones sum_n get ones qkv_weight]. ring. }
  assert (Hk : forall bi hi i e, get (tr_k t) [bi; hi; i; e] = 1%R).
  { intros bi hi i e.
    rewrite (Hqkv 1 (tr_k t) (or_intror (or_introl (conj eq_refl eq_refl)))).
    cbn [dim attention_ones sum_n get ones qkv_weight]. ring. }
  assert (Hone : (Rabs (1 * 1) <= finfo_max float32)%R).
  { rewrite Rmult_1_r, Rabs_R1. cbn. lra. }
  assert (Hfmt : scores_in_format float32 attention_ones (ones [1; 3; 1]) t).
  { unfold scores_in_format. cbn [shape ones]. split; [|split; [|split]].
    - intros bi i u _ _ _. unfold in_format. cbn [get ones].
      rewrite Rabs_R1. cbn. lra.
    - intros o u _ _. unfold in_format. cbn [qkv_weight attention_ones].
      rewrite Rabs_R1. cbn. lra.
    - intros bi i o _ _ _.
      cbn [dim attention_ones sum_n get ones qkv_weight].
      rewrite Rplus_0_l. exact Hone.
    - intros bi hi i j _ _ _ _.
      cbn [dim_head attention_ones sum_n]. rewrite Hq, Hk.
      rewrite Rplus_0_l. exact Hone. }
  destruct (Hw (Some mask_true_then_false) t Hrun Hfmt) as [Hall Hm].
  specialize (Hm mask_true_then_false 2 eq_refl eq_refl eq_refl).
  destruct (Hm 0 0 (Nat.lt_0_succ 0) (Nat.lt_0_succ 2)) as [Htrue _].
  destruct (Hm 0 2 (Nat.lt_0_succ 0) (Nat.lt_succ_diag_r 2)) as [_ Hfalse].
  destruct (Htrue eq_refl) as [Hsum Hzero].
  { intros j _ _. rewrite Hraw.
    cbn [dim_head attention_ones sum_n]. rewrite Hq, Hk.
    unfold scale, mask_value. cbn [dim_head attention_ones INR].
    rewrite sqrt_1, Rinv_1. cbn. lra. }
  exists t. split; [exact Hrun|]. split; [exact Hfmt|].
  split; [reflexivity|]. split; [reflexivity|].
  split; [apply (Hall 0 0 0); cbn; lia|]. split; [exact Hsum|].
  split; [apply Hzero; [lia | reflexivity]|].
  apply (Hfalse eq_refl). lia.
Defined.

End AttentionWeightsTheorem.

(** ** Properties of the attention weights and outputs *)

Section AttentionProperties.

(** In every call that returns and computes its scores without overflow,
    with or without a mask, the weights of a query form a probability
    distribution over the key positions: each lies between 0 and 1 and they
    sum to 1. *)
Theorem attention_weights_are_probabilities
    (fmt : float_format) (md : mode) (a : Attention) (x : tensor R)
    (mask : option (tensor bool)) (b n : nat) (t : Attention_trace) :
  (0 < uflow fmt)%R -> shape x = [b; n; dim a] -> heads a <> 0 ->
  Attention_run fmt md a x mask = Ok t ->
  scores_in_format fmt a x t ->
  forall bi hi i, bi < b -> hi < heads a -> i < n ->
    sum_n n (fun j => get (tr_attn t) [bi; hi; i; j]) = 1%R /\
    forall j, j < n ->
      (0 <= get (tr_attn t) [bi; hi; i; j] <= 1)%R.
Proof.
  intros Hu Hx Hh Hrun _ bi hi i _ _ Hi.
  exact (Attention_run_weights fmt md a x b n Hx Hh mask t Hu Hrun bi hi i Hi).
Qed.

Lemma attention_weights_are_probabilities_witness :
  exists t,
    Attention_run float32 Eval attention_2 (zeros [2; 2; 1]) (Some mask_true_false)
    = Ok t /\
    scores_in_format float32 attention_2 (zeros [2; 2; 1]) t /\
    sum_n 2 (fun j => get (tr_attn t) [1; 0; 1; j]) = 1%R /\
    (0 <= get (tr_attn t) [1; 0; 1; 0]%nat <= 1)%R.
Proof.
  destruct (Attention_run_masked float32 Eval attention_2 (zeros [2; 2; 1]) 2 2
              eq_refl attention_2_heads mask_true_false 2 1
              eq_refl eq_refl (or_intror eq_refl)) as [t [pm [Hrun _]]].
  exists t. split; [exact Hrun|].
  assert (Hfmt : scores_in_format float32 attention_2 (zeros [2; 2; 1]) t).
  { apply (zero_input_in_format float32 Eval attention_2 (Some mask_true_false) 2 2 t
             float32_max_nonneg attention_2_heads); [|exact Hrun].
    intros o u. apply (zero_in_format float32 float32_max_nonneg). }
  split; [exact Hfmt|].
  destruct (attention_weights_are_probabilities float32 Eval attention_2
              (zeros [2; 2; 1]) (Some mask_true_false) 2 2 t
              float32_uflow_pos eq_refl attention_2_heads Hrun Hfmt 1 0 1
              (Nat.lt_succ_diag_r 1) (Nat.lt_0_succ 1) (Nat.lt_succ_diag_r 1))
    as [Hs Hb].
  split; [exact Hs|]. apply Hb. lia.
Defined.

(** A sequence of one token: in every call that returns and computes its
    scores without overflow, the token attends to itself with the weight 1
    and its per-head output is its own value vector. *)
Theorem single_token_attends_to_itself
    (fmt : float_format) (md : mode) (a : Attention) (x : tensor R)
    (mask : option (tensor bool)) (b : nat) (t : Attention_trace) :
  (0 < uflow fmt)%R -> shape x = [b; 1; dim a] -> heads a <> 0 ->
  Attention_run fmt md a x mask = Ok t ->
  scores_in_format fmt a x t ->
  forall bi hi, bi < b -> hi < heads a ->
    get (tr_attn t) [bi; hi; 0; 0] = 1%R /\
    forall e, e < dim_head a ->
      get (tr_out_heads t) [bi; hi; 0; e] = get (tr_v t) [bi; hi; 0; e].
Proof.
  intros Hu Hx Hh Hrun _ bi hi _ _.
  destruct (Attention_run_tail fmt md a x b 1 Hx Hh mask t Hrun)
    as [Ha [Hs [Hout _]]].
  assert (H1 : get (tr_attn t) [bi; hi; 0; 0] = 1%R).
  { rewrite Ha, softmax_get4, Hs. cbn [last].
    rewrite <- (softmax_row_sum fmt Hu 1 (fun j' => get (tr_dots t) [bi; hi; 0; j']))
      by lia.
    cbn [sum_n]. ring. }
  split; [exact H1|]. intros e _. rewrite Hout. cbn [sum_n]. rewrite H1. ring.
Qed.

Lemma single_token_attends_to_itself_witness :
  exists t,
    Attention_run float32 Eval attention_1 (zeros [3; 1; 1]) None = Ok t /\
    scores_in_format float32 attention_1 (zeros [3; 1; 1]) t /\
    get (tr_attn t) [2; 0; 0; 0] = 1%R /\
    get (tr_out_heads t) [2; 0; 0; 0] = get (tr_v t) [2; 0; 0; 0].
Proof.
  destruct (Attention_run_unmasked float32 Eval attention_1 (zeros [3; 1; 1]) 3 1
              eq_refl attention_1_heads) as [t [Hrun _]].
  exists t. split; [exact Hrun|].
  assert (Hfmt : scores_in_format float32 attention_1 (zeros [3; 1; 1]) t).
  { apply (zero_input_in_format float32 Eval attention_1 None 3 1 t
             float32_max_nonneg attention_1_heads); [|exact Hrun].
    intros o u. apply (zero_in_format float32 float32_max_nonneg). }
  split; [exact Hfmt|].
  destruct (single_token_attends_to_itself float32 Eval attention_1
              (zeros [3; 1; 1]) None 3 t float32_uflow_pos eq_refl
              attention_1_heads Hrun Hfmt 2 0 (Nat.lt_succ_diag_r 2) (Nat.lt_0_succ 0))
    as [H1 H2].
  split; [exact H1 | apply H2; apply Nat.lt_0_succ].
Defined.

(** The empty sequence: without a mask the call returns an output of shape
    (b, 0, dim); with a mask, whatever its width, the assertion fails,
    since the padded mask has at least one position. *)
Theorem empty_sequence_takes_no_mask
    (fmt : float_format) (md : mode) (a : Attention) (x : tensor R) (b : nat) :
  shape x = [b; 0; dim a] -> heads a <> 0 ->
  (exists y, Attention_forward fmt md a x None = Ok y /\ shape y = [b; 0; dim a]) /\
  (forall m bm l, shape m = [bm; l] ->
     Attention_forward fmt md a x (Some m)
     = Raise (AssertionError "mask has incorrect dimensions")).
Proof.
  intros Hx Hh. split.
  - apply Attention_forward_shape; [exact Hx | exact Hh | left; reflexivity].
  - intros m bm l Hm. apply Attention_forward_raise.
    apply (Attention_run_mask_rejected fmt md a x b 0 Hx Hh m bm l Hm).
    discriminate.
Qed.

Lemma empty_sequence_takes_no_mask_witness :
  (exists y, Attention_forward float32 Eval attention_2 (zeros [4; 0; 1]) None = Ok y /\
             shape y = [4; 0; 1]) /\
  Attention_forward float32 Eval attention_2 (zeros [4; 0; 1]) (Some (full [4; 0] true))
  = Raise (AssertionError "mask has incorrect dimensions").
Proof.
  destruct (empty_sequence_takes_no_mask float32 Eval attention_2 (zeros [4; 0; 1]) 4
              eq_refl attention_2_heads) as [H1 H2].
  split; [exact H1|]. apply (H2 (full [4; 0] true) 4 0). reflexivity.
Defined.

(** An input whose feature width is not [dim] is rejected by the projection
    [to_qkv], before the mask is looked at. *)
Theorem attention_rejects_other_widths
    (fmt : float_format) (md : mode) (a : Attention) (x : tensor R)
    (mask : option (tensor bool)) (b n d : nat) :
  shape x = [b; n; d] -> d <> dim a ->
  Attention_forward fmt md a x mask = Raise RuntimeError.
Proof.
  intros Hx Hd. unfold Attention_forward, Attention_run. rewrite Hx.
  rewrite (Linear_forward_width (to_qkv a) x b n d Hx Hd). reflexivity.
Qed.

Lemma attention_rejects_other_widths_witness :
  Attention_forward float32 Eval attention_2 (zeros [2; 3; 5]) (Some (full [7] true))
  = Raise RuntimeError.
Proof.
  apply (attention_rejects_other_widths float32 Eval attention_2 (zeros [2; 3; 5])
           (Some (full [7] true)) 2 3 5).
  - reflexivity.
  - cbn. discriminate.
Defined.

(** Splitting the last axis into heads and merging the heads again gives
    the tensor back, entry by entry: the two rearrangements of
    [Attention.forward] are inverse to each other. *)
Theorem merge_heads_inverts_split_heads (h : nat) (t : tensor R) (b n d : nat) :
  shape t = [b; n; d * h] -> h <> 0 ->
  exists q m,
    split_heads h t = Ok q /\
    shape q = [b; h; n; d] /\
    merge_heads q = Ok m /\
    shape m = shape t /\
    forall bi i c, get m [bi; i; c] = get t [bi; i; c].
Proof.
  intros Ht Hh.
  destruct (split_heads_ok h t b n d Ht Hh) as [q [Hq Hqs]].
  destruct (merge_heads_ok q b h n d Hqs) as [m [Hm Hms]].
  exists q, m. split; [exact Hq|]. split; [exact Hqs|].
  split; [exact Hm|]. split.
  - rewrite Hms, Ht, (Nat.mul_comm h d). reflexivity.
  - intros bi i c. revert Hm. unfold merge_heads. rewrite Hqs.
    intros [= <-]. cbn [get].
    rewrite (split_heads_get h t q b n d Ht Hh Hq).
    rewrite (Nat.mul_comm (c / d) d), <- (Nat.div_mod_eq c d). reflexivity.
Qed.

Lemma merge_heads_inverts_split_heads_witness :
  exists q m,
    split_heads 4 (zeros [2; 3; 5 * 4]) = Ok q /\
    shape q = [2; 4; 3; 5] /\
    merge_heads q = Ok m /\
    shape m = shape (zeros [2; 3; 5 * 4]) /\
    forall bi i c, get m [bi; i; c] = get (zeros [2; 3; 5 * 4]) [bi; i; c].
Proof.
  apply (merge_heads_inverts_split_heads 4 (zeros [2; 3; 5 * 4]) 2 3 5).
  - reflexivity.
  - discriminate.
Defined.

End AttentionProperties.

(** ** A mask that masks nothing *)

Section AllTrueMask.

Variables (fmt : float_format) (md : mode) (a : Attention).
Variables (x : tensor R) (b n : nat).
Hypothesis x_shape : shape x = [b; n; dim a].
Hypothesis some_heads : heads a <> 0.

(** Two calls on one input compute the same values and the same scaled dot
    products, whatever their masks. *)
Lemma Attention_run_same_scores (mask0 mask1 : option (tensor bool))
    (t0 t1 : Attention_trace) :
  Attention_run fmt md a x mask0 = Ok t0 ->
  Attention_run fmt md a x mask1 = Ok t1 ->
  (forall bi hi i e, get (tr_v t1) [bi; hi; i; e] = get (tr_v t0) [bi; hi; i; e]) /\
  (forall bi hi i j,
     get (tr_dots_raw t1) [bi; hi; i; j] = get (tr_dots_raw t0) [bi; hi; i; j]).
Proof.
  intros H0 H1.
  destruct (Attention_run_values fmt md a x mask0 b n t0 x_shape some_heads H0)
    as [Hq0 Hr0].
  destruct (Attention_run_values fmt md a x mask1 b n t1 x_shape some_heads H1)
    as [Hq1 Hr1].
  split.
  - intros bi hi i e.
    rewrite (Hq1 2 (tr_v t1)) by (right; right; split; reflexivity).
    rewrite (Hq0 2 (tr_v t0)) by (right; right; split; reflexivity).
    reflexivity.
  - intros bi hi i j. rewrite Hr1, Hr0. f_equal.
    apply sum_n_ext. intros e _.
    rewrite (Hq1 0 (tr_q t1)) by (left; split; reflexivity).
    rewrite (Hq0 0 (tr_q t0)) by (left; split; reflexivity).
    rewrite (Hq1 1 (tr_k t1)) by (right; left; split; reflexivity).
    rewrite (Hq0 1 (tr_k t0)) by (right; left; split; reflexivity).
    reflexivity.
Qed.

(** Two calls whose weights agree at the positions of the sequence return
    the same output at those positions, the dropout draw being the same. *)
Lemma Attention_run_same_output (mask0 mask1 : option (tensor bool))
    (t0 t1 : Attention_trace) :
  Attention_run fmt md a x mask0 = Ok t0 ->
  Attention_run fmt md a x mask1 = Ok t1 ->
  (forall bi hi i j, i < n -> j < n ->
     get (tr_attn t1) [bi; hi; i; j] = get (tr_attn t0) [bi; hi; i; j]) ->
  forall bi i o, i < n -> get (tr_out t1) [bi; i; o] = get (tr_out t0) [bi; i; o].
Proof.
  intros H0 H1 Hattn bi i o Hi.
  destruct (Attention_run_same_scores mask0 mask1 t0 t1 H0 H1) as [Hv _].
  destruct (Attention_run_tail fmt md a x b n x_shape some_heads mask0 t0 H0)
    as [_ [_ [Hoh0 [[y0 [Ey0 Hy0]] _]]]].
  destruct (Attention_run_tail fmt md a x b n x_shape some_heads mask1 t1 H1)
    as [_ [_ [Hoh1 [[y1 [Ey1 Hy1]] _]]]].
  assert (Hoh : forall hi e,
             get (tr_out_heads t1) [bi; hi; i; e] = get (tr_out_heads t0) [bi; hi; i; e]).
  { intros hi e. rewrite Hoh1, Hoh0. apply sum_n_ext. intros j Hj.
    rewrite (Hattn bi hi i j Hi Hj), Hv. reflexivity. }
  assert (Hy : get y1 [bi; i; o] = get y0 [bi; i; o]).
  { rewrite Hy1, Hy0. f_equal. apply sum_n_ext. intros c _. rewrite Hoh. reflexivity. }
  rewrite Ey1, Ey0, !Dropout_get. destruct md as [|keep]; [exact Hy|].
  rewrite Hy. reflexivity.
Qed.

(** A one-row mask whose bits are all true changes nothing: the scores
    that enter the softmax, the weights and the output are those of the
    call without a mask, at every position of the sequence. *)
Theorem all_true_mask_is_no_mask (m : tensor bool) (l : nat) :
  shape m = [1; l] -> S l = n -> (forall j, j < l -> get m [0; j] = true) ->
  exists t0 t1,
    Attention_run fmt md a x None = Ok t0 /\
    Attention_run fmt md a x (Some m) = Ok t1 /\
    (forall bi hi i j, i < n -> j < n ->
       get (tr_dots t1) [bi; hi; i; j] = get (tr_dots t0) [bi; hi; i; j]) /\
    (forall bi hi i j, i < n -> j < n ->
       get (tr_attn t1) [bi; hi; i; j] = get (tr_attn t0) [bi; hi; i; j]) /\
    (forall bi i o, i < n ->
       get (tr_out t1) [bi; i; o] = get (tr_out t0) [bi; i; o]).
Proof.
  intros Hm Hl Htrue.
  destruct (Attention_run_unmasked fmt md a x b n x_shape some_heads)
    as [t0 [H0 [_ [Hd0 [Hs0 [Ha0 _]]]]]].
  destruct (Attention_run_masked fmt md a x b n x_shape some_heads m 1 l Hm Hl
              (or_introl eq_refl))
    as [t1 [pm [H1 [_ [Hpair [Hs1 [Hfill [Ha1 _]]]]]]]].
  destruct (Attention_run_same_scores None (Some m) t0 t1 H0 H1) as [_ Hraw].
  assert (Hbit : forall i, i < n -> padded_bit m 0 i = true).
  { intros [|i] Hi; [reflexivity|]. cbn [padded_bit]. apply Htrue. lia. }
  assert (Hdots : forall bi hi i j, i < n -> j < n ->
             get (tr_dots t1) [bi; hi; i; j] = get (tr_dots t0) [bi; hi; i; j]).
  { intros bi hi i j Hi Hj. rewrite (Hfill bi hi i j Hi Hj), Hpair.
    unfold mask_row. cbn [Nat.eqb]. rewrite (Hbit i Hi), (Hbit j Hj). cbn [andb].
    rewrite Hraw, Hd0. reflexivity. }
  assert (Hattn : forall bi hi i j, i < n -> j < n ->
             get (tr_attn t1) [bi; hi; i; j] = get (tr_attn t0) [bi; hi; i; j]).
  { intros bi hi i j Hi Hj. rewrite Ha1, Ha0, !softmax_get4, Hs1, Hs0. cbn [last].
    apply softmax_row_ext; [exact Hj|].
    intros k Hk. apply Hdots; assumption. }
  exists t0, t1. split; [exact H0|]. split; [exact H1|].
  split; [exact Hdots|]. split; [exact Hattn|].
  apply (Attention_run_same_output None (Some m) t0 t1 H0 H1 Hattn).
Qed.

End AllTrueMask.

Section AllTrueMaskWitness.

Lemma all_true_mask_is_no_mask_witness :
  exists t0 t1,
    Attention_run float32 Eval attention_2 (zeros [1; 3; 1]) None = Ok t0 /\
    Attention_run float32 Eval attention_2 (zeros [1; 3; 1]) (Some (full [1; 2] true))
    = Ok t1 /\
    (forall bi hi i j, i < 3 -> j < 3 ->
       get (tr_dots t1) [bi; hi; i; j] = get (tr_dots t0) [bi; hi; i; j]) /\
    (forall bi hi i j, i < 3 -> j < 3 ->
       get (tr_attn t1) [bi; hi; i; j] = get (tr_attn t0) [bi; hi; i; j]) /\
    (forall bi i o, i < 3 ->
       get (tr_out t1) [bi; i; o] = get (tr_out t0) [bi; i; o]).
Proof.
  apply (all_true_mask_is_no_mask float32 Eval attention_2 (zeros [1; 3; 1]) 1 3
           eq_refl attention_2_heads (full [1; 2] true) 2).
  - reflexivity.
  - reflexivity.
  - intros j _. reflexivity.
Defined.

End AllTrueMaskWitness.

(** ** The feed-forward block *)

Section FeedForwardRows.

(** The feed-forward block works position by position: the output at a
    position of the sequence depends only on the input at that position
    (and on the dropout draws). *)
Theorem FeedForward_is_position_wise (md1 md2 : mode) (f : FeedForward)
    (x x' y y' : tensor R) (bi i : nat) :
  FeedForward_forward md1 md2 f x = Ok y ->
  FeedForward_forward md1 md2 f x' = Ok y' ->
  (forall e, e < ff_dim f -> get x [bi; i; e] = get x' [bi; i; e]) ->
  forall o, get y [bi; i; o] = get y' [bi; i; o].
Proof.
  unfold FeedForward_forward. intros Hy Hy' Hx o.
  destruct (Linear_forward _ x) as [u|] eqn:Eu; [|discriminate].
  destruct (Linear_forward _ x') as [u'|] eqn:Eu'; [|discriminate].
  cbn [bind] in Hy, Hy'.
  destruct (Linear_forward _ (Dropout (ff_dropout f) md1 (tmap (gelu f) u)))
    as [v|] eqn:Ev; [|discriminate].
  destruct (Linear_forward _ (Dropout (ff_dropout f) md1 (tmap (gelu f) u')))
    as [v'|] eqn:Ev'; [|discriminate].
  cbn [bind] in Hy, Hy'. injection Hy as <-. injection Hy' as <-.
  assert (Hu : forall c, get u [bi; i; c] = get u' [bi; i; c]).
  { intros c. rewrite (Linear_forward_get _ x u Eu), (Linear_forward_get _ x' u' Eu').
    cbn [in_features]. f_equal. apply sum_n_ext. intros e He.
    rewrite (Hx e He). reflexivity. }
  assert (Hv : get v [bi; i; o] = get v' [bi; i; o]).
  { rewrite (Linear_forward_get _ _ v Ev), (Linear_forward_get _ _ v' Ev').
    f_equal. apply sum_n_ext. intros c _. rewrite !Dropout_get.
    cbn [tmap get]. rewrite Hu. reflexivity. }
  rewrite !Dropout_get. rewrite Hv. reflexivity.
Qed.

End FeedForwardRows.

Section FeedForwardWitness.

Lemma FeedForward_is_position_wise_witness :
  exists y y',
    FeedForward_forward Eval Eval ff_ones (zeros [1; 2; 2]) = Ok y /\
    FeedForward_forward Eval Eval ff_ones (bump [1; 2; 2]) = Ok y' /\
    forall o, get y [0; 1; o] = get y' [0; 1; o].
Proof.
  destruct (FeedForward_forward_3d Eval Eval ff_ones (zeros [1; 2; 2]) 1 2 eq_refl)
    as [y [Hy _]].
  destruct (FeedForward_forward_3d Eval Eval ff_ones (bump [1; 2; 2]) 1 2 eq_refl)
    as [y' [Hy' _]].
  exists y, y'. split; [exact Hy|]. split; [exact Hy'|].
  apply (FeedForward_is_position_wise Eval Eval ff_ones
           (zeros [1; 2; 2]) (bump [1; 2; 2]) y y' 0 1 Hy Hy').
  intros e _. reflexivity.
Defined.

End FeedForwardWitness.

(** ** The link feature extractor on inputs of rank 3 *)

Section LinkFeaturesRank3.

(** On a 3D input of shape (C,H,W) the forward output is the forward
    output on the tensor of shape (1,C,H,W) with the same entries behind a
    unit batch axis, which is not reshaped again; no channel axis is
    added. *)
Theorem ConvNetSSM_rank3_input_gets_a_batch_axis
    (draws : nat -> mode) (m : ConvNetSSM) (x : tensor R) (C H W : nat) :
  shape x = [C; H; W] ->
  exists x4,
    x4 = unsqueeze 0 x /\
    shape x4 = [1; C; H; W] /\
    (forall k c i j, get x4 [k; c; i; j] = get x [c; i; j]) /\
    canonical x4 = x4 /\
    ConvNetSSM_forward draws m x = ConvNetSSM_forward draws m x4.
Proof.
  intros Hs. destruct (canonical_rank3 x C H W Hs) as [Hc Hs4].
  exists (canonical x).
  assert (Hfix : canonical (canonical x) = canonical x)
    by (apply (canonical_rank4 _ 1 C H W); exact Hs4).
  split; [exact Hc|]. split; [exact Hs4|]. split.
  - intros k c i j. rewrite Hc. reflexivity.
  - split; [exact Hfix|]. unfold ConvNetSSM_forward. rewrite Hfix. reflexivity.
Qed.

Lemma ConvNetSSM_rank3_input_gets_a_batch_axis_witness :
  exists x4,
    x4 = unsqueeze 0 (bump [2; 3; 5]) /\
    shape x4 = [1; 2; 3; 5] /\
    (forall k c i j, get x4 [k; c; i; j] = get (bump [2; 3; 5]) [c; i; j]) /\
    canonical x4 = x4 /\
    ConvNetSSM_forward (fun _ => Eval) ssm_id (bump [2; 3; 5])
    = ConvNetSSM_forward (fun _ => Eval) ssm_id x4.
Proof.
  apply (ConvNetSSM_rank3_input_gets_a_batch_axis (fun _ => Eval) ssm_id
           (bump [2; 3; 5]) 2 3 5).
  reflexivity.
Defined.

End LinkFeaturesRank3.

(** ** The dense graph network: shape errors and the zero adjacency *)

Section DenseGraphMore.
Local Open Scope R_scope.

Lemma DenseGraphConv_forward_nodes (c : DenseGraphConv) (adj feat : matrix) :
  cols adj <> rows feat ->
  DenseGraphConv_forward c adj feat = Raise RuntimeError.
Proof.
  intros Hn. apply Nat.eqb_neq in Hn.
  unfold DenseGraphConv_forward, matmul.
  destruct (out_feats c <? in_feats c)%nat.
  - cbn [weight_matrix rows cols].
    destruct (cols feat =? in_feats c)%nat; [|reflexivity].
    cbn [bind rows cols]. rewrite Hn. reflexivity.
  - rewrite Hn. reflexivity.
Qed.

(** The forward call checks its inputs in the first layer: a feature
    matrix whose number of nodes is not the number of columns of the
    adjacency matrix, or whose width is not [in_size], is rejected. *)
Theorem GCN_DENSE_rejects_mismatched_inputs
    (md1 md2 : mode) (g : GCN_DENSE) (A h : matrix) :
  cols A <> rows h \/ cols h <> in_size g ->
  GCN_DENSE_forward md1 md2 g A h = Raise RuntimeError.
Proof.
  intros H. unfold GCN_DENSE_forward, GCN_DENSE_layer1.
  destruct H as [H|H].
  - rewrite (DenseGraphConv_forward_nodes (conv_1 g) A h H). reflexivity.
  - rewrite (DenseGraphConv_forward_width (conv_1 g) A h H). reflexivity.
Qed.

Lemma GCN_DENSE_rejects_mismatched_inputs_witness :
  GCN_DENSE_forward Eval Eval gcn_biased (zero_matrix 3 3) (zero_matrix 2 1)
  = Raise RuntimeError
  /\ GCN_DENSE_forward Eval Eval gcn_biased (zero_matrix 3 3) (zero_matrix 3 4)
     = Raise RuntimeError.
Proof.
  split.
  - apply (GCN_DENSE_rejects_mismatched_inputs Eval Eval gcn_biased
             (zero_matrix 3 3) (zero_matrix 2 1)).
    left. cbn. discriminate.
  - apply (GCN_DENSE_rejects_mismatched_inputs Eval Eval gcn_biased
             (zero_matrix 3 3) (zero_matrix 3 4)).
    right. cbn. discriminate.
Defined.



End DenseGraphMore.

(** ** The edge-feature graph attention network on admissible graphs *)

Section EdgeAttentionMore.

Lemma has_zero_in_degree_false (g : graph) :
  (forall v, v < num_nodes g -> in_degree g v <> 0) ->
  has_zero_in_degree g = false.
Proof.
  intros H. unfold has_zero_in_degree.
  destruct (existsb _ _) eqn:E; [|reflexivity].
  apply existsb_exists in E. destruct E as [v [Hin Hv]].
  apply in_seq in Hin. apply Nat.eqb_eq in Hv.
  exfalso. apply (H v); [lia | exact Hv].
Qed.

(** [h.flatten(1)] on the output of the first layer puts the heads side by
    side, head after head. *)
Lemma flatten1_heads (h1 : tensor R) (N H D : nat) :
  shape h1 = [N; H; D] ->
  exists hf,
    flatten1 h1 = Ok hf /\ shape hf = [N; D * H] /\
    forall i k c, c < D -> get hf [i; k * D + c] = get h1 [i; k; c].
Proof.
  intros Hs. unfold flatten1. rewrite Hs.
  eexists. split; [reflexivity|]. split.
  - cbn [shape prod]. rewrite Nat.mul_1_r, (Nat.mul_comm H D). reflexivity.
  - intros i k c Hc. cbn [get unravel prod]. rewrite !Nat.mul_1_r, Nat.div_1_r.
    assert (D <> 0) by lia.
    rewrite Nat.div_add_l by assumption.
    rewrite (Nat.div_small c D Hc), Nat.add_0_r.
    rewrite (Nat.add_comm (k * D) c), Nat.Div0.mod_add, (Nat.mod_small c D Hc).
    reflexivity.
Qed.

(** On a graph in which every node has an incoming edge the degree check
    passes.  With first-layer outputs of shape (N, heads, in_size), the
    heads are put side by side into a tensor of shape (N, in_size * heads),
    which is the input width that the second layer is built with; the
    output is the mean over the heads of the second layer's output, of
    shape (N, in_size). *)
Theorem EGAT_concatenates_then_averages_the_heads
    (n_in n_feat n_heads : nat)
    (p_1 p_2 : graph -> tensor R -> tensor R -> result (tensor R))
    (g : graph) (h edge_feat h1 : tensor R) (N : nat) :
  (forall v, v < num_nodes g -> in_degree g v <> 0) ->
  p_1 g h edge_feat = Ok h1 -> shape h1 = [N; n_heads; n_in] ->
  exists hf,
    flatten1 h1 = Ok hf /\
    shape hf = [N; eg_in_feats (layer_2 (EGAT_init n_in n_feat n_heads p_1 p_2))] /\
    (forall i k c, c < n_in -> get hf [i; k * n_in + c] = get h1 [i; k; c]) /\
    forall h2,
      p_2 g (tmap elu hf) edge_feat = Ok h2 -> shape h2 = [N; n_heads; n_in] ->
      exists out,
        EGAT_forward (EGAT_init n_in n_feat n_heads p_1 p_2) g h edge_feat = Ok out /\
        shape out = [N; n_in] /\
        forall i c,
          get out [i; c]
          = (sum_n n_heads (fun k => get h2 [i; k; c]) / INR n_heads)%R.
Proof.
  intros Hdeg Hp1 Hs1.
  destruct (flatten1_heads h1 N n_heads n_in Hs1) as [hf [Hf [Hfs Hfg]]].
  exists hf. split; [exact Hf|]. split; [exact Hfs|]. split; [exact Hfg|].
  intros h2 Hp2 Hs2.
  unfold EGAT_forward, EdgeGATConv_forward.
  rewrite (has_zero_in_degree_false g Hdeg), !andb_false_r.
  cbn [EGAT_init layer_1 layer_2 propagate].
  rewrite Hp1. cbn [bind]. rewrite Hf. cbn [bind]. rewrite Hp2. cbn [bind].
  unfold mean1. rewrite Hs2.
  eexists. split; [reflexivity|]. split; reflexivity.
Qed.

Lemma EGAT_concatenates_then_averages_the_heads_witness :
  exists out,
    EGAT_forward
      (EGAT_init 3 8 4 (fun _ _ _ => Ok (zeros [2; 4; 3])) (fun _ _ _ => Ok (zeros [2; 4; 3])))
      graph_cycle (zeros [2; 3]) (zeros [2; 8]) = Ok out /\
    shape out = [2; 3].
Proof.
  destruct (EGAT_concatenates_then_averages_the_heads 3 8 4
              (fun _ _ _ => Ok (zeros [2; 4; 3])) (fun _ _ _ => Ok (zeros [2; 4; 3]))
              graph_cycle (zeros [2; 3]) (zeros [2; 8]) (zeros [2; 4; 3]) 2)
    as [hf [_ [_ [_ H]]]].
  - intros [|[|v]] Hv; cbn; try discriminate. cbn in Hv. lia.
  - reflexivity.
  - reflexivity.
  - destruct (H (zeros [2; 4; 3]) eq_refl eq_refl) as [out [Ho [Hs _]]].
    exists out. split; [exact Ho | exact Hs].
Defined.

End EdgeAttentionMore.

(** ** The number of rows of a mask *)

Section MaskRowCount.

(** With a mask of the right width, the call returns exactly when the mask
    has one row or as many rows as the attention has heads; the batch size
    of the input plays no part. *)
Theorem mask_rows_must_be_one_or_heads
    (fmt : float_format) (md : mode) (a : Attention) (x : tensor R)
    (m : tensor bool) (b n bm l : nat) :
  shape x = [b; n; dim a] -> heads a <> 0 -> shape m = [bm; l] -> S l = n ->
  (succeeds (Attention_forward fmt md a x (Some m)) <-> bm = 1 \/ bm = heads a) /\
  (bm <> 1 -> bm <> heads a ->
   Attention_forward fmt md a x (Some m) = Raise RuntimeError).
Proof.
  intros Hx Hh Hm Hl.
  assert (Hfail : bm <> 1 -> bm <> heads a ->
                  Attention_forward fmt md a x (Some m) = Raise RuntimeError).
  { intros H1 H2. apply Attention_forward_raise.
    apply (Attention_run_mask_not_broadcast fmt md a x b n Hx Hh m bm l Hm Hl H1 H2). }
  split; [split|exact Hfail].
  - intros [y Hy].
    destruct (Nat.eq_dec bm 1) as [E1|E1]; [left; exact E1|].
    destruct (Nat.eq_dec bm (heads a)) as [E2|E2]; [right; exact E2|].
    rewrite (Hfail E1 E2) in Hy. discriminate.
  - intros Hbm.
    destruct (Attention_run_masked fmt md a x b n Hx Hh m bm l Hm Hl Hbm)
      as [t [pm [Hrun _]]].
    exists (tr_out t). apply Attention_forward_run. exact Hrun.
Qed.

Lemma mask_rows_must_be_one_or_heads_witness :
  succeeds (Attention_forward float32 Eval attention_2 (zeros [5; 3; 1])
              (Some (full [2; 2] true))) /\
  Attention_forward float32 Eval attention_2 (zeros [5; 3; 1]) (Some (full [5; 2] true))
  = Raise RuntimeError.
Proof.
  split.
  - apply (mask_rows_must_be_one_or_heads float32 Eval attention_2 (zeros [5; 3; 1])
             (full [2; 2] true) 5 3 2 2 eq_refl attention_2_heads eq_refl eq_refl).
    right. reflexivity.
  - apply (mask_rows_must_be_one_or_heads float32 Eval attention_2 (zeros [5; 3; 1])
             (full [5; 2] true) 5 3 5 2 eq_refl attention_2_heads eq_refl eq_refl);
      cbn; lia.
Defined.

End MaskRowCount.
